(** * DocuAI: the incremental analysis pipeline of [rag_documentation_system.py]

    A shallow embedding of [CodebaseRAG]: the path filter, the scanner, the
    content fingerprint, the JSON cache, the per-file analyzer, the parallel
    dispatcher and the document assembler; then of the worker behind the
    window of [rag_gui.py]; followed by the properties of both.

    Modelling conventions.
    - A Python [str] is a [string]; characters are 8-bit codes and case
      mapping touches the ASCII letters only.
    - A [pathlib.Path] is the list of its segments below the file-system
      root (POSIX flavour): [Path("/srv/app/a.py")] is ["srv"; "app"; "a.py"].
    - A Python [dict] is an association list in insertion order with unique
      keys; [dict_set] is [d[k] = v].
    - Python values that travel through the cache are JSON values ([json]);
      operations that Python resolves dynamically return [exn + _].
    - Effects are explicit: a computation is a function from the [World]
      (file system, prompts sent to the model so far, files written so far)
      to an outcome and a new world. [print] calls are not modelled.
    - The file system has directories and regular files, no symbolic links;
      a file is held as its text, decoding and encoding being UTF-8 both
      ways.
    - Of the [json] module the model has the values the program writes and
      reads back: floats, the escapes above the 8-bit alphabet and CPython's
      limit on the digits of an integer literal are left out.
    - Of the operating system the model has the refusal to open a file or
      to make a directory ([denied]).  An existence test is always answered
      and a write puts the whole text or nothing: a directory that cannot
      be searched, on which [Path.exists] raises, a write cut off after the
      file was opened, and a console that cannot encode what is printed
      are left out.  What is proved of the outcome of a run is proved of
      the runs in which none of these happens. *)

From Stdlib Require Import List String Ascii ZArith Lia Bool Arith.
From Stdlib Require Import Permutation.
From Stdlib Require DecimalString DecimalN DecimalPos DecimalFacts.
Import ListNotations.

Local Open Scope string_scope.
Local Open Scope list_scope.

(* ================================================================== *)
(** ** Python strings *)

Module PyStr.

Definition is_upper (c : ascii) : bool :=
  let n := nat_of_ascii c in (65 <=? n)%nat && (n <=? 90)%nat.

Definition is_lower (c : ascii) : bool :=
  let n := nat_of_ascii c in (97 <=? n)%nat && (n <=? 122)%nat.

Definition lower_char (c : ascii) : ascii :=
  if is_upper c then ascii_of_nat (nat_of_ascii c + 32) else c.

Definition upper_char (c : ascii) : ascii :=
  if is_lower c then ascii_of_nat (nat_of_ascii c - 32) else c.

(** [s.lower()] *)
Fixpoint lower (s : string) : string :=
  match s with
  | EmptyString => EmptyString
  | String c s' => String (lower_char c) (lower s')
  end.

(** [s.startswith(p)] *)
Fixpoint startswith (p s : string) : bool :=
  match p, s with
  | EmptyString, _ => true
  | String a p', String b s' => Ascii.eqb a b && startswith p' s'
  | String _ _, EmptyString => false
  end.

(** [needle in hay] *)
Fixpoint contains (needle hay : string) : bool :=
  startswith needle hay ||
  match hay with
  | EmptyString => false
  | String _ hay' => contains needle hay'
  end.

(** [s[:n]] *)
Fixpoint take (n : nat) (s : string) : string :=
  match n, s with
  | O, _ => EmptyString
  | S _, EmptyString => EmptyString
  | S n', String c s' => String c (take n' s')
  end.

(** [s.replace(a, b)] for single characters. *)
Fixpoint replace_char (a b : ascii) (s : string) : string :=
  match s with
  | EmptyString => EmptyString
  | String c s' =>
      String (if Ascii.eqb c a then b else c) (replace_char a b s')
  end.

(** [s.title()]: the first letter of every run of letters is upper-cased,
    the others are lower-cased. *)
Fixpoint title_from (previous_is_cased : bool) (s : string) : string :=
  match s with
  | EmptyString => EmptyString
  | String c s' =>
      if is_lower c then
        String (if previous_is_cased then c else upper_char c)
               (title_from true s')
      else if is_upper c then
        String (if previous_is_cased then lower_char c else c)
               (title_from true s')
      else String c (title_from false s')
  end.

Definition title (s : string) : string := title_from false s.

(** [len(s.split(sep))] for a one-character separator. *)
Fixpoint count_char (sep : ascii) (s : string) : nat :=
  match s with
  | EmptyString => O
  | String c s' => (if Ascii.eqb c sep then 1 else 0) + count_char sep s'
  end.

Definition split_len (sep : ascii) (s : string) : nat :=
  S (count_char sep s).

(** [sep.join(l)] *)
Definition join (sep : string) (l : list string) : string :=
  String.concat sep l.

Definition newline : string := String (ascii_of_nat 10) EmptyString.

End PyStr.

(* ================================================================== *)
(** ** [fnmatch.fnmatch] (POSIX: no case folding) *)

Module Fnmatch.

(** [fnmatch.fnmatchcase(name, pat)] for patterns built from literal
    characters, [*] (any run of characters) and [?] (any one character).
    Bracket expressions are not modelled: no configured ignore pattern
    contains a bracket ([ScannerFacts.ignore_patterns_plain]). *)
Fixpoint fnmatchcase_pat (pat : string) : string -> bool :=
  match pat with
  | EmptyString =>
      fun name => match name with EmptyString => true | _ => false end
  | String p pat' =>
      if Ascii.eqb p "*" then
        fix star (name : string) : bool :=
          fnmatchcase_pat pat' name ||
          match name with
          | EmptyString => false
          | String _ name' => star name'
          end
      else if Ascii.eqb p "?" then
        fun name =>
          match name with
          | EmptyString => false
          | String _ name' => fnmatchcase_pat pat' name'
          end
      else
        fun name =>
          match name with
          | EmptyString => false
          | String c name' => Ascii.eqb c p && fnmatchcase_pat pat' name'
          end
  end.

Definition fnmatch (name pat : string) : bool := fnmatchcase_pat pat name.

End Fnmatch.

(* ================================================================== *)
(** ** [pathlib.Path] *)

Module PyPath.

Definition path := list string.

(** [str(path)] *)
Definition to_str (p : path) : string :=
  "/" ++ PyStr.join "/" p.

(** [path.name] *)
Definition name (p : path) : string := last p EmptyString.

(** [path / segment] *)
Definition child (p : path) (segment : string) : path := p ++ [segment].

(** The part of [s] from its last dot on, when it has one. *)
Fixpoint from_last_dot (s : string) : option string :=
  match s with
  | EmptyString => None
  | String c s' =>
      match from_last_dot s' with
      | Some r => Some r
      | None => if Ascii.eqb c "." then Some s else None
      end
  end.

(** [path.suffix]: with [i = name.rfind('.')], [name[i:]] when
    [0 < i < len(name) - 1], the empty string otherwise. *)
Definition suffix (p : path) : string :=
  match name p with
  | EmptyString => EmptyString
  | String _ rest =>
      match from_last_dot rest with
      | Some suf => if (String.length suf =? 1)%nat then EmptyString else suf
      | None => EmptyString
      end
  end.

(** [path.stem] of a one-segment string, as [Path(s).stem] uses it. *)
Definition drop_right (n : nat) (s : string) : string :=
  PyStr.take (String.length s - n) s.

Definition stem (p : path) : string :=
  drop_right (String.length (suffix p)) (name p).

(** [path.relative_to(root)]: [None] is Python's [ValueError]. *)
Fixpoint relative_to (root p : path) : option path :=
  match root, p with
  | [], _ => Some p
  | r :: root', x :: p' =>
      if String.eqb r x then relative_to root' p' else None
  | _ :: _, [] => None
  end.

(** [str(path.relative_to(root))]; the empty relative path prints as a dot. *)
Definition rel_str (rel : path) : string :=
  match rel with
  | [] => "."
  | _ => PyStr.join "/" rel
  end.

(** The segments of a string, cut at the slashes. *)
Fixpoint split_segments (cur : string) (s : string) : list string :=
  match s with
  | EmptyString => [cur]
  | String c s' =>
      if Ascii.eqb c "/" then cur :: split_segments EmptyString s'
      else split_segments (cur ++ String c EmptyString) s'
  end.

(** [Path(s)]: empty segments and single dots are dropped. *)
Definition of_str (s : string) : path :=
  filter (fun seg => negb (String.eqb seg EmptyString || String.eqb seg "."))
         (split_segments EmptyString s).

End PyPath.
Import PyPath.

(* ================================================================== *)
(** ** PathFilter: [code_extensions], [ignore_patterns], [should_ignore] *)

Module Filter.

Definition code_extensions : list string :=
  [".py"; ".js"; ".ts"; ".jsx"; ".tsx"; ".java"; ".cpp"; ".c"; ".h";
   ".cs"; ".php"; ".rb"; ".go"; ".rs"; ".swift"; ".kt"; ".scala";
   ".html"; ".css"; ".scss"; ".sass"; ".vue"; ".svelte"; ".sql";
   ".sh"; ".bash"; ".ps1"; ".yaml"; ".yml"; ".json"; ".xml"; ".toml"].

Definition ignore_patterns : list string :=
  ["__pycache__"; ".git"; ".vscode"; ".idea"; "node_modules";
   "*.pyc"; "*.pyo"; "*.pyd"; ".DS_Store"; "Thumbs.db";
   ".env"; ".env.*"; "*.log"; "*.tmp"; "*.cache";
   ".rag_cache"; "venv"; "env"; ".venv"].

(** [should_ignore(path)] *)
Definition should_ignore (p : path) : bool :=
  existsb
    (fun pattern =>
       Fnmatch.fnmatch (PyPath.name p) pattern
       || Fnmatch.fnmatch (PyPath.to_str p) pattern)
    ignore_patterns.

Definition in_strings (s : string) (l : list string) : bool :=
  existsb (String.eqb s) l.

(** [file_path.suffix.lower() in self.code_extensions] *)
Definition has_code_extension (p : path) : bool :=
  in_strings (PyStr.lower (PyPath.suffix p)) code_extensions.

End Filter.

(* ================================================================== *)
(** ** Python dictionaries with string keys *)

Module Dict.

Definition dict (A : Type) : Type := list (string * A).

(** [d.get(k)] *)
Fixpoint get {A : Type} (k : string) (d : dict A) : option A :=
  match d with
  | [] => None
  | (k', v) :: d' => if String.eqb k k' then Some v else get k d'
  end.

(** [d[k] = v]: the value of an existing key is replaced in place, a new key
    is added at the end. *)
Fixpoint set {A : Type} (k : string) (v : A) (d : dict A) : dict A :=
  match d with
  | [] => [(k, v)]
  | (k', v') :: d' =>
      if String.eqb k k' then (k, v) :: d' else (k', v') :: set k v d'
  end.

(** [k in d] *)
Definition mem {A : Type} (k : string) (d : dict A) : bool :=
  match get k d with Some _ => true | None => false end.

(** [list(d.keys())] *)
Definition keys {A : Type} (d : dict A) : list string := map fst d.

(** [dict(pairs)] *)
Definition of_pairs {A : Type} (pairs : list (string * A)) : dict A :=
  fold_left (fun d kv => set (fst kv) (snd kv) d) pairs [].

(** Python's [d1 == d2]: the same keys with the same values, in any order. *)
Definition equiv {A : Type} (d1 d2 : dict A) : Prop :=
  forall k, get k d1 = get k d2.

End Dict.

(* ================================================================== *)
(** ** The file system *)

Module FS.

(** A file holds its text; a directory lists its entries in the order in
    which the operating system enumerates them.  There are no symbolic
    links. *)
#[warnings="-register-all"]
Inductive node : Type :=
| File (content : string)
| Dir (entries : list (string * node)).

Definition is_dir (n : node) : bool :=
  match n with Dir _ => true | File _ => false end.

(** The node a path leads to. *)
Fixpoint lookup (p : path) (n : node) : option node :=
  match p with
  | [] => Some n
  | x :: p' =>
      match n with
      | File _ => None
      | Dir entries =>
          match Dict.get x entries with
          | Some c => lookup p' c
          | None => None
          end
      end
  end.

(** Put [new] at path [p]; the parent of [p] must be a directory. *)
Fixpoint put (p : path) (new : node) (n : node) : option node :=
  match p with
  | [] => Some new
  | x :: p' =>
      match n with
      | File _ => None
      | Dir entries =>
          match p' with
          | [] => Some (Dir (Dict.set x new entries))
          | _ :: _ =>
              match Dict.get x entries with
              | Some c =>
                  match put p' new c with
                  | Some c' => Some (Dir (Dict.set x c' entries))
                  | None => None
                  end
              | None => None
              end
          end
      end
  end.

(** [os.walk(top)], top-down, as the list of the triples it yields.  The
    consumer may prune [dirs] in place before the walk descends; [keep top d]
    tells whether the consumer keeps the sub-directory [d] of [top]. *)
Fixpoint os_walk (keep : path -> string -> bool) (top : path) (n : node)
  : list (path * list string * list string) :=
  match n with
  | File _ => []
  | Dir entries =>
      let dirs := map fst (filter (fun e => is_dir (snd e)) entries) in
      let nondirs := map fst (filter (fun e => negb (is_dir (snd e))) entries) in
      (top, filter (keep top) dirs, nondirs)
        :: flat_map
             (fun e =>
                if is_dir (snd e) && keep top (fst e)
                then os_walk keep (PyPath.child top (fst e)) (snd e)
                else [])
             entries
  end.

End FS.

(* ================================================================== *)
(** ** Scanner *)

Module Scanner.

(** The body of the loop of [scan_codebase] for one triple of the walk. *)
Definition scan_dir (root : path) (filenames : list string) : list path :=
  filter
    (fun file_path =>
       negb (Filter.should_ignore file_path)
       && Filter.has_code_extension file_path)
    (map (PyPath.child root) filenames).

(** [dirs[:] = [d for d in dirs if not self.should_ignore(Path(root) / d)]] *)
Definition keep_dir (root : path) (d : string) : bool :=
  negb (Filter.should_ignore (PyPath.child root d)).

(** [scan_codebase()] on the tree below [root_path]; a root that is not a
    directory makes [os.walk] yield nothing. *)
Definition scan_codebase (fs : FS.node) (root_path : path) : list path :=
  match FS.lookup root_path fs with
  | Some n =>
      flat_map (fun t => scan_dir (fst (fst t)) (snd t))
               (FS.os_walk keep_dir root_path n)
  | None => []
  end.

End Scanner.


(* ================================================================== *)
(** ** JSON values and the [json] module *)

Module Json.

(** What [json.load] builds: [None], [bool], [int], [str], [list], [dict].
    Number literals with a fraction or an exponent (Python floats) are not
    modelled. *)
#[warnings="-register-all"]
Inductive json : Type :=
| JNull
| JBool (b : bool)
| JInt (n : Z)
| JStr (s : string)
| JArr (items : list json)
| JObj (members : list (string * json)).

Definition chars := list ascii.

Definition lit (s : string) : chars := list_ascii_of_string s.

Definition code (c : ascii) : nat := nat_of_ascii c.

(** The double quote and the backslash. *)
Definition DQ : ascii := ascii_of_nat 34.
Definition BS : ascii := ascii_of_nat 92.

(** *** Encoder: [json.dump(obj, f, indent=2, ensure_ascii=False)] *)

Definition hex_digit (n : nat) : ascii :=
  nth n (lit "0123456789abcdef") "0"%char.

(** [ESCAPE_DCT] of [json.encoder]: the quote, the backslash and the control
    characters are escaped, everything else is written as it is. *)
Definition escape_char (c : ascii) : chars :=
  if Ascii.eqb c DQ then [BS; DQ]
  else if Ascii.eqb c BS then [BS; BS]
  else if (code c =? 10)%nat then lit "\n"
  else if (code c =? 13)%nat then lit "\r"
  else if (code c =? 9)%nat then lit "\t"
  else if (code c =? 8)%nat then lit "\b"
  else if (code c =? 12)%nat then lit "\f"
  else if (code c <? 32)%nat then
    lit "\u00" ++ [hex_digit (code c / 16); hex_digit (code c mod 16)]
  else [c].

Definition encode_string (s : string) : chars :=
  DQ :: flat_map escape_char (list_ascii_of_string s) ++ [DQ].

Fixpoint chars_of_uint (d : Decimal.uint) : chars :=
  match d with
  | Decimal.Nil => []
  | Decimal.D0 d => "0"%char :: chars_of_uint d
  | Decimal.D1 d => "1"%char :: chars_of_uint d
  | Decimal.D2 d => "2"%char :: chars_of_uint d
  | Decimal.D3 d => "3"%char :: chars_of_uint d
  | Decimal.D4 d => "4"%char :: chars_of_uint d
  | Decimal.D5 d => "5"%char :: chars_of_uint d
  | Decimal.D6 d => "6"%char :: chars_of_uint d
  | Decimal.D7 d => "7"%char :: chars_of_uint d
  | Decimal.D8 d => "8"%char :: chars_of_uint d
  | Decimal.D9 d => "9"%char :: chars_of_uint d
  end.

(** [int.__repr__] *)
Definition encode_int (n : Z) : chars :=
  match n with
  | Z0 => lit "0"
  | Zpos p => chars_of_uint (Pos.to_uint p)
  | Zneg p => "-"%char :: chars_of_uint (Pos.to_uint p)
  end.

Definition LF : ascii := ascii_of_nat 10.

(** ['\n' + ' ' * (2 * level)] *)
Definition newline_indent (level : nat) : chars :=
  LF :: repeat " "%char (2 * level).

(** The items of a container, each followed by the separator but the last. *)
Fixpoint sep_concat {A : Type} (enc : A -> chars) (sep : chars) (l : list A)
  : chars :=
  match l with
  | [] => []
  | x :: l' =>
      match l' with
      | [] => enc x
      | _ :: _ => enc x ++ sep ++ sep_concat enc sep l'
      end
  end.

(** [_iterencode] at nesting depth [level]. *)
Fixpoint encode (level : nat) (v : json) : chars :=
  match v with
  | JNull => lit "null"
  | JBool true => lit "true"
  | JBool false => lit "false"
  | JInt n => encode_int n
  | JStr s => encode_string s
  | JArr items =>
      match items with
      | [] => lit "[]"
      | _ :: _ =>
          "["%char :: newline_indent (S level)
            ++ sep_concat (encode (S level))
                 (","%char :: newline_indent (S level)) items
            ++ newline_indent level ++ ["]"%char]
      end
  | JObj members =>
      match members with
      | [] => lit "{}"
      | _ :: _ =>
          "{"%char :: newline_indent (S level)
            ++ sep_concat
                 (fun kv =>
                    encode_string (fst kv) ++ lit ": "
                      ++ encode (S level) (snd kv))
                 (","%char :: newline_indent (S level)) members
            ++ newline_indent level ++ ["}"%char]
      end
  end.

Definition dumps (v : json) : string := string_of_list_ascii (encode 0 v).

(** *** Decoder: [json.load(f)] *)

Definition is_ws (c : ascii) : bool :=
  Ascii.eqb c " " || (code c =? 9)%nat || (code c =? 10)%nat
  || (code c =? 13)%nat.

Fixpoint skip_ws (s : chars) : chars :=
  match s with
  | c :: s' => if is_ws c then skip_ws s' else s
  | [] => []
  end.

Definition hex_value (c : ascii) : option nat :=
  let n := code c in
  if (48 <=? n)%nat && (n <=? 57)%nat then Some (n - 48)
  else if (97 <=? n)%nat && (n <=? 102)%nat then Some (n - 87)
  else if (65 <=? n)%nat && (n <=? 70)%nat then Some (n - 55)
  else None.

(** The character a backslash escape stands for ([BACKSLASH] of
    [json.decoder]). *)
Definition unescape (e : ascii) : option ascii :=
  if Ascii.eqb e DQ then Some DQ
  else if Ascii.eqb e BS then Some BS
  else if Ascii.eqb e "/" then Some "/"%char
  else if Ascii.eqb e "b" then Some (ascii_of_nat 8)
  else if Ascii.eqb e "f" then Some (ascii_of_nat 12)
  else if Ascii.eqb e "n" then Some (ascii_of_nat 10)
  else if Ascii.eqb e "r" then Some (ascii_of_nat 13)
  else if Ascii.eqb e "t" then Some (ascii_of_nat 9)
  else None.

(** [scanstring] in strict mode, from just after the opening quote.  An
    escape [\uXXXX] above the 8-bit alphabet is outside the model and is
    rejected. *)
Fixpoint scanstring (s : chars) : option (chars * chars) :=
  match s with
  | [] => None
  | c :: s1 =>
      if Ascii.eqb c DQ then Some ([], s1)
      else if Ascii.eqb c BS then
        match s1 with
        | [] => None
        | e :: s2 =>
            if Ascii.eqb e "u" then
              match s2 with
              | h1 :: h2 :: h3 :: h4 :: s3 =>
                  match hex_value h1, hex_value h2, hex_value h3, hex_value h4
                  with
                  | Some 0, Some 0, Some a, Some b =>
                      match scanstring s3 with
                      | Some (r, rest) =>
                          Some (ascii_of_nat (16 * a + b) :: r, rest)
                      | None => None
                      end
                  | _, _, _, _ => None
                  end
              | _ => None
              end
            else
              match unescape e with
              | Some d =>
                  match scanstring s2 with
                  | Some (r, rest) => Some (d :: r, rest)
                  | None => None
                  end
              | None => None
              end
        end
      else if (code c <? 32)%nat then None
      else
        match scanstring s1 with
        | Some (r, rest) => Some (c :: r, rest)
        | None => None
        end
  end.

Definition digit_of (c : ascii) : option (Decimal.uint -> Decimal.uint) :=
  if Ascii.eqb c "0" then Some Decimal.D0
  else if Ascii.eqb c "1" then Some Decimal.D1
  else if Ascii.eqb c "2" then Some Decimal.D2
  else if Ascii.eqb c "3" then Some Decimal.D3
  else if Ascii.eqb c "4" then Some Decimal.D4
  else if Ascii.eqb c "5" then Some Decimal.D5
  else if Ascii.eqb c "6" then Some Decimal.D6
  else if Ascii.eqb c "7" then Some Decimal.D7
  else if Ascii.eqb c "8" then Some Decimal.D8
  else if Ascii.eqb c "9" then Some Decimal.D9
  else None.

Definition is_digit (c : ascii) : bool :=
  match digit_of c with Some _ => true | None => false end.

(** The longest run of digits at the head of [s]. *)
Fixpoint scan_digits (s : chars) : Decimal.uint * chars :=
  match s with
  | [] => (Decimal.Nil, [])
  | c :: s' =>
      match digit_of c with
      | Some d => let (ds, rest) := scan_digits s' in (d ds, rest)
      | None => (Decimal.Nil, s)
      end
  end.

(** Whether the fraction or the exponent of [NUMBER_RE] matches at the head
    of [s]; the literal is then a float. *)
Definition float_tail (s : chars) : bool :=
  match s with
  | c :: d :: s' =>
      if Ascii.eqb c "." then is_digit d
      else if Ascii.eqb c "e" || Ascii.eqb c "E" then
        is_digit d
        || ((Ascii.eqb d "+" || Ascii.eqb d "-")
            && match s' with x :: _ => is_digit x | [] => false end)
      else false
  | _ => false
  end.

(** The integer part of [NUMBER_RE] after the optional sign: a lone zero,
    or a run of digits that starts with a non-zero digit. *)
Definition scan_natural (s : chars) : option (N * chars) :=
  match s with
  | [] => None
  | c :: s' =>
      if Ascii.eqb c "0" then Some (0%N, s')
      else if is_digit c then
        let (ds, rest) := scan_digits s in Some (N.of_uint ds, rest)
      else None
  end.

Definition scan_number (s : chars) : option (json * chars) :=
  let (negative, s1) :=
    match s with
    | c :: s' => if Ascii.eqb c "-" then (true, s') else (false, s)
    | [] => (false, s)
    end in
  match scan_natural s1 with
  | Some (n, rest) =>
      if float_tail rest then None
      else Some (JInt (if negative then Z.opp (Z.of_N n) else Z.of_N n), rest)
  | None => None
  end.

(** [s] starts with the characters of [word]: what is left of [s]. *)
Fixpoint expect (word s : chars) : option chars :=
  match word, s with
  | [], _ => Some s
  | a :: word', b :: s' => if Ascii.eqb a b then expect word' s' else None
  | _ :: _, [] => None
  end.

(** [scan_once], [JSONObject] and [JSONArray] of [json.decoder] and
    [json.scanner]; the fuel bounds the number of values and members read. *)
Fixpoint scan_once (fuel : nat) (s : chars) : option (json * chars) :=
  match fuel with
  | O => None
  | S fuel' =>
      match s with
      | [] => None
      | c :: s1 =>
          if Ascii.eqb c DQ then
            match scanstring s1 with
            | Some (r, rest) => Some (JStr (string_of_list_ascii r), rest)
            | None => None
            end
          else if Ascii.eqb c "{" then
            match skip_ws s1 with
            | d :: s2 =>
                if Ascii.eqb d "}" then Some (JObj [], s2)
                else parse_members fuel' [] (d :: s2)
            | [] => None
            end
          else if Ascii.eqb c "[" then
            match skip_ws s1 with
            | d :: s2 =>
                if Ascii.eqb d "]" then Some (JArr [], s2)
                else parse_items fuel' [] (d :: s2)
            | [] => None
            end
          else if Ascii.eqb c "n" then
            match expect (lit "ull") s1 with
            | Some rest => Some (JNull, rest)
            | None => None
            end
          else if Ascii.eqb c "t" then
            match expect (lit "rue") s1 with
            | Some rest => Some (JBool true, rest)
            | None => None
            end
          else if Ascii.eqb c "f" then
            match expect (lit "alse") s1 with
            | Some rest => Some (JBool false, rest)
            | None => None
            end
          else scan_number s
      end
  end

with parse_members (fuel : nat) (acc : list (string * json)) (s : chars)
  : option (json * chars) :=
  match fuel with
  | O => None
  | S fuel' =>
      match s with
      | q :: s1 =>
          if Ascii.eqb q DQ then
            match scanstring s1 with
            | Some (key, s2) =>
                match skip_ws s2 with
                | colon :: s3 =>
                    if Ascii.eqb colon ":" then
                      match scan_once fuel' (skip_ws s3) with
                      | Some (value, s4) =>
                          let acc' :=
                            Dict.set (string_of_list_ascii key) value acc in
                          match skip_ws s4 with
                          | d :: s5 =>
                              if Ascii.eqb d "}" then Some (JObj acc', s5)
                              else if Ascii.eqb d "," then
                                parse_members fuel' acc' (skip_ws s5)
                              else None
                          | [] => None
                          end
                      | None => None
                      end
                    else None
                | [] => None
                end
            | None => None
            end
          else None
      | [] => None
      end
  end

with parse_items (fuel : nat) (acc : list json) (s : chars)
  : option (json * chars) :=
  match fuel with
  | O => None
  | S fuel' =>
      match scan_once fuel' s with
      | Some (value, s1) =>
          match skip_ws s1 with
          | d :: s2 =>
              if Ascii.eqb d "]" then Some (JArr (acc ++ [value]), s2)
              else if Ascii.eqb d "," then
                parse_items fuel' (acc ++ [value]) (skip_ws s2)
              else None
          | [] => None
          end
      | None => None
      end
  end.

(** [json.loads(text)]: one value, white space around it, nothing else.
    [None] is a [JSONDecodeError]. *)
Definition loads (text : string) : option json :=
  let s := list_ascii_of_string text in
  match scan_once (S (List.length s)) (skip_ws s) with
  | Some (v, rest) =>
      match skip_ws rest with
      | [] => Some v
      | _ :: _ => None
      end
  | None => None
  end.

(** *** Dynamic operations of Python on these values *)

Inductive exn : Type :=
| OSError
| ValueError
| TypeError
| AttributeError
| KeyError
| GenerationError.

(** [x == s] for a string [s]. *)
Definition eq_str (x : json) (s : string) : bool :=
  match x with JStr t => String.eqb t s | _ => false end.

(** [k in x] *)
Definition py_in (k : string) (x : json) : exn + bool :=
  match x with
  | JObj d => inr (Dict.mem k d)
  | JArr l => inr (existsb (fun y => eq_str y k) l)
  | JStr s => inr (PyStr.contains k s)
  | _ => inl TypeError
  end.

(** [x[k]] *)
Definition py_getitem (x : json) (k : string) : exn + json :=
  match x with
  | JObj d => match Dict.get k d with Some v => inr v | None => inl KeyError end
  | _ => inl TypeError
  end.

(** [x.get(k)] and [x.get(k, default)] *)
Definition py_get (x : json) (k : string) (default : json) : exn + json :=
  match x with
  | JObj d => match Dict.get k d with Some v => inr v | None => inr default end
  | _ => inl AttributeError
  end.

(** [x[:n]] *)
Definition py_slice (n : nat) (x : json) : exn + json :=
  match x with
  | JStr s => inr (JStr (PyStr.take n s))
  | JArr l => inr (JArr (firstn n l))
  | _ => inl TypeError
  end.

(** [x.lower()] *)
Definition py_lower (x : json) : exn + string :=
  match x with
  | JStr s => inr (PyStr.lower s)
  | _ => inl AttributeError
  end.

(** [bool(x)] *)
Definition truthy (x : json) : bool :=
  match x with
  | JNull => false
  | JBool b => b
  | JInt n => negb (Z.eqb n 0)
  | JStr s => negb (String.eqb s EmptyString)
  | JArr l => match l with [] => false | _ => true end
  | JObj d => match d with [] => false | _ => true end
  end.

End Json.

(* ================================================================== *)
(** ** Effects: the world a run acts on *)

Module Py.
Import Json.

(** What a run can observe and change: the file system, the prompts sent to
    the generation capability so far, the files written so far. *)
Record World : Type := mkWorld {
  fs : FS.node;
  llm_log : list string;
  written : list path
}.

(** What a run depends on but cannot change.
    - [md5_hex] is [hashlib.md5(bytes).hexdigest()];
    - [py_repr] is [str()] of lists and dictionaries;
    - [generate] is the generation capability behind [llm.ask_llm]: its
      answer to a prompt, or the exception it raises, may depend on the
      prompts it was sent before;
    - [denied] tells on which paths the operating system refuses to open a
      file or to create a directory. *)
Record Env : Type := mkEnv {
  md5_hex : string -> string;
  py_repr : json -> string;
  generate : list string -> string -> exn + string;
  denied : path -> bool
}.

(** A computation: an exception or a value, and the world it leaves. *)
Definition M (A : Type) : Type := World -> (exn + A) * World.

Definition ret {A : Type} (a : A) : M A := fun w => (inr a, w).

Definition raise {A : Type} (e : exn) : M A := fun w => (inl e, w).

Definition bind {A B : Type} (c : M A) (k : A -> M B) : M B :=
  fun w =>
    match c w with
    | (inr a, w') => k a w'
    | (inl e, w') => (inl e, w')
    end.

(** [try: body / except: handler] *)
Definition try_except {A : Type} (body : M A) (handler : exn -> M A) : M A :=
  fun w =>
    match body w with
    | (inr a, w') => (inr a, w')
    | (inl e, w') => handler e w'
    end.

(** A dynamic operation that may raise. *)
Definition lift {A : Type} (r : exn + A) : M A :=
  match r with
  | inr a => ret a
  | inl e => raise e
  end.

Declare Scope py_scope.
Delimit Scope py_scope with py.
Notation "x <- c ;; k" := (bind c (fun x => k))
  (at level 61, c at next level, right associativity) : py_scope.
Notation "c ;;; k" := (bind c (fun _ => k))
  (at level 61, right associativity) : py_scope.

Local Open Scope py_scope.

(** [for x in l: body x], stopping at the first exception. *)
Fixpoint for_each {A : Type} (l : list A) (body : A -> M unit) : M unit :=
  match l with
  | [] => ret tt
  | x :: l' => body x ;;; for_each l' body
  end.

(** A list comprehension whose element expression may raise. *)
Fixpoint collect {A B : Type} (f : A -> exn + option B) (l : list A)
  : exn + list B :=
  match l with
  | [] => inr []
  | x :: l' =>
      match f x with
      | inl e => inl e
      | inr o =>
          match collect f l' with
          | inl e => inl e
          | inr r => inr (match o with Some b => b :: r | None => r end)
          end
      end
  end.

(** Text mode with [newline=None]: [\r\n] and [\r] are read as [\n]. *)
Fixpoint universal_newlines (s : string) : string :=
  match s with
  | EmptyString => EmptyString
  | String c s' =>
      if (nat_of_ascii c =? 13)%nat then
        match s' with
        | String d s'' =>
            if (nat_of_ascii d =? 10)%nat
            then String d (universal_newlines s'')
            else String (ascii_of_nat 10) (universal_newlines s')
        | EmptyString => String (ascii_of_nat 10) EmptyString
        end
      else String c (universal_newlines s')
  end.

Section Operations.

Variable E : Env.

(** [open(p, 'rb').read()] *)
Definition read_bytes (p : path) : M string :=
  fun w =>
    if denied E p then (inl OSError, w)
    else
      match FS.lookup p (fs w) with
      | Some (FS.File content) => (inr content, w)
      | _ => (inl OSError, w)
      end.

(** [open(p, 'r', encoding='utf-8').read()] *)
Definition read_text (p : path) : M string :=
  content <- read_bytes p ;; ret (universal_newlines content).

(** [open(p, 'w', encoding='utf-8').write(content)] *)
Definition write_text (p : path) (content : string) : M unit :=
  fun w =>
    if denied E p then (inl OSError, w)
    else
      match FS.lookup p (fs w) with
      | Some (FS.Dir _) => (inl OSError, w)
      | _ =>
          match FS.put p (FS.File content) (fs w) with
          | Some fs' =>
              (inr tt,
               {| fs := fs'; llm_log := llm_log w;
                  written := written w ++ [p] |})
          | None => (inl OSError, w)
          end
      end.

(** [p.mkdir(exist_ok=True)]: an existing directory is accepted, no parent
    is created. *)
Definition mkdir_exist_ok (p : path) : M unit :=
  fun w =>
    match FS.lookup p (fs w) with
    | Some (FS.Dir _) => (inr tt, w)
    | Some (FS.File _) => (inl OSError, w)
    | None =>
        if denied E p then (inl OSError, w)
        else
          match FS.put p (FS.Dir []) (fs w) with
          | Some fs' =>
              (inr tt,
               {| fs := fs'; llm_log := llm_log w; written := written w |})
          | None => (inl OSError, w)
          end
    end.

(** [p.exists()] *)
Definition path_exists (p : path) : M bool :=
  fun w =>
    (inr (match FS.lookup p (fs w) with Some _ => true | None => false end), w).

(** Modelled from the spec: [llm.ask_llm(prompt)].  The module [llm] is not
    among the sources; the specification gives the generation capability as
    [generate(prompt: string) -> string], fallible.  The call is logged and
    answered by [generate] of the environment. *)
Definition ask_llm (prompt : string) : M string :=
  fun w =>
    (generate E (llm_log w) prompt,
     {| fs := fs w; llm_log := llm_log w ++ [prompt]; written := written w |}).

(** [str(x)], as an f-string formats a value. *)
Definition py_str (x : json) : string :=
  match x with
  | JStr s => s
  | JInt n => string_of_list_ascii (encode_int n)
  | JNull => "None"
  | JBool true => "True"
  | JBool false => "False"
  | _ => py_repr E x
  end.

End Operations.

End Py.

(* ================================================================== *)
(** ** [class CodebaseRAG] *)

Module Rag.
Import Json Py.
Local Open Scope py_scope.

Definition nl : string := PyStr.newline.

(** The instance attributes that are not constants. *)
Record CodebaseRAG : Type := mkRag {
  root_path : path;
  cache_dir : path
}.

Definition cache_file (self : CodebaseRAG) : path :=
  PyPath.child (cache_dir self) "analysis_cache.json".

(** The prompt of [analyze_file]. *)
Definition analysis_prompt (relative_path content : string) : string :=
  "Analyze this code file and provide a structured summary:" ++ nl ++ nl
  ++ "File: " ++ relative_path ++ nl
  ++ "Content:" ++ nl
  ++ "```" ++ nl
  ++ PyStr.take 4000 content ++ "  # Limit content to avoid token limits" ++ nl
  ++ "```" ++ nl ++ nl
  ++ "Please provide:" ++ nl
  ++ "1. Brief description of what this file does" ++ nl
  ++ "2. Key functions/classes/components" ++ nl
  ++ "3. Dependencies and imports" ++ nl
  ++ "4. Main purpose and role in the project" ++ nl
  ++ "5. Any notable patterns or architecture" ++ nl ++ nl
  ++ "Format as JSON with keys: description, key_components, dependencies, purpose, notes".

(** The record of a file that could not be read. *)
Definition error_record (file_hash : string) : json :=
  JObj [("error", JStr "Could not read file"); ("hash", JStr file_hash)].

(** The record of an analyzed file. *)
Definition analysis_record
  (file_hash relative_path content llm_response : string) : json :=
  JObj [("hash", JStr file_hash);
        ("path", JStr relative_path);
        ("size", JInt (Z.of_nat (String.length content)));
        ("lines", JInt (Z.of_nat (PyStr.split_len (ascii_of_nat 10) content)));
        ("analysis", JStr llm_response);
        ("content_preview", JStr (PyStr.take 500 content))].

(** [relative_path in cache and cache[relative_path].get('hash') == file_hash] *)
Definition cache_hit (cache : json) (relative_path file_hash : string)
  : exn + bool :=
  match py_in relative_path cache with
  | inl e => inl e
  | inr false => inr false
  | inr true =>
      match py_getitem cache relative_path with
      | inl e => inl e
      | inr item =>
          match py_get item "hash" JNull with
          | inl e => inl e
          | inr h => inr (eq_str h file_hash)
          end
      end
  end.

(** The README template, filled. *)
Definition readme_template
  (project_name overview structure components installation usage api_docs
   dependencies contributing license : string) : string :=
  "# " ++ project_name ++ nl ++ nl
  ++ "## Overview" ++ nl ++ overview ++ nl ++ nl
  ++ "## Project Structure" ++ nl ++ structure ++ nl ++ nl
  ++ "## Key Components" ++ nl ++ components ++ nl ++ nl
  ++ "## Installation & Setup" ++ nl ++ installation ++ nl ++ nl
  ++ "## Usage" ++ nl ++ usage ++ nl ++ nl
  ++ "## API Documentation" ++ nl ++ api_docs ++ nl ++ nl
  ++ "## Dependencies" ++ nl ++ dependencies ++ nl ++ nl
  ++ "## Contributing" ++ nl ++ contributing ++ nl ++ nl
  ++ "## License" ++ nl ++ license ++ nl.

Definition overview_prompt (summaries_text : string) : string :=
  "Based on the following code analysis, generate a comprehensive project overview:"
  ++ nl ++ nl ++ summaries_text ++ nl ++ nl
  ++ "Please provide:" ++ nl
  ++ "1. Project name and main purpose" ++ nl
  ++ "2. Architecture overview" ++ nl
  ++ "3. Key technologies and frameworks used" ++ nl
  ++ "4. Main components and their relationships" ++ nl
  ++ "5. Project structure explanation" ++ nl ++ nl
  ++ "Format as a well-structured markdown overview.".

Definition structure_prompt (keys : list string) : string :=
  "Based on these files, create a clean project structure tree:" ++ nl ++ nl
  ++ "Files: " ++ PyStr.join ", " (firstn 30 keys) ++ nl ++ nl
  ++ "Show the directory structure in a clear, organized way.".

Definition setup_markers : list string :=
  [".py"; ".js"; ".json"; ".yaml"; ".requirements"].

Definition setup_prompt (keys : list string) : string :=
  "Based on the project analysis, suggest installation and setup instructions:"
  ++ nl ++ nl
  ++ "Project files suggest: "
  ++ PyStr.join ", "
       (firstn 10
          (filter (fun k => existsb (fun ext => PyStr.contains ext k)
                                    setup_markers) keys))
  ++ nl ++ nl
  ++ "Provide clear, step-by-step setup instructions.".

Definition doc_prompt (file_path analysis content_preview : string) : string :=
  "Create detailed documentation for this code component:" ++ nl ++ nl
  ++ "File: " ++ file_path ++ nl
  ++ "Analysis: " ++ analysis ++ nl
  ++ "Code preview: " ++ content_preview ++ nl ++ nl
  ++ "Generate comprehensive documentation including:" ++ nl
  ++ "1. Purpose and functionality" ++ nl
  ++ "2. Key methods/functions with descriptions" ++ nl
  ++ "3. Usage examples where applicable" ++ nl
  ++ "4. Dependencies and relationships" ++ nl
  ++ "5. Configuration options if any" ++ nl ++ nl
  ++ "Format as clean markdown.".

Definition api_prompt (lines : list string) : string :=
  "Generate API documentation based on these files:" ++ nl ++ nl
  ++ PyStr.join nl lines ++ nl ++ nl
  ++ "Create comprehensive API documentation with endpoints, parameters, and examples.".

(** ['api' in k.lower() or 'endpoint' in v.get('analysis', '').lower()] *)
Definition is_api_file (k : string) (v : json) : exn + bool :=
  if PyStr.contains "api" (PyStr.lower k) then inr true
  else
    match py_get v "analysis" (JStr EmptyString) with
    | inl e => inl e
    | inr a =>
        match py_lower a with
        | inl e => inl e
        | inr low => inr (PyStr.contains "endpoint" low)
        end
    end.

(** [[k for k, v in analysis_results.items() if ...]] *)
Definition api_files (analysis_results : Dict.dict json) : exn + list string :=
  collect
    (fun kv =>
       match is_api_file (fst kv) (snd kv) with
       | inl e => inl e
       | inr true => inr (Some (fst kv))
       | inr false => inr None
       end)
    analysis_results.

(** ['analysis' in analysis and analysis['analysis']] *)
Definition has_analysis (analysis : json) : exn + bool :=
  match py_in "analysis" analysis with
  | inl e => inl e
  | inr false => inr false
  | inr true =>
      match py_getitem analysis "analysis" with
      | inl e => inl e
      | inr a => inr (truthy a)
      end
  end.

Section Methods.

Variable E : Env.

(** [__init__(self, root_path)]; [root_path] is already resolved. *)
Definition __init__ (root : path) : M CodebaseRAG :=
  let self := {| root_path := root;
                 cache_dir := PyPath.child root ".rag_cache" |} in
  mkdir_exist_ok E (cache_dir self) ;;;
  ret self.

(** [get_file_hash(self, file_path)] *)
Definition get_file_hash (self : CodebaseRAG) (file_path : path) : M string :=
  try_except
    (bytes <- read_bytes E file_path ;; ret (md5_hex E bytes))
    (fun _ => ret EmptyString).

(** [load_cache(self)] *)
Definition load_cache (self : CodebaseRAG) : M json :=
  present <- path_exists (cache_file self) ;;
  if (present : bool) then
    try_except
      (text <- read_text E (cache_file self) ;;
       match loads text with
       | Some v => ret v
       | None => raise ValueError
       end)
      (fun _ => ret (JObj []))
  else ret (JObj []).

(** [save_cache(self, cache_data)] *)
Definition save_cache (self : CodebaseRAG) (cache_data : json) : M unit :=
  try_except
    (write_text E (cache_file self) (dumps cache_data))
    (fun _ => ret tt).

(** [scan_codebase(self)] *)
Definition scan_codebase (self : CodebaseRAG) : M (list path) :=
  fun w => (inr (Scanner.scan_codebase (fs w) (root_path self)), w).

(** [str(file_path.relative_to(self.root_path))] *)
Definition relative_str (self : CodebaseRAG) (file_path : path) : M string :=
  match PyPath.relative_to (root_path self) file_path with
  | Some rel => ret (PyPath.rel_str rel)
  | None => raise ValueError
  end.

(** [analyze_file(self, file_path, cache)] *)
Definition analyze_file (self : CodebaseRAG) (file_path : path) (cache : json)
  : M json :=
  relative_path <- relative_str self file_path ;;
  file_hash <- get_file_hash self file_path ;;
  hit <- lift (cache_hit cache relative_path file_hash) ;;
  if (hit : bool) then lift (py_getitem cache relative_path)
  else
    read <- try_except
              (content <- read_text E file_path ;; ret (Some content))
              (fun _ => ret None) ;;
    match read with
    | None => ret (error_record file_hash)
    | Some content =>
        llm_response <- ask_llm E (analysis_prompt relative_path content) ;;
        ret (analysis_record file_hash relative_path content llm_response)
    end.

(** The loop over [as_completed(future_to_file)]: the tasks finish in the
    order [completed]; the result of a task that raised is logged and left
    out, the result of the others is stored under the relative path. *)
Fixpoint collect_results (self : CodebaseRAG) (cache : json)
  (completed : list path) (results : Dict.dict json)
  : M (Dict.dict json) :=
  match completed with
  | [] => ret results
  | file_path :: rest =>
      results' <- try_except
                    (result <- analyze_file self file_path cache ;;
                     relative_path <- relative_str self file_path ;;
                     ret (Dict.set relative_path result results))
                    (fun _ => ret results) ;;
      collect_results self cache rest results'
  end.

(** [analyze_codebase_parallel(self, max_workers)].  The thread pool decides
    in which order the submitted tasks finish: [schedule files] is that
    order, a rearrangement of [files]. *)
Definition analyze_codebase_parallel (self : CodebaseRAG) (max_workers : Z)
  (schedule : list path -> list path) : M (Dict.dict json) :=
  files <- scan_codebase self ;;
  cache <- load_cache self ;;
  results <- (if (max_workers <=? 0)%Z then raise ValueError
              else collect_results self cache (schedule files) []) ;;
  save_cache self (JObj results) ;;;
  ret results.

(** One entry of [file_summaries] in [generate_project_overview]. *)
Definition file_summary (path_key : string) (result : json)
  : exn + option string :=
  match py_in "analysis" result with
  | inl e => inl e
  | inr false => inr None
  | inr true =>
      match py_getitem result "analysis" with
      | inl e => inl e
      | inr a =>
          match py_slice 300 a with
          | inl e => inl e
          | inr a' =>
              inr (Some ("File: " ++ path_key ++ nl
                         ++ "Analysis: " ++ py_str E a' ++ "...")%string)
          end
      end
  end.

Definition file_summaries (analysis_results : Dict.dict json)
  : exn + list string :=
  collect (fun kv => file_summary (fst kv) (snd kv)) analysis_results.

(** [generate_project_overview(self, analysis_results)] *)
Definition generate_project_overview (self : CodebaseRAG)
  (analysis_results : Dict.dict json) : M string :=
  summaries <- lift (file_summaries analysis_results) ;;
  let summaries_text := PyStr.join (nl ++ nl)%string (firstn 20 summaries) in
  ask_llm E (overview_prompt summaries_text).

(** [self.root_path.name.replace('_', ' ').replace('-', ' ').title()] *)
Definition project_name (self : CodebaseRAG) : string :=
  PyStr.title
    (PyStr.replace_char "-" " "
       (PyStr.replace_char "_" " " (PyPath.name (root_path self)))).

(** [generate_readme(self, analysis_results)] *)
Definition generate_readme (self : CodebaseRAG)
  (analysis_results : Dict.dict json) : M string :=
  overview <- generate_project_overview self analysis_results ;;
  structure <- ask_llm E (structure_prompt (Dict.keys analysis_results)) ;;
  installation <- ask_llm E (setup_prompt (Dict.keys analysis_results)) ;;
  ret (readme_template (project_name self) overview structure
         "Generated from code analysis" installation
         "See individual component documentation"
         "See API documentation file"
         "Extracted from project files"
         "Contributions welcome! Please read the code structure first."
         "Please specify license").

(** The body of the loop of [generate_component_docs] for one entry. *)
Definition component_doc (docs_dir : path) (file_path : string)
  (analysis : json) : M unit :=
  documented <- lift (has_analysis analysis) ;;
  if (documented : bool) then
    let component_name := PyPath.stem (PyPath.of_str file_path) in
    text <- lift (py_getitem analysis "analysis") ;;
    preview <- lift (py_get analysis "content_preview" (JStr EmptyString)) ;;
    doc_content <- ask_llm E (doc_prompt file_path (py_str E text)
                                         (py_str E preview)) ;;
    try_except
      (write_text E (PyPath.child docs_dir (component_name ++ ".md")%string)
                  doc_content)
      (fun _ => ret tt)
  else ret tt.

(** [generate_component_docs(self, analysis_results)] *)
Definition generate_component_docs (self : CodebaseRAG)
  (analysis_results : Dict.dict json) : M unit :=
  let docs_dir := PyPath.child (root_path self) "docs" in
  mkdir_exist_ok E docs_dir ;;;
  for_each analysis_results
    (fun kv => component_doc docs_dir (fst kv) (snd kv)).

(** One line of the prompt of the API documentation. *)
Definition api_line (analysis_results : Dict.dict json) (f : string)
  : exn + option string :=
  match Dict.get f analysis_results with
  | None => inl KeyError
  | Some record =>
      match py_get record "analysis" (JStr EmptyString) with
      | inl e => inl e
      | inr a =>
          match py_slice 200 a with
          | inl e => inl e
          | inr a' =>
              inr (Some ("File: " ++ f ++ ", Analysis: " ++ py_str E a'
                         ++ "...")%string)
          end
      end
  end.

Definition api_file_path (self : CodebaseRAG) : path :=
  PyPath.child (root_path self) "API_DOCUMENTATION.md".

(** Step 4 of [generate_all_documentation]: the API documentation. *)
Definition generate_api_documentation (self : CodebaseRAG)
  (analysis_results : Dict.dict json) : M unit :=
  files <- lift (api_files analysis_results) ;;
  match files with
  | [] => ret tt
  | _ :: _ =>
      lines <- lift (collect (api_line analysis_results) (firstn 5 files)) ;;
      api_docs <- ask_llm E (api_prompt lines) ;;
      try_except
        (write_text E (api_file_path self) api_docs)
        (fun _ => ret tt)
  end.

(** [generate_all_documentation(self)]; the analysis runs with the default
    of four workers. *)
Definition generate_all_documentation (self : CodebaseRAG)
  (schedule : list path -> list path) : M unit :=
  analysis_results <- analyze_codebase_parallel self 4 schedule ;;
  readme_content <- generate_readme self analysis_results ;;
  try_except
    (write_text E (PyPath.child (root_path self) "README.md") readme_content)
    (fun _ => ret tt) ;;;
  generate_component_docs self analysis_results ;;;
  generate_api_documentation self analysis_results.

End Methods.

End Rag.


(* ================================================================== *)
(** ** [class RAGDocumentationGUI]: the worker behind the window

    Of the window the model has what decides the files and the prompts: the
    project path, the four check boxes, the flag [is_running] the worker
    polls, and the status the worker reports.  Widgets, the log and the
    progress bar are not modelled.  The project path is absolute and free
    of links, so that [Path(project_path).resolve()] is the path itself. *)

Module Gui.
Import Json Py Rag.
Local Open Scope py_scope.

(** The check boxes. *)
Record Options : Type := mkOptions {
  use_cache : bool;
  generate_readme : bool;
  generate_components : bool;
  generate_api : bool
}.

(** How a run of the worker ends: the status [Completed], the status
    [Error], or a silent return after the stop button, which the window
    shows as stopped. *)
Inductive status : Type := Completed | Error | Stopped.

(** The text the worker writes as API documentation. *)
Definition api_docs : string :=
  "# API Documentation" ++ nl ++ nl ++ "Generated from code analysis." ++ nl.

(** The extensions [scan_project_files] counts. *)
Definition code_extensions : list string :=
  [".py"; ".js"; ".ts"; ".jsx"; ".tsx"; ".java"; ".cpp"; ".c"; ".h"].

(** [path.rglob("*")], restricted to the regular files: every file below
    the directory, in the order of the enumeration. *)
Fixpoint rglob_files (top : path) (n : FS.node) : list path :=
  match n with
  | FS.File _ => []
  | FS.Dir entries =>
      flat_map
        (fun e =>
           match snd e with
           | FS.File _ => [PyPath.child top (fst e)]
           | FS.Dir _ => rglob_files (PyPath.child top (fst e)) (snd e)
           end)
        entries
  end.

(** [scan_project_files]: the number the label shows, [None] when the
    label shows that the path is invalid. *)
Definition scan_project_files (fs : FS.node) (project : path) : option nat :=
  match FS.lookup project fs with
  | None => None
  | Some n =>
      Some (List.length
              (filter (fun file_path =>
                         Filter.in_strings (PyStr.lower (PyPath.suffix file_path))
                                           code_extensions)
                      (rglob_files project n)))
  end.

(** The tree without what [p] leads to; [None] when [p] leads nowhere. *)
Fixpoint remove (p : path) (n : FS.node) : option FS.node :=
  match p with
  | [] => None
  | x :: p' =>
      match n with
      | FS.File _ => None
      | FS.Dir entries =>
          match Dict.get x entries with
          | None => None
          | Some c =>
              match p' with
              | [] =>
                  Some (FS.Dir (filter (fun e => negb (String.eqb (fst e) x))
                                       entries))
              | _ :: _ =>
                  match remove p' c with
                  | Some c' => Some (FS.Dir (Dict.set x c' entries))
                  | None => None
                  end
              end
          end
      end
  end.

Section Worker.

Variable E : Env.

(** [shutil.rmtree(p)]: the directory goes with all it holds; what is not
    a directory, or a directory the operating system refuses, raises.  A
    removal that fails half-way is not modelled. *)
Definition rmtree (p : path) : M unit :=
  fun w =>
    match FS.lookup p (fs w) with
    | Some (FS.Dir _) =>
        if denied E p then (inl OSError, w)
        else
          match remove p (fs w) with
          | Some fs' =>
              (inr tt,
               {| fs := fs'; llm_log := llm_log w; written := written w |})
          | None => (inl OSError, w)
          end
    | _ => (inl OSError, w)
    end.

(** [clear_cache(self)] *)
Definition clear_cache (project : path) : M unit :=
  let cache_dir := PyPath.child project ".rag_cache" in
  try_except
    (present <- path_exists cache_dir ;;
     if (present : bool) then rmtree cache_dir else ret tt)
    (fun _ => ret tt).

(** The loop of [generation_worker] over the scanned files.  The other
    thread may clear [is_running] at any time: [is_running i] is what the
    worker reads at its [i]-th look at the flag, [checks] counts the looks
    so far.  The loop returns the number of looks with the result map. *)
Fixpoint analysis_loop (self : CodebaseRAG) (project : path) (cache : json)
  (is_running : nat -> bool) (files : list path) (checks : nat)
  (analysis_results : Dict.dict json) : M (nat * Dict.dict json) :=
  match files with
  | [] => ret (checks, analysis_results)
  | file_path :: rest =>
      if is_running checks then
        result <- analyze_file E self file_path cache ;;
        relative_path <- match PyPath.relative_to project file_path with
                         | Some rel => ret (PyPath.rel_str rel)
                         | None => raise ValueError
                         end ;;
        analysis_loop self project cache is_running rest (S checks)
          (Dict.set relative_path result analysis_results)
      else ret (S checks, analysis_results)
  end.

(** Step 2 of the worker: the README, written without a guard. *)
Definition readme_step (self : CodebaseRAG) (project : path)
  (analysis_results : Dict.dict json) : M unit :=
  readme_content <- Rag.generate_readme E self analysis_results ;;
  write_text E (PyPath.child project "README.md") readme_content.

(** Step 4 of the worker: the API documentation, a fixed text. *)
Definition api_step (project : path) (analysis_results : Dict.dict json)
  : M unit :=
  files <- lift (api_files analysis_results) ;;
  match files with
  | [] => ret tt
  | _ :: _ => write_text E (PyPath.child project "API_DOCUMENTATION.md") api_docs
  end.

(** [generation_worker(self)]: whatever is raised ends the run with the
    status [Error]. *)
Definition generation_worker (project : path) (options : Options)
  (is_running : nat -> bool) : M status :=
  try_except
    (self <- Rag.__init__ E project ;;
     files <- Rag.scan_codebase self ;;
     cache <- (if use_cache options then Rag.load_cache E self
               else ret (JObj [])) ;;
     looped <- analysis_loop self project cache is_running files 0 [] ;;
     let analysis_results := snd looped in
     if is_running (fst looped) then
       Rag.save_cache E self (JObj analysis_results) ;;;
       (if generate_readme options
        then readme_step self project analysis_results else ret tt) ;;;
       (if generate_components options
        then Rag.generate_component_docs E self analysis_results
        else ret tt) ;;;
       (if generate_api options
        then api_step project analysis_results else ret tt) ;;;
       ret Completed
     else ret Stopped)
    (fun _ => ret Error).

End Worker.

End Gui.


(* ================================================================== *)
(** ** Vocabulary of the properties *)

Module Spec.
Import Json Py Rag.

(** [p] lies strictly beneath the directory [d]. *)
Definition beneath (d p : path) : Prop :=
  exists rest, rest <> [] /\ p = d ++ rest.

(** The directory [d] lies strictly below the scan root. *)
Definition below_root (root d : path) : Prop :=
  exists mid, mid <> [] /\ d = root ++ mid.

(** The directories whose entries the walk of [scan_codebase] enumerates. *)
Definition visited (fs : FS.node) (root : path) : list path :=
  match FS.lookup root fs with
  | Some n => map (fun t => fst (fst t)) (FS.os_walk Scanner.keep_dir root n)
  | None => []
  end.

(** Every step from [top] down along [mid] enters a directory the consumer
    of the walk kept. *)
Inductive kept_chain (keep : path -> string -> bool) : path -> list string -> Prop :=
| kept_here : forall top, kept_chain keep top []
| kept_step : forall top d mid,
    keep top d = true ->
    kept_chain keep (PyPath.child top d) mid ->
    kept_chain keep top (d :: mid).

(** Induction over a file-system tree, with the hypothesis for every entry
    of a directory. *)
Fixpoint node_rect' (P : FS.node -> Prop)
  (HF : forall content, P (FS.File content))
  (HD : forall entries, Forall (fun e => P (snd e)) entries -> P (FS.Dir entries))
  (n : FS.node) : P n :=
  match n with
  | FS.File content => HF content
  | FS.Dir entries =>
      HD entries
         ((fix all (l : list (string * FS.node)) : Forall (fun e => P (snd e)) l :=
             match l with
             | [] => Forall_nil _
             | e :: l' => Forall_cons e (node_rect' P HF HD (snd e)) (all l')
             end) entries)
  end.

(** Induction over a JSON value, with the hypothesis for every item of a
    list and every value of a dictionary. *)
Fixpoint json_rect' (P : json -> Prop)
  (Hnull : P JNull) (Hbool : forall b, P (JBool b))
  (Hint : forall n, P (JInt n)) (Hstr : forall s, P (JStr s))
  (Harr : forall items, Forall P items -> P (JArr items))
  (Hobj : forall members, Forall (fun kv => P (snd kv)) members ->
                          P (JObj members))
  (v : json) : P v :=
  match v with
  | JNull => Hnull
  | JBool b => Hbool b
  | JInt n => Hint n
  | JStr s => Hstr s
  | JArr items =>
      Harr items
        ((fix all (l : list json) : Forall P l :=
            match l with
            | [] => Forall_nil _
            | x :: l' =>
                Forall_cons x
                  (json_rect' P Hnull Hbool Hint Hstr Harr Hobj x) (all l')
            end) items)
  | JObj members =>
      Hobj members
        ((fix all (l : list (string * json))
            : Forall (fun kv => P (snd kv)) l :=
            match l with
            | [] => Forall_nil _
            | kv :: l' =>
                Forall_cons kv
                  (json_rect' P Hnull Hbool Hint Hstr Harr Hobj (snd kv))
                  (all l')
            end) members)
  end.

(** No string occurs twice. *)
Fixpoint distinct (l : list string) : bool :=
  match l with
  | [] => true
  | k :: l' => negb (existsb (String.eqb k) l') && distinct l'
  end.

(** A well-formed value is one a Python program can hold: no dictionary in
    it has the same key twice. *)
Fixpoint well_formed (v : json) : bool :=
  match v with
  | JArr items => forallb well_formed items
  | JObj members =>
      distinct (map fst members)
      && forallb (fun kv => well_formed (snd kv)) members
  | _ => true
  end.

(** No carriage return among the characters. *)
Definition no_cr (s : chars) : bool :=
  forallb (fun c => negb (code c =? 13)%nat) s.

(** What may follow a value in a document: nothing, a comma, a line feed. *)
Definition closes (rest : chars) : Prop :=
  match rest with
  | [] => True
  | c :: _ => c = ","%char \/ c = LF
  end.

(** A project with sources, a directory named [ignore], version-control and
    dependency directories, a text file and a compiled file. *)
Definition scenario_disk : FS.node :=
  FS.Dir
    [("srv",
      FS.Dir
        [("app",
          FS.Dir [("a.py", FS.File "def f(): pass");
                  ("ignore", FS.Dir [("b.py", FS.File "x = 1")]);
                  (".git", FS.Dir [("config", FS.File "[core]");
                                   ("hook.py", FS.File "import sys")]);
                  ("node_modules",
                   FS.Dir [("lib", FS.Dir [("index.js", FS.File "exports")])]);
                  ("notes.txt", FS.File "hello");
                  ("Main.PY", FS.File "print(1)");
                  ("x.pyc", FS.File "compiled")])])].

(** A project directory named like a virtual environment. *)
Definition env_disk : FS.node :=
  FS.Dir [("srv", FS.Dir [("env", FS.Dir [("app.py", FS.File "print(1)")])])].

Definition env_root : path := ["srv"; "env"].

(** The digest [get_file_hash] computes in the world [w]. *)
Definition fingerprint (E : Env) (w : World) (p : path) : string :=
  match fst (read_bytes E p w) with
  | inr bytes => md5_hex E bytes
  | inl _ => EmptyString
  end.

(** The cache lookup for a file misses, or hits a record that is itself the
    record of an unreadable file. *)
Definition misses_or_holds_error (cache : json)
  (relative_path file_hash : string) : Prop :=
  cache_hit cache relative_path file_hash = inr false
  \/ (cache_hit cache relative_path file_hash = inr true
      /\ py_getitem cache relative_path = inr (error_record file_hash)).

(** The world after one more prompt was sent. *)
Definition prompted (w : World) (prompt : string) : World :=
  {| fs := fs w; llm_log := llm_log w ++ [prompt]; written := written w |}.

(** The key under which the dispatcher stores the record of a file. *)
Definition rel_key (self : CodebaseRAG) (file_path : path) : option string :=
  option_map PyPath.rel_str (PyPath.relative_to (root_path self) file_path).

(** The cache a run starts from. *)
Definition loaded_cache (E : Env) (self : CodebaseRAG) (w : World) : json :=
  match fst (load_cache E self w) with
  | inr cache => cache
  | inl _ => JObj []
  end.

(** The generation capability answers a prompt the same way whatever it was
    sent before. *)
Definition deterministic (E : Env) : Prop :=
  forall log1 log2 prompt, generate E log1 prompt = generate E log2 prompt.

(** Whatever prompts were sent before, the analysis of [file_path] on the
    disk [disk] has the outcome [outcome]. *)
Definition always (E : Env) (self : CodebaseRAG) (cache : json)
  (disk : FS.node) (file_path : path) (outcome : exn + json) : Prop :=
  forall w, fs w = disk -> fst (analyze_file E self file_path cache w) = outcome.

(** The files of a run. *)
Definition scanned (self : CodebaseRAG) (w : World) : list path :=
  Scanner.scan_codebase (fs w) (root_path self).

(** The analysis text of a record, empty when it has none. *)
Definition analysis_text (record : json) : string :=
  match record with
  | JObj fields =>
      match Dict.get "analysis" fields with
      | Some (JStr a) => a
      | _ => EmptyString
      end
  | _ => EmptyString
  end.

(** A record is a dictionary whose [analysis], when present, is a string. *)
Definition typed_record (record : json) : bool :=
  match record with
  | JObj fields =>
      match Dict.get "analysis" fields with
      | Some (JStr _) | None => true
      | Some _ => false
      end
  | _ => false
  end.

Definition typed (results : Dict.dict json) : bool :=
  forallb (fun kv => typed_record (snd kv)) results.

(** The test of the code: [api] in the path, or [endpoint] in the analysis
    text, both in lower case. *)
Definition qualifies (kv : string * json) : bool :=
  PyStr.contains "api" (PyStr.lower (fst kv))
  || PyStr.contains "endpoint" (PyStr.lower (analysis_text (snd kv))).

(** The test of the claim: either keyword in the path or in the analysis
    text, in lower case. *)
Definition mentions_api_keyword (kv : string * json) : bool :=
  existsb
    (fun keyword =>
       PyStr.contains keyword (PyStr.lower (fst kv))
       || PyStr.contains keyword (PyStr.lower (analysis_text (snd kv))))
    ["api"; "endpoint"].

(** The cache file can be written: its directory exists, it is not itself a
    directory, and the operating system does not refuse it. *)
Definition writable (E : Env) (self : CodebaseRAG) (w : World) : Prop :=
  (exists entries,
      FS.lookup (cache_dir self) (fs w) = Some (FS.Dir entries)
      /\ forall es, Dict.get "analysis_cache.json" entries <> Some (FS.Dir es))
  /\ denied E (cache_file self) = false.

(** The computation only adds, to the list of written files, paths that
    satisfy [P]. *)
Definition appends {A : Type} (P : path -> Prop) (c : M A) : Prop :=
  forall w, exists extra,
      written (snd (c w)) = written w ++ extra /\ Forall P extra.

(** What one completed task leaves in the result map. *)
Definition store (self : CodebaseRAG) (results : Dict.dict json)
  (file_path : path) (outcome : exn + json) : Dict.dict json :=
  match outcome, rel_key self file_path with
  | inr record, Some key => Dict.set key record results
  | _, _ => results
  end.

(** The first character of an encoding: no white space, no closing
    bracket. *)
Definition opens (c : ascii) : Prop :=
  is_ws c = false /\ Ascii.eqb c "]" = false /\ Ascii.eqb c "}" = false.

(** The separator between the items of a container at depth [level]. *)
Definition item_sep (level : nat) : chars := ","%char :: newline_indent level.

(** The encoding of one member of a dictionary at depth [level]. *)
Definition encode_member (level : nat) (kv : string * json) : chars :=
  encode_string (fst kv) ++ lit ": " ++ encode level (snd kv).

(** The encoding of [v], at any depth and before anything that may follow a
    value, reads back as [v]. *)
Definition reads_back (v : json) : Prop :=
  well_formed v = true ->
  forall level rest fuel,
    closes rest ->
    List.length (encode level v) <= fuel ->
    scan_once fuel (encode level v ++ rest) = Some (v, rest).

(** A path other than [API_DOCUMENTATION.md] under the root. *)
Definition not_api (self : CodebaseRAG) (p : path) : Prop :=
  p <> api_file_path self.

(** A file named after the keyword only, with an analysis that mentions
    neither keyword. *)
Definition endpoint_results : Dict.dict json :=
  [("endpoints.py",
    JObj [("hash", JStr "md5:routes"); ("path", JStr "endpoints.py");
          ("size", JInt 6); ("lines", JInt 1);
          ("analysis", JStr "Routes of the service.");
          ("content_preview", JStr "routes")])].

(** A file with [api] in its name. *)
Definition api_results : Dict.dict json :=
  [("web/api.py",
    JObj [("hash", JStr "md5:app"); ("path", JStr "web/api.py");
          ("size", JInt 3); ("lines", JInt 1);
          ("analysis", JStr "The web application.");
          ("content_preview", JStr "app")])].

(** Stand-ins for the environment of a run: a digest that is never empty, a
    generation capability that always answers, an operating system that
    refuses nothing. *)
Definition stub_env : Env :=
  {| md5_hex := fun bytes => ("md5:" ++ bytes)%string;
     py_repr := fun _ => "<object>";
     generate := fun _ _ => inr "A summary.";
     denied := fun _ => false |}.

Definition world_of (disk : FS.node) : World :=
  {| fs := disk; llm_log := []; written := [] |}.

(** A disk with the project [/srv/app]. *)
Definition app_disk : FS.node :=
  FS.Dir [("srv", FS.Dir [("app", FS.Dir [("a.py", FS.File "def f(): pass");
                                          ("b.py", FS.File "x = 1")])])].

Definition app_root : path := ["srv"; "app"].

(** The same project after the constructor made the cache directory. *)
Definition ready_disk : FS.node :=
  FS.Dir [("srv", FS.Dir [("app", FS.Dir [("a.py", FS.File "def f(): pass");
                                          ("b.py", FS.File "x = 1");
                                          (".rag_cache", FS.Dir [])])])].

Definition app_self : CodebaseRAG :=
  {| root_path := app_root; cache_dir := PyPath.child app_root ".rag_cache" |}.

(** The record a previous run stored for [a.py]. *)
Definition a_fields : list (string * json) :=
  [("hash", JStr "md5:def f(): pass"); ("path", JStr "a.py");
   ("size", JInt 13); ("lines", JInt 1);
   ("analysis", JStr "An old summary."); ("content_preview", JStr "def f(): pass")].

Definition a_cache_members : list (string * json) := [("a.py", JObj a_fields)].

(** A file of the project that is gone from the disk, and a cache that holds
    an analysis for it under the empty digest. *)
Definition gone_file : path := ["srv"; "app"; "gone.py"].

Definition stale_fields : list (string * json) :=
  [("hash", JStr EmptyString); ("path", JStr "gone.py");
   ("size", JInt 9); ("lines", JInt 1);
   ("analysis", JStr "An old summary."); ("content_preview", JStr "import os")].

Definition stale_cache_members : list (string * json) :=
  [("gone.py", JObj stale_fields)].

(** A generation capability that fails on the prompt for [b.py]. *)
Definition flaky_env : Env :=
  {| md5_hex := fun bytes => ("md5:" ++ bytes)%string;
     py_repr := fun _ => "<object>";
     generate := fun _ prompt =>
                   if PyStr.contains "File: b.py" prompt
                   then inl GenerationError else inr "A summary.";
     denied := fun _ => false |}.

End Spec.


(* ================================================================== *)
(** ** Vocabulary of the further properties *)

Module Notions.
Import Json Py Rag.

(** The prompt is the analysis prompt of one of [files], built from the
    text the file holds on [disk]. *)
Definition reads (self : CodebaseRAG) (disk : FS.node) (files : list path)
  (prompt : string) : Prop :=
  exists g rel bytes,
    In g files
    /\ PyPath.relative_to (root_path self) g = Some rel
    /\ FS.lookup g disk = Some (FS.File bytes)
    /\ prompt = analysis_prompt (PyPath.rel_str rel) (universal_newlines bytes).

(** The path of the component document of the record stored under [key]. *)
Definition docs_path (self : CodebaseRAG) (key : string) : path :=
  PyPath.child (PyPath.child (root_path self) "docs")
               (PyPath.stem (PyPath.of_str key) ++ ".md")%string.

Definition readme_path (self : CodebaseRAG) : path :=
  PyPath.child (root_path self) "README.md".

(** The files a run of the pipeline may write. *)
Definition artifact (self : CodebaseRAG) (p : path) : Prop :=
  p = cache_file self
  \/ p = readme_path self
  \/ p = api_file_path self
  \/ exists key, p = docs_path self key.

(** A name without a slash. *)
Fixpoint slash_free (s : string) : bool :=
  match s with
  | EmptyString => true
  | String c s' => negb (Ascii.eqb c "/") && slash_free s'
  end.

(** A tree as a file system holds it: within a directory the names are
    distinct, and no name contains a slash. *)
Fixpoint proper (n : FS.node) : bool :=
  match n with
  | FS.File _ => true
  | FS.Dir entries =>
      Spec.distinct (map fst entries)
      && forallb (fun e => slash_free (fst e)) entries
      && forallb (fun e => proper (snd e)) entries
  end.

(** The files [scan_codebase] yields from the directory [n] at [top]. *)
Definition scan_from (top : path) (n : FS.node) : list path :=
  flat_map (fun t => Scanner.scan_dir (fst (fst t)) (snd t))
           (FS.os_walk Scanner.keep_dir top n).

(** The record carries the fingerprint [h]. *)
Definition has_hash (record : json) (h : string) : Prop :=
  exists fields,
    record = JObj fields /\ Dict.get "hash" fields = Some (JStr h).

(** A pattern without a wildcard. *)
Fixpoint plain (pat : string) : bool :=
  match pat with
  | EmptyString => true
  | String c pat' =>
      negb (Ascii.eqb c "*") && negb (Ascii.eqb c "?") && plain pat'
  end.

(** The test of [should_ignore] on the name alone. *)
Definition name_ignored (p : path) : bool :=
  existsb (fun pattern => Fnmatch.fnmatch (PyPath.name p) pattern)
          Filter.ignore_patterns.

(** The patterns of [should_ignore] the full path cannot match: the plain
    ones and [.env.*] begin with a character that is neither a slash nor a
    wildcard; the others are a star before a plain text without a slash. *)
Definition name_pattern (pat : string) : bool :=
  match pat with
  | EmptyString => false
  | String c rest =>
      if Ascii.eqb c "*" then plain rest && slash_free rest
      else negb (Ascii.eqb c "?") && negb (Ascii.eqb c "/")
  end.

(** The computation sends at most [k] prompts. *)
Definition sends_at_most {A : Type} (k : nat) (c : M A) : Prop :=
  forall w, exists extra,
      llm_log (snd (c w)) = llm_log w ++ extra /\ List.length extra <= k.

(** The test of [scan_project_files] on the extension. *)
Definition counted (file_path : path) : bool :=
  Filter.in_strings (PyStr.lower (PyPath.suffix file_path)) Gui.code_extensions.

(** Twenty records with an analysis. *)
Definition twenty_results : Dict.dict json :=
  map (fun name =>
         ((name ++ ".py")%string,
          JObj [("hash", JStr "md5:pass"); ("analysis", JStr "A summary.")]))
      ["a"; "b"; "c"; "d"; "e"; "f"; "g"; "h"; "i"; "j";
       "k"; "l"; "m"; "n"; "o"; "p"; "q"; "r"; "s"; "t"].

(** The record gets a component document: it has an analysis that is not
    empty. *)
Definition documented (record : json) : bool :=
  negb (String.eqb (Spec.analysis_text record) EmptyString).

(** The name of the component document of the record stored under [key]. *)
Definition docs_name (key : string) : string :=
  (PyPath.stem (PyPath.of_str key) ++ ".md")%string.

(** The prompt of the component document of a record. *)
Definition doc_prompt_of (E : Env) (key : string) (record : json) : string :=
  doc_prompt key (Spec.analysis_text record)
    (py_str E (match py_get record "content_preview" (JStr EmptyString) with
               | inr preview => preview
               | inl _ => JStr EmptyString
               end)).

(** The answer of a generation capability that does not depend on the
    prompts sent before. *)
Definition reply (E : Env) (prompt : string) : string :=
  match generate E [] prompt with
  | inr text => text
  | inl _ => EmptyString
  end.

(** The document of the last record of [results] that gets a component
    document named [name], when there is one. *)
Fixpoint last_document (E : Env) (results : Dict.dict json) (name : string)
  : option string :=
  match results with
  | [] => None
  | kv :: rest =>
      match last_document E rest name with
      | Some text => Some text
      | None =>
          if documented (snd kv) && String.eqb (docs_name (fst kv)) name
          then Some (reply E (doc_prompt_of E (fst kv) (snd kv)))
          else None
      end
  end.

(** Two files with the same stem in two directories. *)
Definition twin_results : Dict.dict json :=
  [("web/utils.py",
    JObj [("hash", JStr "md5:web"); ("analysis", JStr "Helpers of the web.")]);
   ("db/utils.py",
    JObj [("hash", JStr "md5:db"); ("analysis", JStr "Helpers of the store.")])].

(** A generation capability that answers with the prompt it was sent. *)
Definition echo_env : Env :=
  {| md5_hex := fun bytes => ("md5:" ++ bytes)%string;
     py_repr := fun _ => "<object>";
     generate := fun _ prompt => inr prompt;
     denied := fun _ => false |}.

(** The project [/srv/app] with a directory [docs]. *)
Definition docs_disk : FS.node :=
  FS.Dir [("srv", FS.Dir [("app", FS.Dir [("docs", FS.Dir [])])])].

(** The stop button is never pressed. *)
Definition never_stopped (is_running : nat -> bool) : Prop :=
  forall i, is_running i = true.

(** Once cleared, the flag stays cleared until the worker ends. *)
Definition stays_stopped (is_running : nat -> bool) : Prop :=
  forall i j, i <= j -> is_running i = false -> is_running j = false.

(** The cache the worker of the window starts from. *)
Definition gui_cache (E : Env) (self : CodebaseRAG) (options : Gui.Options)
  (w : World) : json :=
  if Gui.use_cache options then Spec.loaded_cache E self w else JObj [].

(** The check boxes of a run that only analyses. *)
Definition analysis_only : Gui.Options :=
  {| Gui.use_cache := true; Gui.generate_readme := false;
     Gui.generate_components := false; Gui.generate_api := false |}.

(** The same check boxes with the cache switched off. *)
Definition without_cache (options : Gui.Options) : Gui.Options :=
  {| Gui.use_cache := false;
     Gui.generate_readme := Gui.generate_readme options;
     Gui.generate_components := Gui.generate_components options;
     Gui.generate_api := Gui.generate_api options |}.

(** All check boxes ticked, as the window starts. *)
Definition all_options : Gui.Options :=
  {| Gui.use_cache := true; Gui.generate_readme := true;
     Gui.generate_components := true; Gui.generate_api := true |}.

(** The generation capability is out of order: every call raises [e]. *)
Definition outage (E : Env) (e : exn) : Prop :=
  forall log prompt, generate E log prompt = inl e.

(** The generation capability answers every prompt. *)
Definition answers (E : Env) : Prop :=
  forall log prompt, exists text, generate E log prompt = inr text.

(** An environment whose generation capability is out of order. *)
Definition down_env : Env :=
  {| md5_hex := fun bytes => ("md5:" ++ bytes)%string;
     py_repr := fun _ => "<object>";
     generate := fun _ _ => inl GenerationError;
     denied := fun _ => false |}.

(** An environment in which the cache file cannot be opened. *)
Definition locked_env : Env :=
  {| md5_hex := fun bytes => ("md5:" ++ bytes)%string;
     py_repr := fun _ => "<object>";
     generate := fun _ _ => inr "A summary.";
     denied := fun p => if list_eq_dec string_dec p
                             ["srv"; "app"; ".rag_cache"; "analysis_cache.json"]
                        then true else false |}.

End Notions.


(* ================================================================== *)
(** * Properties *)

(** ** Dictionaries and the file system *)

Module DictFacts.
Import Dict.

Lemma get_set_same {A : Type} (k : string) (v : A) (d : dict A) :
  get k (set k v d) = Some v.
Proof.
  induction d as [| [k' v'] d IH]; cbn.
  - rewrite String.eqb_refl. reflexivity.
  - destruct (String.eqb k k') eqn:Hk; cbn.
    + rewrite String.eqb_refl. reflexivity.
    + rewrite Hk. exact IH.
Qed.

Lemma get_set_other {A : Type} (k k0 : string) (v : A) (d : dict A) :
  k0 <> k -> get k0 (set k v d) = get k0 d.
Proof.
  intros Hne. induction d as [| [k' v'] d IH]; cbn.
  - destruct (String.eqb_spec k0 k); [contradiction | reflexivity].
  - destruct (String.eqb_spec k k') as [-> | Hkk']; cbn.
    + destruct (String.eqb_spec k0 k'); [contradiction | reflexivity].
    + destruct (String.eqb k0 k'); [reflexivity | exact IH].
Qed.

Lemma get_In {A : Type} (k : string) (v : A) (d : dict A) :
  get k d = Some v -> In (k, v) d.
Proof.
  induction d as [| [k' v'] d IH]; cbn; [discriminate |].
  destruct (String.eqb_spec k k') as [-> | _].
  - intros [= ->]. left. reflexivity.
  - intros H. right. exact (IH H).
Qed.

Lemma get_None_not_key {A : Type} (k : string) (d : dict A) :
  get k d = None <-> ~ In k (keys d).
Proof.
  unfold keys. induction d as [| [k' v'] d IH]; cbn.
  - split; [intros _ [] | reflexivity].
  - destruct (String.eqb_spec k k') as [-> | Hne].
    + split; [discriminate | intros H; exfalso; apply H; left; reflexivity].
    + rewrite IH. split.
      * intros H [Heq | Hin]; [congruence | exact (H Hin)].
      * intros H Hin. apply H. right. exact Hin.
Qed.

(** The keys after [d[k] = v]: those of [d], and [k]. *)
Lemma keys_set {A : Type} (k k0 : string) (v : A) (d : dict A) :
  In k0 (keys (set k v d)) <-> k0 = k \/ In k0 (keys d).
Proof.
  unfold keys. induction d as [| [k' v'] d IH]; cbn.
  - intuition.
  - destruct (String.eqb_spec k k') as [-> | Hne]; cbn.
    + intuition.
    + rewrite IH. intuition.
Qed.

Lemma set_NoDup_keys {A : Type} (k : string) (v : A) (d : dict A) :
  NoDup (keys d) -> NoDup (keys (set k v d)).
Proof.
  unfold keys. induction d as [| [k' v'] d IH]; cbn; intros Hnd.
  - constructor; [intros [] | constructor].
  - inversion Hnd as [| ? ? Hnotin Hnd']; subst.
    destruct (String.eqb_spec k k') as [-> | Hne]; cbn.
    + constructor; assumption.
    + constructor; [| exact (IH Hnd')].
      intros Hin. apply (keys_set k k' v d) in Hin.
      destruct Hin as [-> | Hin]; [congruence | contradiction].
Qed.

Lemma In_get_NoDup {A : Type} (k : string) (v : A) (d : dict A) :
  NoDup (keys d) -> In (k, v) d -> get k d = Some v.
Proof.
  unfold keys. induction d as [| [k' v'] d IH]; cbn; intros Hnd Hin;
    [destruct Hin |].
  inversion Hnd as [| ? ? Hnotin Hnd']; subst.
  destruct Hin as [[= -> ->] | Hin].
  - rewrite String.eqb_refl. reflexivity.
  - destruct (String.eqb_spec k k') as [-> | _]; [| exact (IH Hnd' Hin)].
    exfalso. apply Hnotin. apply (in_map fst _ _ Hin).
Qed.

(** Two dictionaries that Python finds equal hold the same entries, in some
    order. *)
Lemma equiv_Permutation {A : Type} (d1 d2 : dict A) :
  NoDup (keys d1) -> NoDup (keys d2) -> equiv d1 d2 -> Permutation d1 d2.
Proof.
  intros Hnd1 Hnd2 Heq. apply NoDup_Permutation.
  - exact (NoDup_map_inv fst d1 Hnd1).
  - exact (NoDup_map_inv fst d2 Hnd2).
  - intros [k v]. split; intros Hin; apply get_In.
    + rewrite <- Heq. exact (In_get_NoDup k v d1 Hnd1 Hin).
    + rewrite Heq. exact (In_get_NoDup k v d2 Hnd2 Hin).
Qed.

End DictFacts.

Module FSFacts.
Import FS.

Lemma lookup_app (p q : path) :
  forall n,
    lookup (p ++ q) n
    = match lookup p n with Some m => lookup q m | None => None end.
Proof.
  induction p as [| x p IH]; intros n; cbn; [reflexivity |].
  destruct n as [content | entries]; [reflexivity |].
  destruct (Dict.get x entries); [apply IH | reflexivity].
Qed.

(** Putting a node into an existing directory succeeds, and the node is then
    found where it was put. *)
Lemma put_child (dir : path) (x : string) (new : node) :
  forall n entries,
    lookup dir n = Some (Dir entries) ->
    exists n', put (PyPath.child dir x) new n = Some n'
               /\ lookup (PyPath.child dir x) n' = Some new.
Proof.
  unfold PyPath.child.
  induction dir as [| r dir IH]; intros n entries Hdir; cbn in Hdir.
  - injection Hdir as ->. cbn. eexists. split; [reflexivity |].
    cbn. rewrite DictFacts.get_set_same. reflexivity.
  - destruct n as [content | es]; [discriminate |].
    destruct (Dict.get r es) as [c |] eqn:Hr; [| discriminate].
    destruct (IH c entries Hdir) as [c' [Hput Hlook]].
    cbn [app put]. destruct (dir ++ [x]) as [| y rest] eqn:Hrest.
    + destruct dir; discriminate.
    + rewrite Hr, Hput. eexists. split; [reflexivity |].
      cbn [lookup]. rewrite DictFacts.get_set_same. exact Hlook.
Qed.

(** Nothing can be put under a directory that does not exist. *)
Lemma put_missing_parent (dir : path) (x : string) (new : node) :
  forall n,
    lookup dir n = None ->
    put (PyPath.child dir x) new n = None.
Proof.
  unfold PyPath.child.
  induction dir as [| r dir IH]; intros n Hdir; cbn in Hdir; [discriminate |].
  cbn [app put]. destruct n as [content | es]; [reflexivity |].
  destruct (dir ++ [x]) as [| y rest] eqn:Hrest.
  - destruct dir; discriminate.
  - destruct (Dict.get r es) as [c |]; [| reflexivity].
    rewrite (IH c Hdir). reflexivity.
Qed.

End FSFacts.

(** ** Scanner *)

Module ScannerFacts.
Import FS Spec.

(** Ignored directories are not entered, files are filtered by pattern and
    by extension; a directory named [ignore] matches no pattern. *)
Example scan_scenario :
  Scanner.scan_codebase scenario_disk ["srv"; "app"]
  = [["srv"; "app"; "a.py"]; ["srv"; "app"; "Main.PY"];
     ["srv"; "app"; "ignore"; "b.py"]].
Proof. vm_compute. reflexivity. Qed.

Example scan_env_root :
  Scanner.scan_codebase env_disk env_root = [["srv"; "env"; "app.py"]].
Proof. vm_compute. reflexivity. Qed.

(** No configured ignore pattern uses the bracket syntax of [fnmatch]. *)
Lemma ignore_patterns_plain :
  forallb (fun pat => negb (PyStr.contains "[" pat)) Filter.ignore_patterns
  = true.
Proof. vm_compute. reflexivity. Qed.

Lemma os_walk_tops keep n :
  forall top t,
    In t (os_walk keep top n) ->
    exists mid, fst (fst t) = top ++ mid /\ kept_chain keep top mid.
Proof.
  induction n as [content | entries IH] using node_rect'; intros top t Hin.
  - destruct Hin.
  - cbn [os_walk] in Hin. destruct Hin as [Heq | Hin].
    + subst t. exists []. cbn. rewrite app_nil_r. split; [reflexivity | constructor].
    + apply in_flat_map in Hin. destruct Hin as [e [He Hin]].
      destruct (is_dir (snd e) && keep top (fst e)) eqn:Hk; [| destruct Hin].
      apply andb_prop in Hk. destruct Hk as [_ Hk].
      rewrite Forall_forall in IH.
      destruct (IH e He _ _ Hin) as [mid [Hmid Hchain]].
      exists (fst e :: mid). split.
      * rewrite Hmid. unfold PyPath.child. rewrite <- app_assoc. reflexivity.
      * constructor; assumption.
Qed.

Lemma kept_chain_prefix keep top mid :
  kept_chain keep top mid ->
  forall pre post,
    mid = pre ++ post -> pre <> [] ->
    exists pre' x, pre = pre' ++ [x] /\ keep (top ++ pre') x = true.
Proof.
  induction 1 as [top | top d mid Hk Hchain IH]; intros pre post Heq Hne.
  - destruct pre; [congruence | discriminate].
  - destruct pre as [| a pre]; [congruence |].
    injection Heq as -> Hmid.
    destruct pre as [| b pre].
    + exists [], a. rewrite app_nil_r. split; [reflexivity | assumption].
    + destruct (IH (b :: pre) post Hmid ltac:(discriminate)) as [pre' [x [Hp Hx]]].
      exists (a :: pre'), x. split.
      * cbn. rewrite Hp. reflexivity.
      * unfold PyPath.child in Hx. rewrite <- app_assoc in Hx. exact Hx.
Qed.

(** A directory on the way from the root to a visited directory is not
    ignored. *)
Lemma kept_chain_not_ignored root mid :
  kept_chain Scanner.keep_dir root mid ->
  forall pre post,
    mid = pre ++ post -> pre <> [] ->
    Filter.should_ignore (root ++ pre) = false.
Proof.
  intros Hchain pre post Heq Hne.
  destruct (kept_chain_prefix _ _ _ Hchain pre post Heq Hne) as [pre' [x [-> Hx]]].
  unfold Scanner.keep_dir, PyPath.child in Hx.
  apply negb_true_iff in Hx. rewrite app_assoc. exact Hx.
Qed.

Lemma visited_kept fs root top :
  In top (visited fs root) ->
  exists mid, top = root ++ mid /\ kept_chain Scanner.keep_dir root mid.
Proof.
  unfold visited. destruct (lookup root fs) as [n |]; [| intros []].
  intros Hin. apply in_map_iff in Hin. destruct Hin as [t [<- Hin]].
  apply os_walk_tops in Hin. exact Hin.
Qed.

Lemma scanned_in_visited fs root p :
  In p (Scanner.scan_codebase fs root) ->
  exists top filename,
    In top (visited fs root) /\ p = PyPath.child top filename
    /\ Filter.should_ignore p = false
    /\ Filter.has_code_extension p = true.
Proof.
  unfold Scanner.scan_codebase, visited.
  destruct (lookup root fs) as [n |]; [| intros []].
  intros Hin. apply in_flat_map in Hin. destruct Hin as [t [Ht Hin]].
  unfold Scanner.scan_dir in Hin. apply filter_In in Hin.
  destruct Hin as [Hin Hok]. apply in_map_iff in Hin.
  destruct Hin as [filename [<- _]].
  apply andb_prop in Hok. destruct Hok as [Hign Hext].
  exists (fst (fst t)), filename. repeat split.
  - apply in_map_iff. exists t. split; [reflexivity | assumption].
  - apply negb_true_iff. exact Hign.
  - exact Hext.
Qed.

Lemma app_snoc_split {A : Type} (d rest mid : list A) (x : A) :
  d ++ rest = mid ++ [x] -> rest <> [] ->
  exists rest', rest = rest' ++ [x] /\ mid = d ++ rest'.
Proof.
  intros Heq Hne.
  destruct (exists_last Hne) as [rest' [y ->]].
  rewrite app_assoc in Heq. apply app_inj_tail in Heq.
  destruct Heq as [<- <-]. exists rest'. split; reflexivity.
Qed.

End ScannerFacts.

(** C4 as amended.  The scanner never opens a directory that lies at or
    beneath an ignored directory strictly below the scan root, and every
    file it yields is not ignored, carries an allowed extension (compared
    in lower case) and lies beneath no ignored directory strictly below the
    scan root. *)
Theorem scan_codebase_prunes_below_root :
  forall (fs : FS.node) (root : path),
    (forall top d,
        In top (Spec.visited fs root) ->
        Spec.below_root root d ->
        d = top \/ Spec.beneath d top ->
        Filter.should_ignore d = false)
    /\
    (forall p,
        In p (Scanner.scan_codebase fs root) ->
        Filter.should_ignore p = false
        /\ Filter.has_code_extension p = true
        /\ Spec.beneath root p
        /\ forall d,
            Spec.below_root root d -> Spec.beneath d p ->
            Filter.should_ignore d = false).
Proof.
  intros fs root.
  assert (Hvisit : forall top d,
             In top (Spec.visited fs root) ->
             Spec.below_root root d ->
             d = top \/ Spec.beneath d top ->
             Filter.should_ignore d = false).
  { intros top d Hin [mid' [Hne ->]] Hrel.
    destruct (ScannerFacts.visited_kept _ _ _ Hin) as [mid [-> Hchain]].
    destruct Hrel as [Heq | [rest [_ Heq]]].
    - apply app_inv_head in Heq. subst mid'.
      apply (ScannerFacts.kept_chain_not_ignored root mid Hchain mid []);
        [rewrite app_nil_r; reflexivity | assumption].
    - rewrite <- app_assoc in Heq. apply app_inv_head in Heq.
      exact (ScannerFacts.kept_chain_not_ignored root mid Hchain mid' rest Heq Hne). }
  split; [exact Hvisit |].
  intros p Hin.
  destruct (ScannerFacts.scanned_in_visited _ _ _ Hin)
    as [top [filename [Htop [-> [Hign Hext]]]]].
  repeat split; try assumption.
  - destruct (ScannerFacts.visited_kept _ _ _ Htop) as [mid [-> _]].
    exists (mid ++ [filename]). split.
    + destruct mid; discriminate.
    + unfold PyPath.child. rewrite app_assoc. reflexivity.
  - intros d Hbelow [rest [Hne Heq]].
    unfold PyPath.child in Heq. symmetry in Heq.
    destruct (ScannerFacts.app_snoc_split _ _ _ _ Heq Hne) as [rest' [-> ->]].
    apply (Hvisit (d ++ rest') d Htop Hbelow).
    destruct rest' as [| r rest'].
    + left. rewrite app_nil_r. reflexivity.
    + right. exists (r :: rest'). split; [discriminate | reflexivity].
Qed.

(** The amended C4 at the project [/srv/app]: [ignore/b.py] is yielded, so
    neither it nor the directory [ignore] above it is ignored, and its
    extension is allowed. *)
Lemma scan_codebase_prunes_below_root_witness :
  Filter.should_ignore ["srv"; "app"; "ignore"; "b.py"] = false
  /\ Filter.has_code_extension ["srv"; "app"; "ignore"; "b.py"] = true
  /\ Filter.should_ignore ["srv"; "app"; "ignore"] = false.
Proof.
  destruct (scan_codebase_prunes_below_root Spec.scenario_disk ["srv"; "app"])
    as [_ Hfiles].
  destruct (Hfiles ["srv"; "app"; "ignore"; "b.py"]) as [Hfile [Hext [_ Hdirs]]].
  - vm_compute. right. right. left. reflexivity.
  - split; [exact Hfile |]. split; [exact Hext |].
    apply Hdirs.
    + exists ["ignore"]. split; [discriminate | reflexivity].
    + exists ["b.py"]. split; [discriminate | reflexivity].
Defined.

(** C4 as stated fails at the scan root: with the project in [/srv/env], the
    directory [/srv/env] matches the ignore pattern [env], and the scanner
    yields [/srv/env/app.py], which lies beneath it. *)
Lemma scan_codebase_root_is_never_pruned :
  ~ (forall (fs : FS.node) (root d p : path),
        Filter.should_ignore d = true ->
        Spec.beneath d p ->
        ~ In p (Scanner.scan_codebase fs root)).
Proof.
  intros H.
  apply (H Spec.env_disk Spec.env_root ["srv"; "env"] ["srv"; "env"; "app.py"]).
  - vm_compute. reflexivity.
  - exists ["app.py"]. split; [discriminate | reflexivity].
  - vm_compute. left. reflexivity.
Qed.

(** ** Construction *)

Module InitFacts.
Import Json Py Rag Spec.

Example init_app :
  exists w',
    __init__ stub_env app_root (world_of app_disk)
    = (inr {| root_path := app_root; cache_dir := ["srv"; "app"; ".rag_cache"] |}, w')
    /\ FS.lookup ["srv"; "app"; ".rag_cache"] (fs w') = Some (FS.Dir []).
Proof. eexists. split; vm_compute; reflexivity. Qed.

End InitFacts.

(** C9 as amended.  For a root that is an existing directory, with no regular
    file named [.rag_cache] in it and with the creation of that directory
    permitted when it is missing, the constructor returns the instance and
    leaves [.rag_cache] a directory under the root; it sends no prompt and
    writes no file.  For a root that does not exist the constructor raises
    and creates nothing: the world is left as it is; so it does when a
    regular file bears the name [.rag_cache]. *)
Theorem init_creates_cache_dir :
  forall (E : Py.Env) (w : Py.World) (root : path),
    (forall entries : list (string * FS.node),
        FS.lookup root (Py.fs w) = Some (FS.Dir entries) ->
        (forall content, Dict.get ".rag_cache" entries <> Some (FS.File content)) ->
        (Dict.get ".rag_cache" entries = None ->
         Py.denied E (PyPath.child root ".rag_cache") = false) ->
        exists w',
          Rag.__init__ E root w
          = (inr {| Rag.root_path := root;
                    Rag.cache_dir := PyPath.child root ".rag_cache" |}, w')
          /\ (exists es, FS.lookup (PyPath.child root ".rag_cache") (Py.fs w')
                         = Some (FS.Dir es))
          /\ Py.llm_log w' = Py.llm_log w
          /\ Py.written w' = Py.written w)
    /\ (FS.lookup root (Py.fs w) = None ->
        Rag.__init__ E root w = (inl Json.OSError, w))
    /\ (forall content,
           FS.lookup (PyPath.child root ".rag_cache") (Py.fs w)
           = Some (FS.File content) ->
           Rag.__init__ E root w = (inl Json.OSError, w)).
Proof.
  intros E w root. split; [| split].
  - intros entries Hroot Hfile Hperm.
    unfold Rag.__init__, Py.bind, Py.mkdir_exist_ok, Py.ret. cbn [Rag.cache_dir].
    assert (Hlook : FS.lookup (PyPath.child root ".rag_cache") (Py.fs w)
                    = Dict.get ".rag_cache" entries).
    { unfold PyPath.child. rewrite FSFacts.lookup_app, Hroot. cbn.
      destruct (Dict.get ".rag_cache" entries); reflexivity. }
    rewrite Hlook.
    destruct (Dict.get ".rag_cache" entries) as [[content | es] |] eqn:Hget.
    + exfalso. exact (Hfile content eq_refl).
    + exists w. repeat split. exists es. rewrite Hlook. reflexivity.
    + rewrite (Hperm eq_refl).
      destruct (FSFacts.put_child root ".rag_cache" (FS.Dir []) _ _ Hroot)
        as [n' [Hput Hlook']].
      rewrite Hput. eexists. repeat split. cbn. exists []. exact Hlook'.
  - intros Hroot.
    unfold Rag.__init__, Py.bind, Py.mkdir_exist_ok. cbn [Rag.cache_dir].
    assert (Hlook : FS.lookup (PyPath.child root ".rag_cache") (Py.fs w) = None).
    { unfold PyPath.child. rewrite FSFacts.lookup_app, Hroot. reflexivity. }
    rewrite Hlook.
    destruct (Py.denied E (PyPath.child root ".rag_cache")); [reflexivity |].
    rewrite (FSFacts.put_missing_parent root ".rag_cache" (FS.Dir []) _ Hroot).
    reflexivity.
  - intros content Hfile.
    unfold Rag.__init__, Py.bind, Py.mkdir_exist_ok. cbn [Rag.cache_dir].
    rewrite Hfile. reflexivity.
Qed.

(** The amended C9 at the project [/srv/app], and at a root that is not
    there. *)
Lemma init_creates_cache_dir_witness :
  (exists w',
      Rag.__init__ Spec.stub_env Spec.app_root (Spec.world_of Spec.app_disk)
      = (inr {| Rag.root_path := Spec.app_root;
                Rag.cache_dir := PyPath.child Spec.app_root ".rag_cache" |}, w')
      /\ (exists es, FS.lookup (PyPath.child Spec.app_root ".rag_cache") (Py.fs w')
                     = Some (FS.Dir es))
      /\ Py.llm_log w' = Py.llm_log (Spec.world_of Spec.app_disk)
      /\ Py.written w' = Py.written (Spec.world_of Spec.app_disk))
  /\ Rag.__init__ Spec.stub_env ["srv"; "gone"] (Spec.world_of Spec.app_disk)
     = (inl Json.OSError, Spec.world_of Spec.app_disk).
Proof.
  split.
  - apply (proj1 (init_creates_cache_dir Spec.stub_env
                    (Spec.world_of Spec.app_disk) Spec.app_root)
                 [("a.py", FS.File "def f(): pass"); ("b.py", FS.File "x = 1")]).
    + reflexivity.
    + intros content. vm_compute. discriminate.
    + intros _. reflexivity.
  - apply (proj1 (proj2 (init_creates_cache_dir Spec.stub_env
                           (Spec.world_of Spec.app_disk) ["srv"; "gone"]))).
    reflexivity.
Defined.

(** C9 as stated fails for a root that does not exist: on an empty disk the
    constructor for [/no/such/dir] raises and creates nothing. *)
Lemma init_missing_root_raises :
  ~ (forall (E : Py.Env) (w : Py.World) (root : path),
        exists self w',
          Rag.__init__ E root w = (inr self, w')
          /\ exists es, FS.lookup (PyPath.child root ".rag_cache") (Py.fs w')
                        = Some (FS.Dir es)).
Proof.
  intros H.
  destruct (H Spec.stub_env (Spec.world_of (FS.Dir [])) ["no"; "such"; "dir"])
    as [self [w' [Hrun _]]].
  vm_compute in Hrun. discriminate.
Qed.


(* ================================================================== *)
(** ** Fingerprint and analyzer *)

Module AnalyzerFacts.
Import Json Py Rag Spec.

Section WithEnv.

Variable E : Env.
Variable self : CodebaseRAG.

Lemma read_bytes_world p w : snd (read_bytes E p w) = w.
Proof.
  unfold read_bytes. destruct (denied E p); [reflexivity |].
  destruct (FS.lookup p (fs w)) as [[content | es] |]; reflexivity.
Qed.

Lemma read_bytes_run p w : read_bytes E p w = (fst (read_bytes E p w), w).
Proof. rewrite <- (read_bytes_world p w) at 3. apply surjective_pairing. Qed.

(** [get_file_hash] never raises and changes nothing. *)
Lemma get_file_hash_run p w :
  get_file_hash E self p w = (inr (fingerprint E w p), w).
Proof.
  unfold get_file_hash, try_except, bind, ret, fingerprint.
  rewrite (read_bytes_run p w).
  destruct (fst (read_bytes E p w)); reflexivity.
Qed.

Lemma read_text_run p w :
  read_text E p w
  = (match fst (read_bytes E p w) with
     | inr bytes => inr (universal_newlines bytes)
     | inl e => inl e
     end, w).
Proof.
  unfold read_text, bind, ret. rewrite (read_bytes_run p w).
  destruct (fst (read_bytes E p w)); reflexivity.
Qed.

(** What [analyze_file] does, branch by branch. *)
Lemma analyze_file_unfold file_path cache w :
  analyze_file E self file_path cache w
  = match PyPath.relative_to (root_path self) file_path with
    | None => (inl ValueError, w)
    | Some rel =>
        let relative_path := PyPath.rel_str rel in
        let file_hash := fingerprint E w file_path in
        match cache_hit cache relative_path file_hash with
        | inl e => (inl e, w)
        | inr true =>
            (match py_getitem cache relative_path with
             | inr item => inr item
             | inl e => inl e
             end, w)
        | inr false =>
            match fst (read_bytes E file_path w) with
            | inl _ => (inr (error_record file_hash), w)
            | inr bytes =>
                let content := universal_newlines bytes in
                let prompt := analysis_prompt relative_path content in
                (match generate E (llm_log w) prompt with
                 | inr llm_response =>
                     inr (analysis_record file_hash relative_path content
                                          llm_response)
                 | inl e => inl e
                 end, prompted w prompt)
            end
        end
    end.
Proof.
  unfold analyze_file, relative_str.
  destruct (PyPath.relative_to (root_path self) file_path) as [rel |];
    [| reflexivity].
  unfold bind at 1. unfold ret at 1.
  unfold bind at 1. rewrite get_file_hash_run.
  cbv zeta.
  destruct (cache_hit cache (PyPath.rel_str rel) (fingerprint E w file_path))
    as [e | [|]] eqn:Hhit; unfold bind at 1, lift at 1; cbn [raise ret].
  - reflexivity.
  - unfold lift. destruct (py_getitem cache (PyPath.rel_str rel)); reflexivity.
  - unfold bind at 1, try_except at 1, bind at 1. rewrite read_text_run.
    destruct (fst (read_bytes E file_path w)) as [e | bytes]; cbn [ret].
    + reflexivity.
    + unfold bind, ask_llm, ret, prompted.
      destruct (generate E (llm_log w)
                  (analysis_prompt (PyPath.rel_str rel) (universal_newlines bytes)));
        reflexivity.
Qed.

(** [analyze_file] leaves the file system and the written files as they
    are. *)
Lemma analyze_file_frame file_path cache w :
  fs (snd (analyze_file E self file_path cache w)) = fs w
  /\ written (snd (analyze_file E self file_path cache w)) = written w.
Proof.
  rewrite analyze_file_unfold.
  destruct (PyPath.relative_to (root_path self) file_path); [| split; reflexivity].
  cbv zeta.
  destruct (cache_hit cache _ _) as [e | [|]]; try (split; reflexivity).
  destruct (fst (read_bytes E file_path w)); split; reflexivity.
Qed.

(** A record stored under the relative path of the file with the current
    fingerprint of the file comes back as it is, and the world stays as it
    is. *)
Lemma stored_fingerprint_hits file_path rel w members fields :
  PyPath.relative_to (root_path self) file_path = Some rel ->
  Dict.get (PyPath.rel_str rel) members = Some (JObj fields) ->
  Dict.get "hash" fields = Some (JStr (fingerprint E w file_path)) ->
  analyze_file E self file_path (JObj members) w = (inr (JObj fields), w).
Proof.
  intros Hrel Hentry Hhash.
  rewrite analyze_file_unfold, Hrel. cbv zeta.
  unfold cache_hit. cbn [py_in py_getitem].
  unfold Dict.mem. rewrite Hentry. cbn [py_get]. rewrite Hhash.
  cbn [eq_str]. rewrite String.eqb_refl. reflexivity.
Qed.

Lemma fingerprint_fs w1 w2 p :
  fs w1 = fs w2 -> fingerprint E w1 p = fingerprint E w2 p.
Proof.
  intros Hfs. unfold fingerprint, read_bytes. rewrite Hfs. 
  destruct (denied E p); [reflexivity |].
  destruct (FS.lookup p (fs w2)) as [[content | es] |]; reflexivity.
Qed.

Lemma read_bytes_fs w1 w2 p :
  fs w1 = fs w2 -> fst (read_bytes E p w1) = fst (read_bytes E p w2).
Proof.
  intros Hfs. unfold read_bytes. rewrite Hfs.
  destruct (denied E p); [reflexivity |].
  destruct (FS.lookup p (fs w2)) as [[content | es] |]; reflexivity.
Qed.

End WithEnv.

End AnalyzerFacts.

(** ** Dispatcher *)

Module DispatcherFacts.
Import Json Py Rag Spec.

Section WithEnv.

Variable E : Env.
Variable self : CodebaseRAG.
Variable cache : json.

(** One turn of the loop over the completed tasks. *)
Lemma collect_results_step g rest results w :
  collect_results E self cache (g :: rest) results w
  = collect_results E self cache rest
      (store self results g (fst (analyze_file E self g cache w)))
      (snd (analyze_file E self g cache w)).
Proof.
  cbn [collect_results]. unfold bind at 1, try_except at 1, bind at 1.
  unfold store, rel_key.
  destruct (analyze_file E self g cache w) as [[e | record] w1] eqn:Hrun;
    cbn [fst snd ret].
  - reflexivity.
  - unfold bind, relative_str.
    destruct (PyPath.relative_to (root_path self) g); reflexivity.
Qed.

(** The loop never raises and touches neither the disk nor the list of
    written files. *)
Lemma collect_results_total completed :
  forall results w,
    exists res w',
      collect_results E self cache completed results w = (inr res, w')
      /\ fs w' = fs w /\ written w' = written w.
Proof.
  induction completed as [| g rest IH]; intros results w.
  - exists results, w. repeat split.
  - rewrite collect_results_step.
    destruct (IH (store self results g (fst (analyze_file E self g cache w)))
                 (snd (analyze_file E self g cache w)))
      as [res [w' [Hrun [Hfs Hwr]]]].
    exists res, w'. split; [exact Hrun |].
    destruct (AnalyzerFacts.analyze_file_frame E self g cache w) as [Hfs1 Hwr1].
    split; congruence.
Qed.

(** A key whose every task raises keeps the value it had. *)
Lemma collect_results_untouched key completed :
  forall results w res w',
    collect_results E self cache completed results w = (inr res, w') ->
    (forall g, In g completed -> rel_key self g = Some key ->
               exists e, always E self cache (fs w) g (inl e)) ->
    Dict.get key res = Dict.get key results.
Proof.
  induction completed as [| g rest IH]; intros results w res w' Hrun Hall.
  - cbn in Hrun. injection Hrun as <- _. reflexivity.
  - rewrite collect_results_step in Hrun.
    destruct (AnalyzerFacts.analyze_file_frame E self g cache w) as [Hfs _].
    rewrite (IH _ _ _ _ Hrun)
      by (intros h Hh Hk; rewrite Hfs; exact (Hall h (or_intror Hh) Hk)).
    unfold store.
    destruct (fst (analyze_file E self g cache w)) as [e | record] eqn:Hout;
      [reflexivity |].
    destruct (rel_key self g) as [k |] eqn:Hk; [| reflexivity].
    destruct (String.eqb_spec key k) as [-> | Hne].
    + destruct (Hall g (or_introl eq_refl) Hk) as [e He].
      rewrite (He w eq_refl) in Hout. discriminate.
    + apply DictFacts.get_set_other. exact Hne.
Qed.

(** A key whose every task yields [record], and that has a task or holds
    [record] already, ends with [record]. *)
Lemma collect_results_stored key record completed :
  forall results w res w',
    collect_results E self cache completed results w = (inr res, w') ->
    (forall g, In g completed -> rel_key self g = Some key ->
               always E self cache (fs w) g (inr record)) ->
    (Dict.get key results = Some record
     \/ exists g, In g completed /\ rel_key self g = Some key) ->
    Dict.get key res = Some record.
Proof.
  induction completed as [| g rest IH]; intros results w res w' Hrun Hall Hsome.
  - cbn in Hrun. injection Hrun as <- _.
    destruct Hsome as [H | [g [[] _]]]. exact H.
  - rewrite collect_results_step in Hrun.
    destruct (AnalyzerFacts.analyze_file_frame E self g cache w) as [Hfs _].
    apply (IH _ _ _ _ Hrun);
      [intros h Hh Hk; rewrite Hfs; exact (Hall h (or_intror Hh) Hk) |].
    unfold store.
    destruct (rel_key self g) as [k |] eqn:Hk.
    + destruct (String.eqb_spec key k) as [-> | Hne].
      * rewrite (Hall g (or_introl eq_refl) Hk w eq_refl).
        left. apply DictFacts.get_set_same.
      * assert (Hrest : Dict.get key results = Some record
                        \/ exists h, In h rest /\ rel_key self h = Some key).
        { destruct Hsome as [H | [h [[<- | Hh] Hkh]]].
          - left. exact H.
          - congruence.
          - right. exists h. split; assumption. }
        destruct (fst (analyze_file E self g cache w)).
        -- exact Hrest.
        -- destruct Hrest as [H | H]; [left | right; exact H].
           rewrite DictFacts.get_set_other; assumption.
    + assert (Hrest : Dict.get key results = Some record
                      \/ exists h, In h rest /\ rel_key self h = Some key).
      { destruct Hsome as [H | [h [[<- | Hh] Hkh]]].
        - left. exact H.
        - congruence.
        - right. exists h. split; assumption. }
      destruct (fst (analyze_file E self g cache w)); exact Hrest.
Qed.

(** Every key of the result map is the relative path of a completed task,
    or was there before. *)
Lemma collect_results_keys completed :
  forall results w res w' key,
    collect_results E self cache completed results w = (inr res, w') ->
    In key (Dict.keys res) ->
    In key (Dict.keys results)
    \/ exists g, In g completed /\ rel_key self g = Some key.
Proof.
  induction completed as [| g rest IH]; intros results w res w' key Hrun Hin.
  - cbn in Hrun. injection Hrun as <- _. left. exact Hin.
  - rewrite collect_results_step in Hrun.
    destruct (IH _ _ _ _ _ Hrun Hin) as [Hk | [h [Hh Hk]]].
    + unfold store in Hk.
      destruct (fst (analyze_file E self g cache w)); [left; exact Hk |].
      destruct (rel_key self g) as [k |] eqn:Hg; [| left; exact Hk].
      apply DictFacts.keys_set in Hk. destruct Hk as [-> | Hk].
      * right. exists g. split; [left; reflexivity | exact Hg].
      * left. exact Hk.
    + right. exists h. split; [right; exact Hh | exact Hk].
Qed.

Lemma collect_results_NoDup completed :
  forall results w res w',
    NoDup (Dict.keys results) ->
    collect_results E self cache completed results w = (inr res, w') ->
    NoDup (Dict.keys res).
Proof.
  induction completed as [| g rest IH]; intros results w res w' Hnd Hrun.
  - cbn in Hrun. injection Hrun as <- _. exact Hnd.
  - rewrite collect_results_step in Hrun. eapply IH; [| exact Hrun].
    unfold store. destruct (fst (analyze_file E self g cache w)); [exact Hnd |].
    destruct (rel_key self g); [| exact Hnd].
    apply DictFacts.set_NoDup_keys. exact Hnd.
Qed.

End WithEnv.

Section Run.

Variable E : Env.
Variable self : CodebaseRAG.

(** [load_cache] never raises and changes nothing. *)
Lemma load_cache_run w :
  load_cache E self w = (inr (loaded_cache E self w), w).
Proof.
  unfold loaded_cache, load_cache, bind, path_exists, try_except.
  destruct (FS.lookup (cache_file self) (fs w)); [| reflexivity].
  rewrite AnalyzerFacts.read_text_run.
  destruct (fst (read_bytes E (cache_file self) w)) as [e | bytes];
    [reflexivity |].
  destruct (loads (universal_newlines bytes)); reflexivity.
Qed.

(** [save_cache] never raises and sends no prompt. *)
Lemma save_cache_total data w :
  exists w', save_cache E self data w = (inr tt, w')
             /\ llm_log w' = llm_log w.
Proof.
  unfold save_cache, try_except, write_text, ret.
  destruct (denied E (cache_file self)); [exists w; split; reflexivity |].
  destruct (FS.lookup (cache_file self) (fs w)) as [[c | es] |];
    try (exists w; split; reflexivity);
    destruct (FS.put (cache_file self) (FS.File (dumps data)) (fs w));
    eexists; split; reflexivity.
Qed.

(** A run with at least one worker: scan, load, collect, save. *)
Lemma analyze_codebase_parallel_unfold max_workers schedule w :
  (0 < max_workers)%Z ->
  analyze_codebase_parallel E self max_workers schedule w
  = match collect_results E self (loaded_cache E self w)
            (schedule (scanned self w)) [] w with
    | (inr results, w1) =>
        (inr results, snd (save_cache E self (JObj results) w1))
    | (inl e, w1) => (inl e, w1)
    end.
Proof.
  intros Hpos. unfold analyze_codebase_parallel, scan_codebase.
  unfold bind at 1. unfold bind at 1. rewrite load_cache_run.
  unfold bind at 1. destruct (Z.leb_spec max_workers 0) as [Hle | _]; [lia |].
  fold (scanned self w).
  destruct (collect_results E self (loaded_cache E self w)
              (schedule (scanned self w)) [] w) as [[e | results] w1];
    [reflexivity |].
  unfold bind. destruct (save_cache_total (JObj results) w1) as [w2 [Hsave _]].
  rewrite Hsave. reflexivity.
Qed.

(** With a deterministic generation capability the outcome of an analysis
    depends on the disk only. *)
Lemma analyze_file_deterministic cache g w1 w2 :
  deterministic E -> fs w1 = fs w2 ->
  fst (analyze_file E self g cache w1) = fst (analyze_file E self g cache w2).
Proof.
  intros Hdet Hfs. rewrite !AnalyzerFacts.analyze_file_unfold.
  destruct (PyPath.relative_to (root_path self) g); [| reflexivity].
  cbv zeta. rewrite (AnalyzerFacts.fingerprint_fs E w1 w2 g Hfs).
  destruct (cache_hit cache _ _) as [e | [|]]; try reflexivity.
  rewrite (AnalyzerFacts.read_bytes_fs E w1 w2 g Hfs).
  destruct (fst (read_bytes E g w2)); [reflexivity |].
  cbn [fst]. rewrite (Hdet (llm_log w1) (llm_log w2)). reflexivity.
Qed.

End Run.

Lemma NoDup_map_injective {A B : Type} (f : A -> B) (l : list A) :
  NoDup (map f l) ->
  forall x y, In x l -> In y l -> f x = f y -> x = y.
Proof.
  induction l as [| a l IH]; intros Hnd x y Hx Hy Heq; [destruct Hx |].
  cbn in Hnd. inversion Hnd as [| ? ? Hnotin Hnd']; subst.
  destruct Hx as [<- | Hx], Hy as [<- | Hy].
  - reflexivity.
  - exfalso. apply Hnotin. rewrite Heq. apply in_map. exact Hy.
  - exfalso. apply Hnotin. rewrite <- Heq. apply in_map. exact Hx.
  - exact (IH Hnd' x y Hx Hy Heq).
Qed.

End DispatcherFacts.

Module AssemblerFacts.
Import Json Py Rag Spec.

Lemma collect_skip {A B : Type} (f : A -> exn + option B) (x : A) :
  f x = inr None ->
  forall before after,
    collect f (before ++ x :: after) = collect f (before ++ after).
Proof.
  intros Hx before after. induction before as [| y before IH]; cbn.
  - rewrite Hx. destruct (collect f after); reflexivity.
  - rewrite IH. reflexivity.
Qed.

Lemma for_each_skip {A : Type} (body : A -> M unit) (x : A) :
  (forall w, body x w = (inr tt, w)) ->
  forall before after w,
    for_each (before ++ x :: after) body w = for_each (before ++ after) body w.
Proof.
  intros Hx before after. induction before as [| y before IH]; intros w; cbn.
  - unfold bind. rewrite Hx. reflexivity.
  - unfold bind. destruct (body y w) as [[e | []] w1]; [reflexivity | apply IH].
Qed.

(** A record without an [analysis] field gets no component document and no
    line in the overview. *)
Lemma error_record_not_documented E docs_dir key h w :
  component_doc E docs_dir key (error_record h) w = (inr tt, w).
Proof. reflexivity. Qed.

Lemma error_record_not_summarized E key h :
  file_summary E key (error_record h) = inr None.
Proof. reflexivity. Qed.

End AssemblerFacts.

(** C1.  When the cache holds, under the relative path of the file, a record
    whose stored fingerprint equals the current fingerprint of the file,
    [analyze_file] returns that record as it is and leaves the world as it
    is: no prompt is sent to the generation capability. *)
Theorem analyze_file_cache_hit :
  forall (E : Py.Env) (self : Rag.CodebaseRAG) (file_path rel : path)
         (w : Py.World) (members fields : list (string * Json.json)),
    PyPath.relative_to (Rag.root_path self) file_path = Some rel ->
    Dict.get (PyPath.rel_str rel) members = Some (Json.JObj fields) ->
    Dict.get "hash" fields = Some (Json.JStr (Spec.fingerprint E w file_path)) ->
    Rag.analyze_file E self file_path (Json.JObj members) w
    = (inr (Json.JObj fields), w).
Proof.
  intros E self file_path rel w members fields.
  apply AnalyzerFacts.stored_fingerprint_hits.
Qed.

(** C1 at [/srv/app/a.py], unchanged since the run that filled the cache. *)
Lemma analyze_file_cache_hit_witness :
  Rag.analyze_file Spec.stub_env Spec.app_self ["srv"; "app"; "a.py"]
                   (Json.JObj Spec.a_cache_members) (Spec.world_of Spec.app_disk)
  = (inr (Json.JObj Spec.a_fields), Spec.world_of Spec.app_disk).
Proof.
  apply (analyze_file_cache_hit Spec.stub_env Spec.app_self
           ["srv"; "app"; "a.py"] ["a.py"]); reflexivity.
Defined.

(** C2 as amended.  When the bytes of the file cannot be read,
    [get_file_hash] returns the empty digest and does not raise.  When the
    computed fingerprint is the empty digest, a cached record whose stored
    fingerprint is also the empty digest is a hit and is returned as it is;
    a cached record with any other stored fingerprint is a miss, and the
    file is analyzed as with an empty cache. *)
Theorem sentinel_hits_exactly_sentinel :
  forall (E : Py.Env) (self : Rag.CodebaseRAG) (file_path : path) (w : Py.World),
    (forall e, fst (Py.read_bytes E file_path w) = inl e ->
               Rag.get_file_hash E self file_path w = (inr EmptyString, w))
    /\
    (forall rel members fields,
        Spec.fingerprint E w file_path = EmptyString ->
        PyPath.relative_to (Rag.root_path self) file_path = Some rel ->
        Dict.get (PyPath.rel_str rel) members = Some (Json.JObj fields) ->
        (Dict.get "hash" fields = Some (Json.JStr EmptyString) ->
         Rag.analyze_file E self file_path (Json.JObj members) w
         = (inr (Json.JObj fields), w))
        /\
        (Dict.get "hash" fields <> Some (Json.JStr EmptyString) ->
         Rag.analyze_file E self file_path (Json.JObj members) w
         = Rag.analyze_file E self file_path (Json.JObj []) w)).
Proof.
  intros E self file_path w. split.
  - intros e He. rewrite AnalyzerFacts.get_file_hash_run.
    unfold Spec.fingerprint. rewrite He. reflexivity.
  - intros rel members fields Hfp Hrel Hentry. split.
    + intros Hhash.
      apply (AnalyzerFacts.stored_fingerprint_hits E self file_path rel);
        try assumption. rewrite Hfp. exact Hhash.
    + intros Hhash. rewrite !AnalyzerFacts.analyze_file_unfold, Hrel. cbv zeta.
      rewrite Hfp. unfold Rag.cache_hit. cbn [Json.py_in Json.py_getitem].
      unfold Dict.mem. rewrite Hentry. cbn [Json.py_get Dict.get].
      destruct (Dict.get "hash" fields) as [h |] eqn:Hh.
      * destruct h as [| b | n | s | items | ms]; cbn [Json.eq_str]; try reflexivity.
        destruct (String.eqb_spec s EmptyString) as [-> | Hne];
          [exfalso; apply Hhash; reflexivity | reflexivity].
      * reflexivity.
Qed.

(** The amended C2 at [/srv/app/gone.py]: the fingerprint is the empty
    digest, and the record stored under the empty digest is returned. *)
Lemma sentinel_hits_exactly_sentinel_witness :
  Rag.get_file_hash Spec.stub_env Spec.app_self Spec.gone_file
                    (Spec.world_of Spec.app_disk)
  = (inr EmptyString, Spec.world_of Spec.app_disk)
  /\ Rag.analyze_file Spec.stub_env Spec.app_self Spec.gone_file
                      (Json.JObj Spec.stale_cache_members)
                      (Spec.world_of Spec.app_disk)
     = (inr (Json.JObj Spec.stale_fields), Spec.world_of Spec.app_disk).
Proof.
  destruct (sentinel_hits_exactly_sentinel Spec.stub_env Spec.app_self
              Spec.gone_file (Spec.world_of Spec.app_disk)) as [Hhash Hhit].
  split.
  - apply (Hhash Json.OSError). reflexivity.
  - apply (Hhit ["gone.py"] Spec.stale_cache_members Spec.stale_fields);
      reflexivity.
Defined.

(** C2 as stated fails: [/srv/app/gone.py] cannot be read, its fingerprint is
    the empty digest, the cache holds a record for it under the empty digest,
    and the lookup of [analyze_file] is a hit. *)
Lemma sentinel_is_not_always_stale :
  ~ (forall (E : Py.Env) (self : Rag.CodebaseRAG) (file_path rel : path)
            (w : Py.World) (cache : Json.json),
        PyPath.relative_to (Rag.root_path self) file_path = Some rel ->
        Spec.fingerprint E w file_path = EmptyString ->
        Rag.cache_hit cache (PyPath.rel_str rel) (Spec.fingerprint E w file_path)
        <> inr true).
Proof.
  intros H.
  apply (H Spec.stub_env Spec.app_self Spec.gone_file ["gone.py"]
           (Spec.world_of Spec.app_disk) (Json.JObj Spec.stale_cache_members));
    reflexivity.
Qed.

(** The same input through [analyze_file]: the stale record comes back and no
    prompt is sent. *)
Example analyze_gone_file_with_stale_cache :
  Rag.analyze_file Spec.stub_env Spec.app_self Spec.gone_file
                   (Json.JObj Spec.stale_cache_members)
                   (Spec.world_of Spec.app_disk)
  = (inr (Json.JObj Spec.stale_fields), Spec.world_of Spec.app_disk).
Proof. vm_compute. reflexivity. Qed.

(** C10 as amended.  When the content of the file cannot be read and the
    cache lookup misses, or hits a record that is itself the record of an
    unreadable file, [analyze_file] returns the record that holds the error
    message and the fingerprint and nothing else, and sends no prompt.  Such
    a record gets no component document and no line in the overview: with or
    without it in the results, [generate_component_docs] and the summaries
    of [generate_project_overview] are the same, and a record without an
    [analysis] field is never summarized. *)
Theorem unreadable_file_yields_error_record :
  forall (E : Py.Env) (self : Rag.CodebaseRAG) (file_path rel : path)
         (w : Py.World) (cache : Json.json) (e : Json.exn),
    PyPath.relative_to (Rag.root_path self) file_path = Some rel ->
    fst (Py.read_text E file_path w) = inl e ->
    Spec.misses_or_holds_error cache (PyPath.rel_str rel)
                               (Spec.fingerprint E w file_path) ->
    Rag.analyze_file E self file_path cache w
    = (inr (Json.JObj [("error", Json.JStr "Could not read file");
                       ("hash", Json.JStr (Spec.fingerprint E w file_path))]),
       w)
    /\
    (forall key before after w1,
        Rag.generate_component_docs E self
          (before ++ (key, Rag.error_record (Spec.fingerprint E w file_path)) :: after) w1
        = Rag.generate_component_docs E self (before ++ after) w1)
    /\
    (forall key before after,
        Rag.file_summaries E
          (before ++ (key, Rag.error_record (Spec.fingerprint E w file_path)) :: after)
        = Rag.file_summaries E (before ++ after))
    /\
    (forall key fields,
        Dict.get "analysis" fields = None ->
        Rag.file_summary E key (Json.JObj fields) = inr None).
Proof.
  intros E self file_path rel w cache e Hrel Hread Hlookup.
  split; [| split; [| split]].
  - rewrite AnalyzerFacts.analyze_file_unfold, Hrel. cbv zeta.
    destruct Hlookup as [Hmiss | [Hhit Hitem]].
    + rewrite Hmiss.
      rewrite AnalyzerFacts.read_text_run in Hread. cbn [fst] in Hread.
      destruct (fst (Py.read_bytes E file_path w)); [reflexivity | discriminate].
    + rewrite Hhit, Hitem. reflexivity.
  - intros key before after w1.
    unfold Rag.generate_component_docs, Py.bind.
    destruct (Py.mkdir_exist_ok E (PyPath.child (Rag.root_path self) "docs") w1)
      as [[e1 | []] w2]; [reflexivity |].
    apply (AssemblerFacts.for_each_skip
             (fun kv => Rag.component_doc E _ (fst kv) (snd kv))).
    intros w3. reflexivity.
  - intros key before after. unfold Rag.file_summaries.
    apply (AssemblerFacts.collect_skip
             (fun kv => Rag.file_summary E (fst kv) (snd kv))).
    reflexivity.
  - intros key fields Hnone. unfold Rag.file_summary.
    cbn [Json.py_in]. unfold Dict.mem. rewrite Hnone. reflexivity.
Qed.

(** The amended C10 at [/srv/app/gone.py] with an empty cache. *)
Lemma unreadable_file_yields_error_record_witness :
  Rag.analyze_file Spec.stub_env Spec.app_self Spec.gone_file (Json.JObj [])
                   (Spec.world_of Spec.app_disk)
  = (inr (Json.JObj [("error", Json.JStr "Could not read file");
                     ("hash", Json.JStr EmptyString)]),
     Spec.world_of Spec.app_disk).
Proof.
  exact (proj1 (unreadable_file_yields_error_record Spec.stub_env Spec.app_self
                  Spec.gone_file ["gone.py"] (Spec.world_of Spec.app_disk)
                  (Json.JObj []) Json.OSError eq_refl eq_refl
                  (or_introl eq_refl))).
Defined.

(** C10 as stated fails: [/srv/app/gone.py] cannot be read, and with the
    stale cache [analyze_file] returns the cached record, which carries a
    path, a size, a line count, an analysis and a preview. *)
Lemma unreadable_file_may_return_cached_record :
  ~ (forall (E : Py.Env) (self : Rag.CodebaseRAG) (file_path rel : path)
            (w : Py.World) (cache : Json.json) (e : Json.exn),
        PyPath.relative_to (Rag.root_path self) file_path = Some rel ->
        fst (Py.read_text E file_path w) = inl e ->
        fst (Rag.analyze_file E self file_path cache w)
        = inr (Rag.error_record (Spec.fingerprint E w file_path))).
Proof.
  intros H.
  specialize (H Spec.stub_env Spec.app_self Spec.gone_file ["gone.py"]
                (Spec.world_of Spec.app_disk)
                (Json.JObj Spec.stale_cache_members) Json.OSError
                eq_refl eq_refl).
  vm_compute in H. discriminate.
Qed.

(** C3 as amended.  When the generation capability raises on the prompt for
    a file, the run is not aborted and returns its result map; the file has
    no record in the map (it is skipped, no record with an error field is
    made for it); a sibling whose own analysis succeeds has its record in
    the map. *)
Theorem failed_generation_skips_file :
  forall (E : Py.Env) (self : Rag.CodebaseRAG) (w : Py.World)
         (max_workers : Z) (schedule : list path -> list path)
         (f g : path) (kf kg content : string) (e : Json.exn)
         (record : Json.json),
    (0 < max_workers)%Z ->
    Permutation (schedule (Spec.scanned self w)) (Spec.scanned self w) ->
    NoDup (map (Spec.rel_key self) (Spec.scanned self w)) ->
    In f (Spec.scanned self w) ->
    In g (Spec.scanned self w) ->
    Spec.rel_key self f = Some kf ->
    Spec.rel_key self g = Some kg ->
    Rag.cache_hit (Spec.loaded_cache E self w) kf (Spec.fingerprint E w f)
    = inr false ->
    fst (Py.read_text E f w) = inr content ->
    (forall log, Py.generate E log (Rag.analysis_prompt kf content) = inl e) ->
    Spec.always E self (Spec.loaded_cache E self w) (Py.fs w) g (inr record) ->
    exists results w',
      Rag.analyze_codebase_parallel E self max_workers schedule w
      = (inr results, w')
      /\ Dict.get kf results = None
      /\ Dict.get kg results = Some record.
Proof.
  intros E self w max_workers schedule f g kf kg content e record
         Hpos Hperm Hnd Hf Hg Hkf Hkg Hmiss Hread Hfail Hsibling.
  rewrite (DispatcherFacts.analyze_codebase_parallel_unfold E self _ _ w Hpos).
  destruct (DispatcherFacts.collect_results_total E self
              (Spec.loaded_cache E self w) (schedule (Spec.scanned self w)) [] w)
    as [res [w1 [Hrun _]]].
  rewrite Hrun. exists res. eexists. split; [reflexivity |]. split.
  - rewrite (DispatcherFacts.collect_results_untouched E self _ kf _ _ _ _ _ Hrun);
      [reflexivity |].
    intros h Hh Hk. exists e. intros w2 Hfs.
    assert (h = f) as ->.
    { apply (DispatcherFacts.NoDup_map_injective _ _ Hnd);
        [exact (Permutation_in _ Hperm Hh) | exact Hf | congruence]. }
    rewrite AnalyzerFacts.analyze_file_unfold.
    unfold Spec.rel_key in Hkf.
    destruct (PyPath.relative_to (Rag.root_path self) f) as [rel |];
      [| discriminate].
    injection Hkf as Hkf. cbv zeta. rewrite Hkf.
    rewrite (AnalyzerFacts.fingerprint_fs E w2 w f Hfs), Hmiss.
    rewrite (AnalyzerFacts.read_bytes_fs E w2 w f Hfs).
    rewrite AnalyzerFacts.read_text_run in Hread. cbn [fst] in Hread.
    destruct (fst (Py.read_bytes E f w)) as [e0 | bytes]; [discriminate |].
    injection Hread as ->. cbn [fst]. rewrite Hfail. reflexivity.
  - apply (DispatcherFacts.collect_results_stored E self _ kg record _ _ _ _ _ Hrun).
    + intros h Hh Hk.
      assert (h = g) as ->.
      { apply (DispatcherFacts.NoDup_map_injective _ _ Hnd);
          [exact (Permutation_in _ Hperm Hh) | exact Hg | congruence]. }
      exact Hsibling.
    + right. exists g. split; [| exact Hkg].
      exact (Permutation_in _ (Permutation_sym Hperm) Hg).
Qed.

(** The amended C3 at [/srv/app]: the generation capability fails on [b.py]
    and answers for [a.py]. *)
Lemma failed_generation_skips_file_witness :
  exists results w',
    Rag.analyze_codebase_parallel Spec.flaky_env Spec.app_self 4 (fun l => l)
      (Spec.world_of Spec.app_disk)
    = (inr results, w')
    /\ Dict.get "b.py" results = None
    /\ Dict.get "a.py" results
       = Some (Rag.analysis_record "md5:def f(): pass" "a.py" "def f(): pass"
                                   "A summary.").
Proof.
  apply (failed_generation_skips_file Spec.flaky_env Spec.app_self
           (Spec.world_of Spec.app_disk) 4 (fun l => l)
           ["srv"; "app"; "b.py"] ["srv"; "app"; "a.py"]
           "b.py" "a.py" "x = 1" Json.GenerationError).
  - reflexivity.
  - apply Permutation_refl.
  - vm_compute. repeat constructor; cbn; intuition discriminate.
  - vm_compute. right. left. reflexivity.
  - vm_compute. left. reflexivity.
  - reflexivity.
  - reflexivity.
  - reflexivity.
  - reflexivity.
  - intros log. reflexivity.
  - intros [disk log out] Hdisk. cbn in Hdisk. subst disk. reflexivity.
Defined.

(** C3 as stated fails: at [/srv/app] with a generation capability that
    raises on [b.py], the run returns a result map that holds no record for
    [b.py], so no record with an error field either. *)
Lemma failed_generation_leaves_no_error_record :
  ~ (forall (E : Py.Env) (self : Rag.CodebaseRAG) (w : Py.World)
            (max_workers : Z) (schedule : list path -> list path)
            (f : path) (kf content : string) (e : Json.exn),
        (0 < max_workers)%Z ->
        Permutation (schedule (Spec.scanned self w)) (Spec.scanned self w) ->
        In f (Spec.scanned self w) ->
        Spec.rel_key self f = Some kf ->
        Rag.cache_hit (Spec.loaded_cache E self w) kf (Spec.fingerprint E w f)
        = inr false ->
        fst (Py.read_text E f w) = inr content ->
        (forall log, Py.generate E log (Rag.analysis_prompt kf content) = inl e) ->
        exists results w' fields,
          Rag.analyze_codebase_parallel E self max_workers schedule w
          = (inr results, w')
          /\ Dict.get kf results = Some (Json.JObj fields)
          /\ Dict.mem "error" fields = true).
Proof.
  intros H.
  destruct (H Spec.flaky_env Spec.app_self (Spec.world_of Spec.app_disk)
              4%Z (fun l => l) ["srv"; "app"; "b.py"] "b.py" "x = 1"
              Json.GenerationError)
    as [results [w' [fields [Hrun [Hget _]]]]].
  - reflexivity.
  - apply Permutation_refl.
  - vm_compute. right. left. reflexivity.
  - reflexivity.
  - reflexivity.
  - reflexivity.
  - intros log. reflexivity.
  - vm_compute in Hrun. injection Hrun as <- _. discriminate.
Qed.

(** C8.  With a deterministic generation capability and pairwise distinct
    relative paths, the run with one worker and the run with four workers
    over the same files return equal result maps (the same keys with the
    same records, so the same entries up to their order), whatever the order
    in which the tasks finish. *)
Theorem worker_count_does_not_change_results :
  forall (E : Py.Env) (self : Rag.CodebaseRAG) (w : Py.World)
         (schedule1 schedule4 : list path -> list path),
    Spec.deterministic E ->
    Permutation (schedule1 (Spec.scanned self w)) (Spec.scanned self w) ->
    Permutation (schedule4 (Spec.scanned self w)) (Spec.scanned self w) ->
    NoDup (map (Spec.rel_key self) (Spec.scanned self w)) ->
    exists results1 w1 results4 w4,
      Rag.analyze_codebase_parallel E self 1 schedule1 w = (inr results1, w1)
      /\ Rag.analyze_codebase_parallel E self 4 schedule4 w = (inr results4, w4)
      /\ Dict.equiv results1 results4
      /\ Permutation results1 results4.
Proof.
  intros E self w schedule1 schedule4 Hdet Hperm1 Hperm4 Hnd.
  rewrite !(DispatcherFacts.analyze_codebase_parallel_unfold E self _ _ w)
    by reflexivity.
  set (cache := Spec.loaded_cache E self w).
  destruct (DispatcherFacts.collect_results_total E self cache
              (schedule1 (Spec.scanned self w)) [] w) as [r1 [w1 [Hrun1 _]]].
  destruct (DispatcherFacts.collect_results_total E self cache
              (schedule4 (Spec.scanned self w)) [] w) as [r4 [w4 [Hrun4 _]]].
  rewrite Hrun1, Hrun4. exists r1. eexists. exists r4. eexists.
  split; [reflexivity |]. split; [reflexivity |].
  assert (Hequiv : Dict.equiv r1 r4);
    [| split; [exact Hequiv |];
       apply DictFacts.equiv_Permutation;
       [apply (DispatcherFacts.collect_results_NoDup E self cache _ [] _ _ _
                 (NoDup_nil _) Hrun1)
       | apply (DispatcherFacts.collect_results_NoDup E self cache _ [] _ _ _
                  (NoDup_nil _) Hrun4)
       | exact Hequiv]].
  intros key.
  assert (Halways : forall g,
             Spec.always E self cache (Py.fs w) g
               (fst (Rag.analyze_file E self g cache w))).
  { intros g w2 Hfs.
    apply DispatcherFacts.analyze_file_deterministic; assumption. }
  destruct (find (fun g => match Spec.rel_key self g with
                           | Some k => String.eqb k key
                           | None => false
                           end) (Spec.scanned self w)) as [g |] eqn:Hfind.
  - apply find_some in Hfind. destruct Hfind as [Hg Hk].
    destruct (Spec.rel_key self g) as [k |] eqn:Hkg; [| discriminate].
    apply String.eqb_eq in Hk. subst k.
    assert (Honly : forall schedule h,
               Permutation (schedule (Spec.scanned self w)) (Spec.scanned self w) ->
               In h (schedule (Spec.scanned self w)) ->
               Spec.rel_key self h = Some key -> h = g).
    { intros schedule h Hperm Hh Hkh.
      apply (DispatcherFacts.NoDup_map_injective _ _ Hnd);
        [exact (Permutation_in _ Hperm Hh) | exact Hg | congruence]. }
    destruct (fst (Rag.analyze_file E self g cache w)) as [e | record] eqn:Hout.
    + rewrite (DispatcherFacts.collect_results_untouched E self cache key
                 _ _ _ _ _ Hrun1).
      * rewrite (DispatcherFacts.collect_results_untouched E self cache key
                   _ _ _ _ _ Hrun4); [reflexivity |].
        intros h Hh Hkh. rewrite (Honly schedule4 h Hperm4 Hh Hkh).
        exists e. rewrite <- Hout. apply Halways.
      * intros h Hh Hkh. rewrite (Honly schedule1 h Hperm1 Hh Hkh).
        exists e. rewrite <- Hout. apply Halways.
    + rewrite (DispatcherFacts.collect_results_stored E self cache key record
                 _ _ _ _ _ Hrun1).
      * rewrite (DispatcherFacts.collect_results_stored E self cache key record
                   _ _ _ _ _ Hrun4); [reflexivity | |].
        -- intros h Hh Hkh. rewrite (Honly schedule4 h Hperm4 Hh Hkh).
           rewrite <- Hout. apply Halways.
        -- right. exists g. split; [| exact Hkg].
           exact (Permutation_in _ (Permutation_sym Hperm4) Hg).
      * intros h Hh Hkh. rewrite (Honly schedule1 h Hperm1 Hh Hkh).
        rewrite <- Hout. apply Halways.
      * right. exists g. split; [| exact Hkg].
        exact (Permutation_in _ (Permutation_sym Hperm1) Hg).
  - assert (Hnone : forall schedule h,
               Permutation (schedule (Spec.scanned self w)) (Spec.scanned self w) ->
               In h (schedule (Spec.scanned self w)) ->
               Spec.rel_key self h = Some key -> False).
    { intros schedule h Hperm Hh Hkh.
      pose proof (find_none _ _ Hfind h (Permutation_in _ Hperm Hh)) as Hno.
      cbv beta in Hno. rewrite Hkh, String.eqb_refl in Hno. discriminate. }
    rewrite (DispatcherFacts.collect_results_untouched E self cache key
               _ _ _ _ _ Hrun1).
    + rewrite (DispatcherFacts.collect_results_untouched E self cache key
                 _ _ _ _ _ Hrun4); [reflexivity |].
      intros h Hh Hkh. destruct (Hnone schedule4 h Hperm4 Hh Hkh).
    + intros h Hh Hkh. destruct (Hnone schedule1 h Hperm1 Hh Hkh).
Qed.

(** C8 at [/srv/app]: one worker finishing the tasks in submission order,
    four workers finishing them in the reverse order. *)
Lemma worker_count_does_not_change_results_witness :
  exists results1 w1 results4 w4,
    Rag.analyze_codebase_parallel Spec.stub_env Spec.app_self 1 (fun l => l)
      (Spec.world_of Spec.app_disk) = (inr results1, w1)
    /\ Rag.analyze_codebase_parallel Spec.stub_env Spec.app_self 4 (@rev path)
         (Spec.world_of Spec.app_disk) = (inr results4, w4)
    /\ Dict.equiv results1 results4
    /\ Permutation results1 results4.
Proof.
  apply (worker_count_does_not_change_results Spec.stub_env Spec.app_self
           (Spec.world_of Spec.app_disk) (fun l => l) (@rev path)).
  - intros log1 log2 prompt. reflexivity.
  - apply Permutation_refl.
  - apply Permutation_sym, Permutation_rev.
  - vm_compute. repeat constructor; cbn; intuition discriminate.
Defined.


(* ================================================================== *)
(** ** The JSON encoder and decoder *)

Module JsonFacts.
Import Json Spec.

(** *** Strings *)

(** Reading back one escaped character. *)
Lemma scanstring_escape_char c tail :
  scanstring (escape_char c ++ tail)
  = match scanstring tail with
    | Some (r, rest) => Some (c :: r, rest)
    | None => None
    end.
Proof.
  destruct c as [[] [] [] [] [] [] [] []]; reflexivity.
Qed.

Lemma scanstring_escaped cs rest :
  scanstring (flat_map escape_char cs ++ DQ :: rest) = Some (cs, rest).
Proof.
  induction cs as [| c cs IH]; [reflexivity |].
  cbn [flat_map]. rewrite <- app_assoc, scanstring_escape_char, IH.
  reflexivity.
Qed.

(** What follows the opening quote of an encoded string reads back as the
    string. *)
Lemma scanstring_encode_string s rest :
  exists body,
    encode_string s ++ rest = DQ :: body
    /\ scanstring body = Some (list_ascii_of_string s, rest).
Proof.
  unfold encode_string. eexists. split.
  - cbn [app]. rewrite <- app_assoc. reflexivity.
  - apply scanstring_escaped.
Qed.

(** *** Integers *)

Lemma scan_digits_chars_of_uint d rest :
  match rest with [] => True | c :: _ => is_digit c = false end ->
  scan_digits (chars_of_uint d ++ rest) = (d, rest).
Proof.
  intros Hrest. induction d; cbn; try (rewrite IHd; reflexivity).
  destruct rest as [| c rest]; [reflexivity |].
  cbn. unfold is_digit in Hrest. destruct (digit_of c); [discriminate | reflexivity].
Qed.

Lemma nzhead_not_D0 d d' : Decimal.nzhead d <> Decimal.D0 d'.
Proof. induction d; cbn; try discriminate. exact IHd. Qed.

(** The decimal digits of a positive number do not start with a zero. *)
Lemma to_uint_head p :
  exists c tail,
    chars_of_uint (Pos.to_uint p) = c :: tail
    /\ is_digit c = true /\ Ascii.eqb c "0" = false /\ Ascii.eqb c "-" = false.
Proof.
  pose proof (DecimalPos.Unsigned.to_of (Pos.to_uint p)) as Hnorm.
  rewrite DecimalPos.Unsigned.of_to in Hnorm. cbn [N.to_uint] in Hnorm.
  pose proof (DecimalPos.Unsigned.to_uint_nonnil p) as Hnil.
  pose proof (DecimalPos.Unsigned.to_uint_nonzero p) as Hzero.
  destruct (Pos.to_uint p) as [| d | d | d | d | d | d | d | d | d | d] eqn:Hd;
    try (eexists; eexists; split; [reflexivity | repeat split; reflexivity]).
  - congruence.
  - exfalso. unfold Decimal.unorm in Hnorm. cbn [Decimal.nzhead] in Hnorm.
    destruct (Decimal.nzhead d) eqn:Hh;
      try (symmetry in Hnorm; rewrite <- Hh in Hnorm;
           exact (nzhead_not_D0 _ _ Hnorm)).
    apply Hzero. exact Hnorm.
Qed.

Lemma closes_not_digit rest :
  closes rest ->
  match rest with [] => True | c :: _ => is_digit c = false end.
Proof.
  destruct rest as [| c rest]; [trivial |].
  intros [-> | ->]; reflexivity.
Qed.

Lemma closes_not_float rest : closes rest -> float_tail rest = false.
Proof.
  destruct rest as [| c rest]; [reflexivity |].
  intros [-> | ->]; destruct rest; reflexivity.
Qed.

Lemma scan_natural_pos p rest :
  closes rest ->
  scan_natural (chars_of_uint (Pos.to_uint p) ++ rest) = Some (Npos p, rest).
Proof.
  intros Hrest.
  destruct (to_uint_head p) as [c [tail [Hhead [Hdigit [Hzero _]]]]].
  unfold scan_natural.
  pose proof (scan_digits_chars_of_uint (Pos.to_uint p) rest
                (closes_not_digit rest Hrest)) as Hscan.
  assert (Heq : chars_of_uint (Pos.to_uint p) ++ rest = c :: (tail ++ rest))
    by (rewrite Hhead; reflexivity).
  rewrite Heq, Hzero, Hdigit, <- Heq, Hscan. unfold N.of_uint.
  rewrite DecimalPos.Unsigned.of_to. reflexivity.
Qed.

(** An encoded integer reads back as the integer. *)
Lemma scan_number_encode_int n rest :
  closes rest ->
  scan_number (encode_int n ++ rest) = Some (JInt n, rest).
Proof.
  intros Hrest. unfold scan_number.
  destruct n as [| p | p]; cbn [encode_int].
  - cbn. rewrite (closes_not_float rest Hrest). reflexivity.
  - destruct (to_uint_head p) as [c [tail [Hhead [_ [_ Hminus]]]]].
    assert (Heq : chars_of_uint (Pos.to_uint p) ++ rest = c :: (tail ++ rest))
      by (rewrite Hhead; reflexivity).
    rewrite Heq, Hminus, <- Heq, (scan_natural_pos p rest Hrest).
    rewrite (closes_not_float rest Hrest). reflexivity.
  - cbn [app]. cbn [Ascii.eqb Bool.eqb]. rewrite (scan_natural_pos p rest Hrest).
    rewrite (closes_not_float rest Hrest). reflexivity.
Qed.

(** The first character of an encoded integer. *)
Lemma encode_int_head n :
  exists c tail,
    encode_int n = c :: tail
    /\ (is_digit c = true \/ c = "-"%char).
Proof.
  destruct n as [| p | p]; cbn [encode_int].
  - eexists. eexists. split; [reflexivity | left; reflexivity].
  - destruct (to_uint_head p) as [c [tail [Hhead [Hdigit _]]]].
    exists c, tail. split; [exact Hhead | left; exact Hdigit].
  - eexists. eexists. split; [reflexivity | right; reflexivity].
Qed.

(** *** White space *)

Lemma skip_ws_spaces n s : skip_ws (repeat " "%char n ++ s) = skip_ws s.
Proof. induction n as [| n IH]; [reflexivity | exact IH]. Qed.

Lemma skip_ws_indent level s : skip_ws (newline_indent level ++ s) = skip_ws s.
Proof. unfold newline_indent. cbn [app skip_ws]. apply skip_ws_spaces. Qed.

Lemma skip_ws_head c s : is_ws c = false -> skip_ws (c :: s) = c :: s.
Proof. intros H. cbn. rewrite H. reflexivity. Qed.

Lemma newline_indent_length level : 1 <= List.length (newline_indent level).
Proof. unfold newline_indent. cbn [List.length]. lia. Qed.

Lemma closes_indent level s : closes (newline_indent level ++ s).
Proof. right. reflexivity. Qed.

(** *** The equations of the scanner *)

Lemma scan_once_string fuel s1 :
  scan_once (S fuel) (DQ :: s1)
  = match scanstring s1 with
    | Some (r, rest) => Some (JStr (string_of_list_ascii r), rest)
    | None => None
    end.
Proof. reflexivity. Qed.

Lemma scan_once_array fuel s1 :
  scan_once (S fuel) ("["%char :: s1)
  = match skip_ws s1 with
    | d :: s2 =>
        if Ascii.eqb d "]" then Some (JArr [], s2)
        else parse_items fuel [] (d :: s2)
    | [] => None
    end.
Proof. reflexivity. Qed.

Lemma scan_once_object fuel s1 :
  scan_once (S fuel) ("{"%char :: s1)
  = match skip_ws s1 with
    | d :: s2 =>
        if Ascii.eqb d "}" then Some (JObj [], s2)
        else parse_members fuel [] (d :: s2)
    | [] => None
    end.
Proof. reflexivity. Qed.

Lemma scan_once_number fuel c s :
  is_digit c = true \/ c = "-"%char ->
  scan_once (S fuel) (c :: s) = scan_number (c :: s).
Proof.
  intros [H | ->]; [| reflexivity].
  destruct c as [[] [] [] [] [] [] [] []]; try discriminate H; reflexivity.
Qed.

Lemma parse_items_eq fuel acc s :
  parse_items (S fuel) acc s
  = match scan_once fuel s with
    | Some (value, s1) =>
        match skip_ws s1 with
        | d :: s2 =>
            if Ascii.eqb d "]" then Some (JArr (acc ++ [value]), s2)
            else if Ascii.eqb d "," then
              parse_items fuel (acc ++ [value]) (skip_ws s2)
            else None
        | [] => None
        end
    | None => None
    end.
Proof. reflexivity. Qed.

Lemma parse_members_eq fuel acc s1 :
  parse_members (S fuel) acc (DQ :: s1)
  = match scanstring s1 with
    | Some (key, s2) =>
        match skip_ws s2 with
        | colon :: s3 =>
            if Ascii.eqb colon ":" then
              match scan_once fuel (skip_ws s3) with
              | Some (value, s4) =>
                  let acc' := Dict.set (string_of_list_ascii key) value acc in
                  match skip_ws s4 with
                  | d :: s5 =>
                      if Ascii.eqb d "}" then Some (JObj acc', s5)
                      else if Ascii.eqb d "," then
                        parse_members fuel acc' (skip_ws s5)
                      else None
                  | [] => None
                  end
              | None => None
              end
            else None
        | [] => None
        end
    | None => None
    end.
Proof. reflexivity. Qed.

(** *** The first character of an encoding *)

Lemma digit_opens c : is_digit c = true -> opens c.
Proof.
  destruct c as [[] [] [] [] [] [] [] []]; try discriminate;
    intros _; repeat split.
Qed.

Lemma encode_head level v :
  exists c tail, encode level v = c :: tail /\ opens c.
Proof.
  destruct v as [| [|] | n | s | [| x items] | [| kv members]];
    try (eexists; eexists; split; [reflexivity | repeat split]).
  destruct (encode_int_head n) as [c [tail [Hhead Hc]]].
  exists c, tail. split; [exact Hhead |].
  destruct Hc as [Hdigit | ->]; [apply digit_opens; exact Hdigit | repeat split].
Qed.

Lemma skip_ws_encode level v s :
  skip_ws (encode level v ++ s) = encode level v ++ s.
Proof.
  destruct (encode_head level v) as [c [tail [Hhead [Hws _]]]].
  rewrite Hhead. cbn [app]. apply skip_ws_head. exact Hws.
Qed.

Lemma encode_nonempty level v : 1 <= List.length (encode level v).
Proof.
  destruct (encode_head level v) as [c [tail [Hhead _]]].
  rewrite Hhead. cbn. lia.
Qed.

(** *** Dictionaries without repeated keys *)

Lemma set_fresh {A : Type} (k : string) (v : A) (acc : Dict.dict A) :
  existsb (String.eqb k) (map fst acc) = false ->
  Dict.set k v acc = acc ++ [(k, v)].
Proof.
  induction acc as [| [k' v'] acc IH]; cbn; [reflexivity |].
  intros H. apply orb_false_elim in H. destruct H as [Hk Hrest].
  rewrite Hk, (IH Hrest). reflexivity.
Qed.

Lemma distinct_middle_fresh {A : Type} (k : string) (v : A)
  (acc l : list (string * A)) :
  distinct (map fst (acc ++ (k, v) :: l)) = true ->
  existsb (String.eqb k) (map fst acc) = false.
Proof.
  induction acc as [| [k' v'] acc IH]; cbn; [reflexivity |].
  intros H. apply andb_prop in H. destruct H as [Hhead Hrest].
  rewrite (IH Hrest), orb_false_r.
  apply negb_true_iff in Hhead.
  rewrite map_app, existsb_app in Hhead. cbn in Hhead.
  apply orb_false_elim in Hhead. destruct Hhead as [_ Hhead].
  apply orb_false_elim in Hhead. destruct Hhead as [Hkk _].
  rewrite String.eqb_sym. exact Hkk.
Qed.

(** *** Round trip *)

Lemma skip_ws_items level x l t :
  skip_ws (sep_concat (encode level) (item_sep level) (x :: l) ++ t)
  = sep_concat (encode level) (item_sep level) (x :: l) ++ t.
Proof.
  destruct l; cbn [sep_concat]; [| rewrite <- app_assoc]; apply skip_ws_encode.
Qed.

Lemma members_head level kv l t :
  exists tail,
    sep_concat (encode_member level) (item_sep level) (kv :: l) ++ t
    = DQ :: tail.
Proof.
  destruct l; cbn [sep_concat]; unfold encode_member, encode_string;
    cbn [app]; eexists; reflexivity.
Qed.

Lemma sep_concat_more {A : Type} (enc : A -> chars) sep x y l :
  sep_concat enc sep (x :: y :: l) = enc x ++ sep ++ sep_concat enc sep (y :: l).
Proof. reflexivity. Qed.

Lemma parse_items_last fuel acc s x s1 rest :
  scan_once fuel s = Some (x, s1) ->
  skip_ws s1 = "]"%char :: rest ->
  parse_items (S fuel) acc s = Some (JArr (acc ++ [x]), rest).
Proof. intros H1 H2. rewrite parse_items_eq, H1, H2. reflexivity. Qed.

Lemma parse_items_more fuel acc s x s1 s2 :
  scan_once fuel s = Some (x, s1) ->
  skip_ws s1 = ","%char :: s2 ->
  parse_items (S fuel) acc s = parse_items fuel (acc ++ [x]) (skip_ws s2).
Proof. intros H1 H2. rewrite parse_items_eq, H1, H2. reflexivity. Qed.

Lemma parse_members_last fuel acc s1 key s2 s3 v s4 rest :
  scanstring s1 = Some (key, s2) ->
  skip_ws s2 = ":"%char :: s3 ->
  scan_once fuel (skip_ws s3) = Some (v, s4) ->
  skip_ws s4 = "}"%char :: rest ->
  parse_members (S fuel) acc (DQ :: s1)
  = Some (JObj (Dict.set (string_of_list_ascii key) v acc), rest).
Proof.
  intros H1 H2 H3 H4. rewrite parse_members_eq, H1, H2. cbn [Ascii.eqb Bool.eqb].
  rewrite H3. cbv zeta. rewrite H4. reflexivity.
Qed.

Lemma parse_members_more fuel acc s1 key s2 s3 v s4 s5 :
  scanstring s1 = Some (key, s2) ->
  skip_ws s2 = ":"%char :: s3 ->
  scan_once fuel (skip_ws s3) = Some (v, s4) ->
  skip_ws s4 = ","%char :: s5 ->
  parse_members (S fuel) acc (DQ :: s1)
  = parse_members fuel (Dict.set (string_of_list_ascii key) v acc) (skip_ws s5).
Proof.
  intros H1 H2 H3 H4. rewrite parse_members_eq, H1, H2. cbn [Ascii.eqb Bool.eqb].
  rewrite H3. cbv zeta. rewrite H4. reflexivity.
Qed.

Lemma skip_ws_close_bracket level rest :
  skip_ws (newline_indent level ++ "]"%char :: rest) = "]"%char :: rest.
Proof. rewrite skip_ws_indent. reflexivity. Qed.

Lemma skip_ws_close_brace level rest :
  skip_ws (newline_indent level ++ "}"%char :: rest) = "}"%char :: rest.
Proof. rewrite skip_ws_indent. reflexivity. Qed.

Lemma skip_ws_comma s : skip_ws (","%char :: s) = ","%char :: s.
Proof. reflexivity. Qed.

Lemma parse_items_encoded l :
  Forall reads_back l ->
  forallb well_formed l = true ->
  l <> [] ->
  forall level acc rest fuel,
    List.length (sep_concat (encode (S level)) (item_sep (S level)) l) < fuel ->
    parse_items fuel acc
      (sep_concat (encode (S level)) (item_sep (S level)) l
         ++ newline_indent level ++ "]"%char :: rest)
    = Some (JArr (acc ++ l), rest).
Proof.
  induction l as [| x l IH]; [congruence |].
  intros Hall Hwf _ level acc rest fuel Hfuel.
  inversion Hall as [| ? ? Hx Hl]; subst.
  cbn [forallb] in Hwf. apply andb_prop in Hwf. destruct Hwf as [Hwx Hwl].
  destruct fuel as [| fuel]; [lia |].
  destruct l as [| y l].
  - cbn [sep_concat] in *.
    apply (parse_items_last fuel acc _ x (newline_indent level ++ "]"%char :: rest)).
    + apply (Hx Hwx); [apply closes_indent | lia].
    + apply skip_ws_close_bracket.
  - rewrite sep_concat_more in Hfuel |- *.
    rewrite !length_app in Hfuel.
    pose proof (encode_nonempty (S level) x) as Hne.
    rewrite <- !app_assoc. unfold item_sep at 1. rewrite <- app_comm_cons.
    erewrite parse_items_more;
      [| apply (Hx Hwx); [left; reflexivity | lia] | apply skip_ws_comma].
    rewrite skip_ws_indent, skip_ws_items.
    rewrite (IH Hl Hwl ltac:(discriminate) level (acc ++ [x]) rest fuel)
      by (cbn [List.length] in Hfuel; lia).
    rewrite <- app_assoc. reflexivity.
Qed.

Lemma parse_members_encoded l :
  Forall (fun kv => reads_back (snd kv)) l ->
  forallb (fun kv => well_formed (snd kv)) l = true ->
  l <> [] ->
  forall level acc rest fuel,
    distinct (map fst (acc ++ l)) = true ->
    List.length (sep_concat (encode_member (S level)) (item_sep (S level)) l)
    < fuel ->
    parse_members fuel acc
      (sep_concat (encode_member (S level)) (item_sep (S level)) l
         ++ newline_indent level ++ "}"%char :: rest)
    = Some (JObj (acc ++ l), rest).
Proof.
  induction l as [| [k v] l IH]; [congruence |].
  intros Hall Hwf _ level acc rest fuel Hkeys Hfuel.
  inversion Hall as [| ? ? Hv Hl]; subst. cbn [snd] in Hv.
  cbn [forallb snd] in Hwf. apply andb_prop in Hwf. destruct Hwf as [Hwv Hwl].
  destruct fuel as [| fuel]; [lia |].
  pose proof (set_fresh k v acc (distinct_middle_fresh k v acc l Hkeys)) as Hset.
  pose proof (encode_nonempty (S level) v) as Hne.
  destruct l as [| kv l].
  - cbn [sep_concat] in *. unfold encode_member in *. cbn [fst snd] in *.
    rewrite !length_app in Hfuel.
    destruct (scanstring_encode_string k
                (lit ": " ++ encode (S level) v
                   ++ newline_indent level ++ "}"%char :: rest))
      as [body [Hbody Hscan]].
    rewrite <- !app_assoc, Hbody.
    erewrite parse_members_last;
      [| exact Hscan | reflexivity
       | cbn [skip_ws is_ws]; rewrite skip_ws_encode;
         apply (Hv Hwv); [apply closes_indent | lia]
       | apply skip_ws_close_brace].
    rewrite string_of_list_ascii_of_string, Hset. reflexivity.
  - rewrite sep_concat_more in Hfuel |- *.
    unfold encode_member at 1 in Hfuel. unfold encode_member at 1.
    cbn [fst snd] in *. rewrite !length_app in Hfuel.
    destruct (scanstring_encode_string k
                (lit ": " ++ encode (S level) v
                   ++ item_sep (S level)
                   ++ sep_concat (encode_member (S level)) (item_sep (S level))
                        (kv :: l)
                   ++ newline_indent level ++ "}"%char :: rest))
      as [body [Hbody Hscan]].
    rewrite <- !app_assoc, Hbody.
    erewrite parse_members_more;
      [| exact Hscan | reflexivity
       | cbn [skip_ws is_ws]; rewrite skip_ws_encode;
         apply (Hv Hwv); [left; reflexivity | lia]
       | apply skip_ws_comma].
    rewrite skip_ws_indent.
    destruct (members_head (S level) kv l
                (newline_indent level ++ "}"%char :: rest)) as [tail Htail].
    rewrite Htail, (skip_ws_head DQ tail eq_refl), <- Htail.
    rewrite string_of_list_ascii_of_string, Hset.
    rewrite (IH Hl Hwl ltac:(discriminate) level (acc ++ [(k, v)]) rest fuel).
    + rewrite <- app_assoc. reflexivity.
    + rewrite <- app_assoc. exact Hkeys.
    + cbn [List.length] in Hfuel. lia.
Qed.

Lemma encode_array x l level :
  encode level (JArr (x :: l))
  = "["%char :: newline_indent (S level)
      ++ sep_concat (encode (S level)) (item_sep (S level)) (x :: l)
      ++ newline_indent level ++ ["]"%char].
Proof. reflexivity. Qed.

Lemma encode_object kv l level :
  encode level (JObj (kv :: l))
  = "{"%char :: newline_indent (S level)
      ++ sep_concat (encode_member (S level)) (item_sep (S level)) (kv :: l)
      ++ newline_indent level ++ ["}"%char].
Proof. reflexivity. Qed.

(** Every encoding reads back. *)
Theorem reads_back_all : forall v, reads_back v.
Proof.
  induction v as [| b | n | s | items IH | members IH] using json_rect';
    intros Hwf level rest fuel Hrest Hfuel.
  - destruct fuel as [| fuel]; [cbn in Hfuel; lia | reflexivity].
  - destruct fuel as [| fuel]; [destruct b; cbn in Hfuel; lia |].
    destruct b; reflexivity.
  - cbn [encode] in *.
    destruct (encode_int_head n) as [c [tail [Hhead Hc]]].
    destruct fuel as [| fuel]; [rewrite Hhead in Hfuel; cbn in Hfuel; lia |].
    assert (Heq : encode_int n ++ rest = c :: (tail ++ rest))
      by (rewrite Hhead; reflexivity).
    rewrite Heq, (scan_once_number fuel c _ Hc), <- Heq.
    apply scan_number_encode_int. exact Hrest.
  - cbn [encode] in *.
    destruct fuel as [| fuel]; [cbn in Hfuel; lia |].
    destruct (scanstring_encode_string s rest) as [body [Hbody Hscan]].
    rewrite Hbody, scan_once_string, Hscan, string_of_list_ascii_of_string.
    reflexivity.
  - destruct items as [| x l].
    + destruct fuel as [| fuel]; [cbn in Hfuel; lia | reflexivity].
    + rewrite encode_array in Hfuel |- *.
      destruct fuel as [| fuel]; [cbn in Hfuel; lia |].
      cbn [List.length] in Hfuel. rewrite !length_app in Hfuel.
      rewrite <- app_comm_cons, scan_once_array.
      rewrite <- !app_assoc, skip_ws_indent, skip_ws_items.
      destruct (encode_head (S level) x) as [c [tail [Hhead [_ [Hclose _]]]]].
      assert (Hitems : exists tail',
                 sep_concat (encode (S level)) (item_sep (S level)) (x :: l)
                   ++ newline_indent level ++ ["]"%char] ++ rest
                 = c :: tail').
      { destruct l; cbn [sep_concat]; rewrite Hhead; cbn [app];
          eexists; reflexivity. }
      destruct Hitems as [tail' Htail].
      rewrite Htail, Hclose, <- Htail.
      cbn [well_formed] in Hwf.
      apply (parse_items_encoded (x :: l) IH Hwf ltac:(discriminate) level []).
      pose proof (newline_indent_length (S level)). lia.
    - destruct members as [| kv l].
    + destruct fuel as [| fuel]; [cbn in Hfuel; lia | reflexivity].
    + rewrite encode_object in Hfuel |- *.
      destruct fuel as [| fuel]; [cbn in Hfuel; lia |].
      cbn [List.length] in Hfuel. rewrite !length_app in Hfuel.
      rewrite <- app_comm_cons, scan_once_object.
      rewrite <- !app_assoc, skip_ws_indent.
      destruct (members_head (S level) kv l
                  (newline_indent level ++ ["}"%char] ++ rest)) as [tail Htail].
      rewrite Htail, (skip_ws_head DQ tail eq_refl).
      cbn [Ascii.eqb Bool.eqb DQ ascii_of_nat]. 
      change (Ascii.eqb DQ "}") with false. cbv iota. rewrite <- Htail.
      cbn [well_formed] in Hwf. apply andb_prop in Hwf.
      destruct Hwf as [Hkeys Hvals].
      apply (parse_members_encoded (kv :: l) IH Hvals ltac:(discriminate) level []);
        [exact Hkeys | pose proof (newline_indent_length (S level)); lia].
Qed.

(** Loading what was dumped gives the value back. *)
Theorem loads_dumps v : well_formed v = true -> loads (dumps v) = Some v.
Proof.
  intros Hwf. unfold loads, dumps.
  rewrite list_ascii_of_string_of_list_ascii.
  pose proof (skip_ws_encode 0 v []) as Hskip.
  pose proof (reads_back_all v Hwf 0 [] (S (List.length (encode 0 v))) I
                ltac:(lia)) as Hread.
  rewrite app_nil_r in Hskip, Hread. rewrite Hskip, Hread. reflexivity.
Qed.

(** *** No carriage return is written *)

Lemma no_cr_app a b : no_cr (a ++ b) = no_cr a && no_cr b.
Proof. apply forallb_app. Qed.

Lemma no_cr_escape_char c : no_cr (escape_char c) = true.
Proof. destruct c as [[] [] [] [] [] [] [] []]; reflexivity. Qed.

Lemma no_cr_encode_string s : no_cr (encode_string s) = true.
Proof.
  unfold encode_string. change (DQ :: ?x) with ([DQ] ++ x).
  rewrite !no_cr_app. cbn [no_cr forallb]. 
  induction (list_ascii_of_string s) as [| c cs IH]; [reflexivity |].
  cbn [flat_map]. rewrite no_cr_app, no_cr_escape_char. exact IH.
Qed.

Lemma no_cr_chars_of_uint d : no_cr (chars_of_uint d) = true.
Proof. induction d; cbn; try exact IHd; reflexivity. Qed.

Lemma no_cr_encode_int n : no_cr (encode_int n) = true.
Proof.
  destruct n as [| p | p]; cbn [encode_int];
    [reflexivity | apply no_cr_chars_of_uint |].
  change (?c :: ?x) with ([c] ++ x). rewrite no_cr_app, no_cr_chars_of_uint.
  reflexivity.
Qed.

Lemma no_cr_newline_indent level : no_cr (newline_indent level) = true.
Proof.
  unfold newline_indent. cbn [no_cr forallb].
  induction (2 * level) as [| n IH]; [reflexivity | exact IH].
Qed.

Lemma no_cr_sep_concat {A : Type} (enc : A -> chars) sep l :
  no_cr sep = true ->
  Forall (fun x => no_cr (enc x) = true) l ->
  no_cr (sep_concat enc sep l) = true.
Proof.
  intros Hsep Hall. induction Hall as [| x l Hx Hl IH]; [reflexivity |].
  destruct l as [| y l]; [exact Hx |].
  rewrite sep_concat_more, !no_cr_app, Hx, Hsep, IH. reflexivity.
Qed.

Lemma no_cr_item_sep level : no_cr (item_sep level) = true.
Proof. unfold item_sep. cbn [no_cr forallb]. apply no_cr_newline_indent. Qed.

Lemma no_cr_encode v : forall level, no_cr (encode level v) = true.
Proof.
  induction v as [| b | n | s | items IH | members IH] using json_rect';
    intros level.
  - reflexivity.
  - destruct b; reflexivity.
  - apply no_cr_encode_int.
  - apply no_cr_encode_string.
  - destruct items as [| x l]; [reflexivity |].
    rewrite encode_array. change (?c :: ?x) with ([c] ++ x).
    rewrite !no_cr_app, !no_cr_newline_indent.
    rewrite no_cr_sep_concat; [reflexivity | apply no_cr_item_sep |].
    apply Forall_forall. intros y Hy. rewrite Forall_forall in IH.
    apply (IH y Hy).
  - destruct members as [| kv l]; [reflexivity |].
    rewrite encode_object. change (?c :: ?x) with ([c] ++ x).
    rewrite !no_cr_app, !no_cr_newline_indent.
    rewrite no_cr_sep_concat; [reflexivity | apply no_cr_item_sep |].
    apply Forall_forall. intros y Hy. rewrite Forall_forall in IH.
    unfold encode_member. rewrite !no_cr_app, no_cr_encode_string.
    rewrite (IH y Hy). reflexivity.
Qed.

Lemma universal_newlines_no_cr s :
  no_cr (list_ascii_of_string s) = true -> Py.universal_newlines s = s.
Proof.
  induction s as [| c s IH]; [reflexivity |].
  cbn [list_ascii_of_string no_cr forallb]. intros H.
  apply andb_prop in H. destruct H as [Hc Hs].
  apply negb_true_iff in Hc. unfold code in Hc.
  cbn [Py.universal_newlines]. rewrite Hc, (IH Hs). reflexivity.
Qed.

(** Text mode reads a dumped document as it was written. *)
Lemma universal_newlines_dumps v : Py.universal_newlines (dumps v) = dumps v.
Proof.
  apply universal_newlines_no_cr. unfold dumps.
  rewrite list_ascii_of_string_of_list_ascii. apply no_cr_encode.
Qed.

(** *** What the decoder builds is well formed *)

Lemma distinct_NoDup l : distinct l = true <-> NoDup l.
Proof.
  induction l as [| k l IH]; cbn.
  - split; [constructor | reflexivity].
  - rewrite andb_true_iff, negb_true_iff, IH. split.
    + intros [Hk Hl]. constructor; [| exact Hl].
      intros Hin. apply not_true_iff_false in Hk. apply Hk.
      apply existsb_exists. exists k. split; [exact Hin | apply String.eqb_refl].
    + intros Hnd. inversion Hnd as [| ? ? Hnotin Hl]; subst.
      split; [| exact Hl]. apply not_true_iff_false. intros Hex.
      apply existsb_exists in Hex. destruct Hex as [k' [Hin Heq]].
      apply String.eqb_eq in Heq. subst k'. contradiction.
Qed.

Lemma well_formed_set k v acc :
  well_formed (JObj acc) = true ->
  well_formed v = true ->
  well_formed (JObj (Dict.set k v acc)) = true.
Proof.
  cbn [well_formed]. intros Hacc Hv.
  apply andb_prop in Hacc. destruct Hacc as [Hkeys Hvals].
  apply andb_true_intro. split.
  - apply distinct_NoDup. apply (DictFacts.set_NoDup_keys k v acc).
    apply distinct_NoDup. exact Hkeys.
  - clear Hkeys. induction acc as [| [k' v'] acc IH]; cbn.
    + rewrite Hv. reflexivity.
    + cbn in Hvals. apply andb_prop in Hvals. destruct Hvals as [Hv' Hrest].
      destruct (String.eqb k k'); cbn; [rewrite Hv, Hrest; reflexivity |].
      rewrite Hv', (IH Hrest). reflexivity.
Qed.

Lemma well_formed_snoc acc v :
  forallb well_formed acc = true ->
  well_formed v = true ->
  forallb well_formed (acc ++ [v]) = true.
Proof.
  intros Hacc Hv. rewrite forallb_app, Hacc. cbn. rewrite Hv. reflexivity.
Qed.

Lemma scan_number_well_formed s v rest :
  scan_number s = Some (v, rest) -> well_formed v = true.
Proof.
  unfold scan_number.
  destruct (match s with
            | [] => (false, s)
            | c :: s' => if Ascii.eqb c "-" then (true, s') else (false, s)
            end) as [negative s1].
  destruct (scan_natural s1) as [[n rest'] |]; [| discriminate].
  destruct (float_tail rest'); [discriminate |].
  intros [= <- _]. reflexivity.
Qed.

Lemma scan_once_eq fuel c s1 :
  scan_once (S fuel) (c :: s1)
  = if Ascii.eqb c DQ then
      match scanstring s1 with
      | Some (r, rest) => Some (JStr (string_of_list_ascii r), rest)
      | None => None
      end
    else if Ascii.eqb c "{" then
      match skip_ws s1 with
      | d :: s2 =>
          if Ascii.eqb d "}" then Some (JObj [], s2)
          else parse_members fuel [] (d :: s2)
      | [] => None
      end
    else if Ascii.eqb c "[" then
      match skip_ws s1 with
      | d :: s2 =>
          if Ascii.eqb d "]" then Some (JArr [], s2)
          else parse_items fuel [] (d :: s2)
      | [] => None
      end
    else if Ascii.eqb c "n" then
      match expect (lit "ull") s1 with
      | Some rest => Some (JNull, rest)
      | None => None
      end
    else if Ascii.eqb c "t" then
      match expect (lit "rue") s1 with
      | Some rest => Some (JBool true, rest)
      | None => None
      end
    else if Ascii.eqb c "f" then
      match expect (lit "alse") s1 with
      | Some rest => Some (JBool false, rest)
      | None => None
      end
    else scan_number (c :: s1).
Proof. reflexivity. Qed.

Lemma parse_members_eq' fuel acc q s1 :
  parse_members (S fuel) acc (q :: s1)
  = if Ascii.eqb q DQ then parse_members (S fuel) acc (DQ :: s1) else None.
Proof.
  destruct (Ascii.eqb_spec q DQ) as [-> | Hne]; [reflexivity |].
  cbn [parse_members]. apply Ascii.eqb_neq in Hne. rewrite Hne. reflexivity.
Qed.

Lemma decoder_well_formed fuel :
  (forall s v rest, scan_once fuel s = Some (v, rest) -> well_formed v = true)
  /\ (forall acc s v rest,
         well_formed (JObj acc) = true ->
         parse_members fuel acc s = Some (v, rest) -> well_formed v = true)
  /\ (forall acc s v rest,
         forallb well_formed acc = true ->
         parse_items fuel acc s = Some (v, rest) -> well_formed v = true).
Proof.
  induction fuel as [| fuel [IHv [IHm IHi]]].
  - repeat split; intros; discriminate.
  - assert (Hv : forall s v rest,
               scan_once (S fuel) s = Some (v, rest) -> well_formed v = true).
    { intros [| c s1] v rest; [discriminate |].
      rewrite scan_once_eq.
      destruct (Ascii.eqb c DQ).
      { destruct (scanstring s1) as [[r rest'] |]; [| discriminate].
        intros [= <- _]. reflexivity. }
      destruct (Ascii.eqb c "{").
      { destruct (skip_ws s1) as [| d s2]; [discriminate |].
        destruct (Ascii.eqb d "}"); [intros [= <- _]; reflexivity |].
        apply IHm. reflexivity. }
      destruct (Ascii.eqb c "[").
      { destruct (skip_ws s1) as [| d s2]; [discriminate |].
        destruct (Ascii.eqb d "]"); [intros [= <- _]; reflexivity |].
        apply IHi. reflexivity. }
      destruct (Ascii.eqb c "n").
      { destruct (expect (lit "ull") s1); [| discriminate].
        intros [= <- _]. reflexivity. }
      destruct (Ascii.eqb c "t").
      { destruct (expect (lit "rue") s1); [| discriminate].
        intros [= <- _]. reflexivity. }
      destruct (Ascii.eqb c "f").
      { destruct (expect (lit "alse") s1); [| discriminate].
        intros [= <- _]. reflexivity. }
      apply scan_number_well_formed. }
    split; [exact Hv |]. split.
    + intros acc [| q s1] v rest Hacc; [discriminate |].
      rewrite parse_members_eq'.
      destruct (Ascii.eqb q DQ); [| discriminate].
      rewrite parse_members_eq.
      destruct (scanstring s1) as [[key s2] |]; [| discriminate].
      destruct (skip_ws s2) as [| colon s3]; [discriminate |].
      destruct (Ascii.eqb colon ":"); [| discriminate].
      destruct (scan_once fuel (skip_ws s3)) as [[value s4] |] eqn:Hvalue;
        [| discriminate].
      cbv zeta.
      pose proof (well_formed_set (string_of_list_ascii key) value acc Hacc
                    (IHv _ _ _ Hvalue)) as Hacc'.
      destruct (skip_ws s4) as [| d s5]; [discriminate |].
      destruct (Ascii.eqb d "}"); [intros [= <- _]; exact Hacc' |].
      destruct (Ascii.eqb d ","); [| discriminate].
      apply IHm. exact Hacc'.
    + intros acc s v rest Hacc. rewrite parse_items_eq.
      destruct (scan_once fuel s) as [[value s1] |] eqn:Hvalue; [| discriminate].
      pose proof (well_formed_snoc acc value Hacc (IHv _ _ _ Hvalue)) as Hacc'.
      destruct (skip_ws s1) as [| d s2]; [discriminate |].
      destruct (Ascii.eqb d "]"); [intros [= <- _]; exact Hacc' |].
      destruct (Ascii.eqb d ","); [| discriminate].
      apply IHi. exact Hacc'.
Qed.

(** Every value [json.loads] returns is well formed. *)
Theorem loads_well_formed text v : loads text = Some v -> well_formed v = true.
Proof.
  unfold loads.
  destruct (scan_once _ _) as [[v' rest] |] eqn:Hscan; [| discriminate].
  destruct (skip_ws rest); [| discriminate].
  intros [= <-]. exact (proj1 (decoder_well_formed _) _ _ _ Hscan).
Qed.

End JsonFacts.

(* ================================================================== *)
(** ** The cache file *)

Module CacheFacts.
Import Json Py Rag Spec.

Section WithEnv.

Variable E : Env.
Variable self : CodebaseRAG.

(** What [save_cache] leaves on a disk where the cache file can be
    written. *)
Lemma save_cache_writes data w :
  writable E self w ->
  exists w',
    save_cache E self data w = (inr tt, w')
    /\ FS.lookup (cache_file self) (fs w') = Some (FS.File (dumps data))
    /\ llm_log w' = llm_log w.
Proof.
  intros [[entries [Hdir Hfile]] Hperm].
  unfold save_cache, try_except, write_text. rewrite Hperm.
  assert (Hlook : FS.lookup (cache_file self) (fs w)
                  = Dict.get "analysis_cache.json" entries).
  { unfold cache_file, PyPath.child. rewrite FSFacts.lookup_app, Hdir. cbn.
    destruct (Dict.get "analysis_cache.json" entries); reflexivity. }
  destruct (FSFacts.put_child (cache_dir self) "analysis_cache.json"
              (FS.File (dumps data)) _ _ Hdir) as [n' [Hput Hfound]].
  fold (cache_file self) in Hput, Hfound.
  rewrite Hlook.
  destruct (Dict.get "analysis_cache.json" entries) as [[c | es] |] eqn:Hget;
    [| exfalso; exact (Hfile es eq_refl) |];
    rewrite Hput; eexists; (split; [reflexivity |]); split;
      solve [exact Hfound | reflexivity].
Qed.

(** What [load_cache] reads from a cache file that holds a dumped value. *)
Lemma loaded_cache_of_dump v w :
  FS.lookup (cache_file self) (fs w) = Some (FS.File (dumps v)) ->
  denied E (cache_file self) = false ->
  well_formed v = true ->
  loaded_cache E self w = v.
Proof.
  intros Hfile Hperm Hwf.
  unfold loaded_cache, load_cache, bind, path_exists, try_except.
  rewrite Hfile, AnalyzerFacts.read_text_run.
  unfold read_bytes. rewrite Hperm, Hfile. cbn [fst].
  rewrite JsonFacts.universal_newlines_dumps, (JsonFacts.loads_dumps v Hwf).
  reflexivity.
Qed.

(** The cache a run starts from is well formed. *)
Lemma loaded_cache_well_formed w : well_formed (loaded_cache E self w) = true.
Proof.
  unfold loaded_cache, load_cache, bind, path_exists, try_except.
  destruct (FS.lookup (cache_file self) (fs w)); [| reflexivity].
  rewrite AnalyzerFacts.read_text_run.
  destruct (fst (read_bytes E (cache_file self) w)); [reflexivity |].
  destruct (loads (universal_newlines s)) eqn:Hloads; [| reflexivity].
  exact (JsonFacts.loads_well_formed _ _ Hloads).
Qed.

Lemma well_formed_get d k v :
  well_formed (JObj d) = true -> Dict.get k d = Some v -> well_formed v = true.
Proof.
  cbn [well_formed]. intros Hwf Hget. apply andb_prop in Hwf.
  destruct Hwf as [_ Hvals]. rewrite forallb_forall in Hvals.
  exact (Hvals (k, v) (DictFacts.get_In k v d Hget)).
Qed.

(** Every record [analyze_file] returns is well formed. *)
Lemma analyze_file_well_formed g cache w record :
  well_formed cache = true ->
  fst (analyze_file E self g cache w) = inr record ->
  well_formed record = true.
Proof.
  intros Hcache. rewrite AnalyzerFacts.analyze_file_unfold.
  destruct (PyPath.relative_to (root_path self) g); [| discriminate].
  cbv zeta. destruct (cache_hit cache _ _) as [e | [|]]; [discriminate | |].
  - cbn [fst]. destruct cache as [| b | n | s | items | d]; try discriminate.
    cbn [py_getitem]. destruct (Dict.get _ d) eqn:Hget; [| discriminate].
    intros [= <-]. exact (well_formed_get _ _ _ Hcache Hget).
  - destruct (fst (read_bytes E g w)); cbn [fst].
    + intros [= <-]. reflexivity.
    + destruct (generate E _ _); [discriminate |].
      intros [= <-]. reflexivity.
Qed.

Lemma collect_results_well_formed cache completed :
  well_formed cache = true ->
  forall results w res w',
    well_formed (JObj results) = true ->
    collect_results E self cache completed results w = (inr res, w') ->
    well_formed (JObj res) = true.
Proof.
  intros Hcache. induction completed as [| g rest IH];
    intros results w res w' Hwf Hrun.
  - cbn in Hrun. injection Hrun as <- _. exact Hwf.
  - rewrite DispatcherFacts.collect_results_step in Hrun.
    eapply IH; [| exact Hrun].
    unfold Spec.store.
    destruct (fst (analyze_file E self g cache w)) as [e | record] eqn:Hout;
      [exact Hwf |].
    destruct (rel_key self g); [| exact Hwf].
    apply JsonFacts.well_formed_set; [exact Hwf |].
    exact (analyze_file_well_formed g cache w record Hcache Hout).
Qed.

End WithEnv.

End CacheFacts.

(** C5.  On a disk where the cache file can be written, saving a map of
    well-formed records and then loading the cache returns the map that was
    saved. *)
Theorem save_then_load_returns_saved_map :
  forall (E : Py.Env) (self : Rag.CodebaseRAG) (w : Py.World)
         (members : list (string * Json.json)),
    Spec.well_formed (Json.JObj members) = true ->
    Spec.writable E self w ->
    exists w',
      Rag.save_cache E self (Json.JObj members) w = (inr tt, w')
      /\ Rag.load_cache E self w' = (inr (Json.JObj members), w').
Proof.
  intros E self w members Hwf Hwritable.
  destruct (CacheFacts.save_cache_writes E self (Json.JObj members) w Hwritable)
    as [w' [Hsave [Hfile _]]].
  exists w'. split; [exact Hsave |].
  rewrite DispatcherFacts.load_cache_run.
  rewrite (CacheFacts.loaded_cache_of_dump E self _ w' Hfile
             (proj2 Hwritable) Hwf).
  reflexivity.
Qed.

(** C5 at [/srv/app] with the record of [a.py]. *)
Lemma save_then_load_returns_saved_map_witness :
  exists w',
    Rag.save_cache Spec.stub_env Spec.app_self (Json.JObj Spec.a_cache_members)
      (Spec.world_of Spec.ready_disk) = (inr tt, w')
    /\ Rag.load_cache Spec.stub_env Spec.app_self w'
       = (inr (Json.JObj Spec.a_cache_members), w').
Proof.
  apply (save_then_load_returns_saved_map Spec.stub_env Spec.app_self
           (Spec.world_of Spec.ready_disk) Spec.a_cache_members).
  - reflexivity.
  - split; [| reflexivity].
    exists []. split; [reflexivity | intros es; discriminate].
Defined.

(** C6.  After a run on a disk where the cache file can be written, the
    cache file holds the dump of the result map of this run and loads back
    as exactly that map; every key of the map is the relative path of a file
    of the current scan, so a key the scan did not produce has no entry,
    whatever the cache held before. *)
Theorem saved_cache_is_the_result_map :
  forall (E : Py.Env) (self : Rag.CodebaseRAG) (w : Py.World)
         (max_workers : Z) (schedule : list path -> list path),
    (0 < max_workers)%Z ->
    Permutation (schedule (Spec.scanned self w)) (Spec.scanned self w) ->
    Spec.writable E self w ->
    exists results w',
      Rag.analyze_codebase_parallel E self max_workers schedule w
      = (inr results, w')
      /\ FS.lookup (Rag.cache_file self) (Py.fs w')
         = Some (FS.File (Json.dumps (Json.JObj results)))
      /\ Rag.load_cache E self w' = (inr (Json.JObj results), w')
      /\ (forall key, In key (Dict.keys results) ->
                      exists f, In f (Spec.scanned self w)
                                /\ Spec.rel_key self f = Some key)
      /\ (forall key, (forall f, In f (Spec.scanned self w) ->
                                 Spec.rel_key self f <> Some key) ->
                      Dict.get key results = None).
Proof.
  intros E self w max_workers schedule Hpos Hperm Hwritable.
  rewrite (DispatcherFacts.analyze_codebase_parallel_unfold E self _ _ w Hpos).
  set (cache := Spec.loaded_cache E self w).
  destruct (DispatcherFacts.collect_results_total E self cache
              (schedule (Spec.scanned self w)) [] w)
    as [res [w1 [Hrun [Hfs _]]]].
  rewrite Hrun.
  assert (Hwritable1 : Spec.writable E self w1).
  { unfold Spec.writable. rewrite Hfs. exact Hwritable. }
  destruct (CacheFacts.save_cache_writes E self (Json.JObj res) w1 Hwritable1)
    as [w2 [Hsave [Hfile _]]].
  rewrite Hsave. cbn [snd]. exists res, w2.
  assert (Hwf : Spec.well_formed (Json.JObj res) = true).
  { apply (CacheFacts.collect_results_well_formed E self cache
             (schedule (Spec.scanned self w))
             (CacheFacts.loaded_cache_well_formed E self w) [] w res w1);
      [reflexivity | exact Hrun]. }
  assert (Hkeys : forall key, In key (Dict.keys res) ->
                              exists f, In f (Spec.scanned self w)
                                        /\ Spec.rel_key self f = Some key).
  { intros key Hin.
    destruct (DispatcherFacts.collect_results_keys E self cache _ _ _ _ _ _
                Hrun Hin) as [[] | [f [Hf Hk]]].
    exists f. split; [exact (Permutation_in _ Hperm Hf) | exact Hk]. }
  split; [reflexivity |]. split; [exact Hfile |]. split; [| split].
  - rewrite DispatcherFacts.load_cache_run.
    rewrite (CacheFacts.loaded_cache_of_dump E self _ w2 Hfile
               (proj2 Hwritable) Hwf).
    reflexivity.
  - exact Hkeys.
  - intros key Hnone. apply DictFacts.get_None_not_key. intros Hin.
    destruct (Hkeys key Hin) as [f [Hf Hk]]. exact (Hnone f Hf Hk).
Qed.

(** C6 at [/srv/app]. *)
Lemma saved_cache_is_the_result_map_witness :
  exists results w',
    Rag.analyze_codebase_parallel Spec.stub_env Spec.app_self 4 (@rev path)
      (Spec.world_of Spec.ready_disk)
    = (inr results, w')
    /\ FS.lookup (Rag.cache_file Spec.app_self) (Py.fs w')
       = Some (FS.File (Json.dumps (Json.JObj results)))
    /\ Rag.load_cache Spec.stub_env Spec.app_self w'
       = (inr (Json.JObj results), w')
    /\ (forall key, In key (Dict.keys results) ->
                    exists f, In f (Spec.scanned Spec.app_self
                                      (Spec.world_of Spec.ready_disk))
                              /\ Spec.rel_key Spec.app_self f = Some key)
    /\ (forall key, (forall f, In f (Spec.scanned Spec.app_self
                                       (Spec.world_of Spec.ready_disk)) ->
                               Spec.rel_key Spec.app_self f <> Some key) ->
                    Dict.get key results = None).
Proof.
  apply (saved_cache_is_the_result_map Spec.stub_env Spec.app_self
           (Spec.world_of Spec.ready_disk) 4 (@rev path)).
  - reflexivity.
  - apply Permutation_sym, Permutation_rev.
  - split; [| reflexivity].
    exists []. split; [reflexivity | intros es; discriminate].
Defined.


(* ================================================================== *)
(** ** The files a run writes *)

Module WritesFacts.
Import Json Py Rag Spec.

Section Appends.

Variable E : Env.
Variable P : path -> Prop.

Lemma appends_unchanged {A : Type} (c : M A) :
  (forall w, written (snd (c w)) = written w) -> appends P c.
Proof.
  intros H w. exists []. rewrite app_nil_r. split; [apply H | constructor].
Qed.

Lemma appends_ret {A : Type} (a : A) : appends P (ret a).
Proof. apply appends_unchanged. reflexivity. Qed.

Lemma appends_raise {A : Type} (e : exn) : appends P (@raise A e).
Proof. apply appends_unchanged. reflexivity. Qed.

Lemma appends_lift {A : Type} (r : exn + A) : appends P (lift r).
Proof. destruct r; [apply appends_raise | apply appends_ret]. Qed.

Lemma appends_bind {A B : Type} (c : M A) (k : A -> M B) :
  appends P c -> (forall a, appends P (k a)) -> appends P (bind c k).
Proof.
  intros Hc Hk w. unfold bind.
  destruct (Hc w) as [extra1 [Hw1 Hall1]].
  destruct (c w) as [[e | a] w1]; cbn [snd] in *.
  - exists extra1. split; assumption.
  - destruct (Hk a w1) as [extra2 [Hw2 Hall2]].
    exists (extra1 ++ extra2). split.
    + rewrite Hw2, Hw1, app_assoc. reflexivity.
    + apply Forall_app. split; assumption.
Qed.

Lemma appends_try_except {A : Type} (body : M A) (handler : exn -> M A) :
  appends P body -> (forall e, appends P (handler e)) ->
  appends P (try_except body handler).
Proof.
  intros Hb Hh w. unfold try_except.
  destruct (Hb w) as [extra1 [Hw1 Hall1]].
  destruct (body w) as [[e | a] w1]; cbn [snd] in *.
  - destruct (Hh e w1) as [extra2 [Hw2 Hall2]].
    exists (extra1 ++ extra2). split.
    + rewrite Hw2, Hw1, app_assoc. reflexivity.
    + apply Forall_app. split; assumption.
  - exists extra1. split; assumption.
Qed.

Lemma appends_ask_llm prompt : appends P (ask_llm E prompt).
Proof. apply appends_unchanged. reflexivity. Qed.

Lemma appends_mkdir p : appends P (mkdir_exist_ok E p).
Proof.
  apply appends_unchanged. intros w. unfold mkdir_exist_ok.
  destruct (FS.lookup p (fs w)) as [[c | es] |]; try reflexivity.
  destruct (denied E p); [reflexivity |].
  destruct (FS.put p (FS.Dir []) (fs w)); reflexivity.
Qed.

Lemma appends_write_text p content :
  P p -> appends P (write_text E p content).
Proof.
  intros Hp w. unfold write_text.
  assert (Hsame : exists extra, written w = written w ++ extra /\ Forall P extra)
    by (exists []; rewrite app_nil_r; split; [reflexivity | constructor]).
  destruct (denied E p); [exact Hsame |].
  destruct (FS.lookup p (fs w)) as [[c | es] |]; try exact Hsame;
    destruct (FS.put p (FS.File content) (fs w)); try exact Hsame;
    exists [p]; (split; [reflexivity | constructor; [exact Hp | constructor]]).
Qed.

Lemma appends_for_each {A : Type} (l : list A) (body : A -> M unit) :
  (forall x, appends P (body x)) -> appends P (for_each l body).
Proof.
  intros Hbody. induction l as [| x l IH]; cbn [for_each].
  - apply appends_ret.
  - apply appends_bind; [apply Hbody | intros _; exact IH].
Qed.

End Appends.

Section Pipeline.

Variable E : Env.
Variable self : CodebaseRAG.

(** The root of the instance is where the cache directory lies, as
    [__init__] sets it. *)
Hypothesis constructed : cache_dir self = PyPath.child (root_path self) ".rag_cache".

Lemma root_child_not_api name :
  name <> "API_DOCUMENTATION.md" -> not_api self (PyPath.child (root_path self) name).
Proof.
  intros Hne Heq. unfold api_file_path, PyPath.child in Heq.
  apply app_inv_head in Heq. congruence.
Qed.

Lemma root_grandchild_not_api dir name :
  not_api self (PyPath.child (PyPath.child (root_path self) dir) name).
Proof.
  intros Heq. unfold api_file_path, PyPath.child in Heq.
  rewrite <- app_assoc in Heq. apply app_inv_head in Heq. discriminate.
Qed.

Lemma appends_analyze max_workers schedule :
  appends (not_api self) (analyze_codebase_parallel E self max_workers schedule).
Proof.
  unfold analyze_codebase_parallel.
  apply appends_bind; [apply appends_unchanged; reflexivity |]. intros files.
  apply appends_bind.
  { apply appends_unchanged. intros w.
    rewrite DispatcherFacts.load_cache_run. reflexivity. }
  intros cache. apply appends_bind.
  { destruct (max_workers <=? 0)%Z; [apply appends_raise |].
    apply appends_unchanged. intros w.
    destruct (DispatcherFacts.collect_results_total E self cache
                (schedule files) [] w) as [res [w' [Hrun [_ Hwr]]]].
    rewrite Hrun. exact Hwr. }
  intros results. apply appends_bind; [| intros _; apply appends_ret].
  unfold save_cache. apply appends_try_except; [| intros _; apply appends_ret].
  apply appends_write_text. unfold cache_file. rewrite constructed.
  apply root_grandchild_not_api.
Qed.

Lemma appends_readme results :
  appends (not_api self) (generate_readme E self results).
Proof.
  unfold generate_readme, generate_project_overview.
  repeat (first [apply appends_bind; [| intros ?]
                | apply appends_lift | apply appends_ask_llm
                | apply appends_ret]).
Qed.

Lemma appends_component_docs results :
  appends (not_api self) (generate_component_docs E self results).
Proof.
  unfold generate_component_docs.
  apply appends_bind; [apply appends_mkdir | intros _].
  apply appends_for_each. intros [key record]. unfold component_doc.
  apply appends_bind; [apply appends_lift | intros documented].
  destruct documented; [| apply appends_ret].
  apply appends_bind; [apply appends_lift | intros text].
  apply appends_bind; [apply appends_lift | intros preview].
  apply appends_bind; [apply appends_ask_llm | intros doc_content].
  apply appends_try_except; [| intros _; apply appends_ret].
  apply appends_write_text. apply root_grandchild_not_api.
Qed.

End Pipeline.

End WritesFacts.

(* ================================================================== *)
(** ** The API documentation *)

Module ApiFacts.
Import Json Py Rag Spec.

Lemma is_api_file_typed k v :
  typed_record v = true -> is_api_file k v = inr (qualifies (k, v)).
Proof.
  unfold is_api_file, qualifies, typed_record, analysis_text. cbn [fst snd].
  destruct (PyStr.contains "api" (PyStr.lower k)); [reflexivity |].
  destruct v as [| b | n | s | items | fields]; try discriminate.
  cbn [py_get orb].
  destruct (Dict.get "analysis" fields) as [[| b | n | a | items | ms] |];
    try discriminate; reflexivity.
Qed.

(** On typed records the comprehension never raises and keeps the keys of
    the records that pass the test of the code. *)
Lemma api_files_typed results :
  typed results = true ->
  api_files results = inr (map fst (filter qualifies results)).
Proof.
  unfold api_files, typed.
  induction results as [| [k v] results IH]; [reflexivity |].
  cbn [forallb snd]. intros H. apply andb_prop in H. destruct H as [Hv Hrest].
  cbn [collect fst snd filter]. rewrite (is_api_file_typed k v Hv), (IH Hrest).
  destruct (qualifies (k, v)); reflexivity.
Qed.

Lemma filter_nil_existsb {A : Type} (f : A -> bool) l :
  existsb f l = false -> filter f l = [].
Proof.
  induction l as [| x l IH]; [reflexivity |]. cbn.
  intros H. apply orb_false_elim in H. destruct H as [Hx Hl].
  rewrite Hx. exact (IH Hl).
Qed.

Lemma filter_cons_existsb {A : Type} (f : A -> bool) l :
  existsb f l = true -> exists x rest, filter f l = x :: rest.
Proof.
  induction l as [| x l IH]; [discriminate |]. cbn.
  destruct (f x); [intros _; eexists; eexists; reflexivity | exact IH].
Qed.

Lemma In_firstn {A : Type} (x : A) n l : In x (firstn n l) -> In x l.
Proof.
  intros H. rewrite <- (firstn_skipn n l). apply in_or_app. left. exact H.
Qed.

(** The lines of the prompt are built without raising. *)
Lemma api_lines_typed E results files :
  typed results = true ->
  (forall f, In f files -> In f (Dict.keys results)) ->
  exists lines, collect (api_line E results) files = inr lines.
Proof.
  intros Htyped. induction files as [| f files IH]; intros Hkeys.
  - exists []. reflexivity.
  - destruct (IH (fun g Hg => Hkeys g (or_intror Hg))) as [lines Hlines].
    cbn [collect]. unfold api_line at 1.
    destruct (Dict.get f results) as [record |] eqn:Hget.
    + unfold typed in Htyped. rewrite forallb_forall in Htyped.
      pose proof (Htyped (f, record) (DictFacts.get_In _ _ _ Hget)) as Hrec.
      cbn [snd] in Hrec. unfold typed_record in Hrec.
      destruct record as [| b | n | s | items | fields]; try discriminate.
      cbn [py_get].
      destruct (Dict.get "analysis" fields) as [[| b | n | a | items | ms] |];
        try discriminate; cbn [py_slice]; rewrite Hlines;
        eexists; reflexivity.
    + exfalso. apply DictFacts.get_None_not_key in Hget.
      apply Hget. apply Hkeys. left. reflexivity.
Qed.

End ApiFacts.

(** C7 as amended.  On records whose analysis, when present, is a string, the
    API documentation is written exactly when some record has [api] in its
    path or [endpoint] in its analysis text, both compared in lower case.
    When no record passes this test, the step does nothing, and the whole
    run of [generate_all_documentation] writes no [API_DOCUMENTATION.md];
    when a record passes it, the generation capability answers and the file
    can be written, the step writes the answer to [API_DOCUMENTATION.md]. *)
Theorem api_documentation_condition :
  forall (E : Py.Env) (self : Rag.CodebaseRAG)
         (results : Dict.dict Json.json),
    Spec.typed results = true ->
    (existsb Spec.qualifies results = false ->
     forall w, Rag.generate_api_documentation E self results w = (inr tt, w))
    /\
    (existsb Spec.qualifies results = true ->
     forall w entries docs,
       FS.lookup (Rag.root_path self) (Py.fs w) = Some (FS.Dir entries) ->
       (forall es, Dict.get "API_DOCUMENTATION.md" entries <> Some (FS.Dir es)) ->
       Py.denied E (Rag.api_file_path self) = false ->
       (forall prompt, Py.generate E (Py.llm_log w) prompt = inr docs) ->
       exists w',
         Rag.generate_api_documentation E self results w = (inr tt, w')
         /\ Py.written w' = Py.written w ++ [Rag.api_file_path self]
         /\ FS.lookup (Rag.api_file_path self) (Py.fs w')
            = Some (FS.File docs))
    /\
    (Rag.cache_dir self = PyPath.child (Rag.root_path self) ".rag_cache" ->
     existsb Spec.qualifies results = false ->
     forall schedule w w1,
       Rag.analyze_codebase_parallel E self 4 schedule w = (inr results, w1) ->
       exists extra,
         Py.written (snd (Rag.generate_all_documentation E self schedule w))
         = Py.written w ++ extra
         /\ ~ In (Rag.api_file_path self) extra).
Proof.
  intros E self results Htyped.
  assert (Hnone : existsb Spec.qualifies results = false ->
                  forall w, Rag.generate_api_documentation E self results w
                            = (inr tt, w)).
  { intros Hno w. unfold Rag.generate_api_documentation, Py.bind.
    rewrite (ApiFacts.api_files_typed results Htyped).
    rewrite (ApiFacts.filter_nil_existsb _ _ Hno). reflexivity. }
  split; [exact Hnone |]. split.
  - intros Hsome w entries docs Hroot Hfile Hperm Hanswer.
    unfold Rag.generate_api_documentation.
    rewrite (ApiFacts.api_files_typed results Htyped).
    destruct (ApiFacts.filter_cons_existsb _ _ Hsome) as [x [rest Hfilter]].
    destruct (ApiFacts.api_lines_typed E results
                (firstn 5 (map fst (filter Spec.qualifies results))) Htyped)
      as [lines Hlines].
    { intros f Hf. apply ApiFacts.In_firstn in Hf. apply in_map_iff in Hf.
      destruct Hf as [kv [<- Hkv]]. apply filter_In in Hkv.
      apply in_map. exact (proj1 Hkv). }
    rewrite Hfilter in *. cbn [map] in *.
    unfold Py.bind at 1. cbn [Py.lift Py.ret].
    unfold Py.bind at 1. rewrite Hlines. cbn [Py.lift Py.ret].
    unfold Py.bind, Py.ask_llm. rewrite Hanswer.
    unfold Py.try_except, Py.write_text. cbn [Py.fs Py.llm_log Py.written].
    rewrite Hperm.
    assert (Hlook : FS.lookup (Rag.api_file_path self) (Py.fs w)
                    = Dict.get "API_DOCUMENTATION.md" entries).
    { unfold Rag.api_file_path, PyPath.child.
      rewrite FSFacts.lookup_app, Hroot. cbn.
      destruct (Dict.get "API_DOCUMENTATION.md" entries); reflexivity. }
    destruct (FSFacts.put_child (Rag.root_path self) "API_DOCUMENTATION.md"
                (FS.File docs) _ _ Hroot) as [n' [Hput Hfound]].
    fold (Rag.api_file_path self) in Hput, Hfound.
    rewrite Hlook.
    destruct (Dict.get "API_DOCUMENTATION.md" entries) as [[c | es] |];
      [| exfalso; exact (Hfile es eq_refl) |];
      rewrite Hput; eexists; (split; [reflexivity |]); split;
        solve [exact Hfound | reflexivity].
  - intros Hself Hno schedule w w1 Hrun.
    destruct (WritesFacts.appends_analyze E self Hself 4 schedule w)
      as [extra1 [Hw1 Hall1]].
    rewrite Hrun in Hw1. cbn [snd] in Hw1.
    assert (Hrest : Spec.appends (Spec.not_api self)
              (Py.bind (Rag.generate_readme E self results)
                 (fun readme_content =>
                    Py.bind
                      (Py.try_except
                         (Py.write_text E
                            (PyPath.child (Rag.root_path self) "README.md")
                            readme_content)
                         (fun _ => Py.ret tt))
                      (fun _ =>
                         Py.bind (Rag.generate_component_docs E self results)
                           (fun _ =>
                              Rag.generate_api_documentation E self results))))).
    { apply WritesFacts.appends_bind;
        [apply WritesFacts.appends_readme | intros readme_content].
      apply WritesFacts.appends_bind.
      { apply WritesFacts.appends_try_except;
          [| intros _; apply WritesFacts.appends_ret].
        apply WritesFacts.appends_write_text.
        apply WritesFacts.root_child_not_api. discriminate. }
      intros _. apply WritesFacts.appends_bind;
        [apply WritesFacts.appends_component_docs | intros _].
      apply WritesFacts.appends_unchanged. intros w'.
      rewrite (Hnone Hno w'). reflexivity. }
    destruct (Hrest w1) as [extra2 [Hw2 Hall2]].
    exists (extra1 ++ extra2). split.
    + unfold Rag.generate_all_documentation. unfold Py.bind at 1.
      rewrite Hrun. rewrite Hw2, Hw1, app_assoc. reflexivity.
    + intros Hin. apply in_app_or in Hin.
      rewrite Forall_forall in Hall1, Hall2.
      destruct Hin as [Hin | Hin];
        [exact (Hall1 _ Hin eq_refl) | exact (Hall2 _ Hin eq_refl)].
Qed.

(** The amended C7 on the record of [web/api.py]. *)
Lemma api_documentation_condition_witness :
  (existsb Spec.qualifies Spec.api_results = false ->
   forall w, Rag.generate_api_documentation Spec.stub_env Spec.app_self
               Spec.api_results w = (inr tt, w))
  /\
  (existsb Spec.qualifies Spec.api_results = true ->
   forall w entries docs,
     FS.lookup (Rag.root_path Spec.app_self) (Py.fs w) = Some (FS.Dir entries) ->
     (forall es, Dict.get "API_DOCUMENTATION.md" entries <> Some (FS.Dir es)) ->
     Py.denied Spec.stub_env (Rag.api_file_path Spec.app_self) = false ->
     (forall prompt, Py.generate Spec.stub_env (Py.llm_log w) prompt = inr docs) ->
     exists w',
       Rag.generate_api_documentation Spec.stub_env Spec.app_self
         Spec.api_results w = (inr tt, w')
       /\ Py.written w' = Py.written w ++ [Rag.api_file_path Spec.app_self]
       /\ FS.lookup (Rag.api_file_path Spec.app_self) (Py.fs w')
          = Some (FS.File docs))
  /\
  (Rag.cache_dir Spec.app_self
   = PyPath.child (Rag.root_path Spec.app_self) ".rag_cache" ->
   existsb Spec.qualifies Spec.api_results = false ->
   forall schedule w w1,
     Rag.analyze_codebase_parallel Spec.stub_env Spec.app_self 4 schedule w
     = (inr Spec.api_results, w1) ->
     exists extra,
       Py.written (snd (Rag.generate_all_documentation Spec.stub_env
                          Spec.app_self schedule w))
       = Py.written w ++ extra
       /\ ~ In (Rag.api_file_path Spec.app_self) extra).
Proof.
  apply (api_documentation_condition Spec.stub_env Spec.app_self
           Spec.api_results).
  reflexivity.
Defined.

(** The step on the record of [web/api.py]: the answer of the generation
    capability lands in [/srv/app/API_DOCUMENTATION.md]. *)
Example api_documentation_written :
  exists w',
    Rag.generate_api_documentation Spec.stub_env Spec.app_self Spec.api_results
      (Spec.world_of Spec.app_disk) = (inr tt, w')
    /\ Py.written w' = [["srv"; "app"; "API_DOCUMENTATION.md"]]
    /\ FS.lookup ["srv"; "app"; "API_DOCUMENTATION.md"] (Py.fs w')
       = Some (FS.File "A summary.").
Proof. eexists. repeat split; vm_compute; reflexivity. Qed.

(** C7 as stated fails: the only record has [endpoint] in its path and no
    keyword in its analysis text; the generation capability answers and the
    file could be written, yet no [API_DOCUMENTATION.md] is written. *)
Lemma api_documentation_ignores_endpoint_in_path :
  ~ (forall (E : Py.Env) (self : Rag.CodebaseRAG)
            (results : Dict.dict Json.json) (w : Py.World)
            (entries : list (string * FS.node)) (docs : string),
        Spec.typed results = true ->
        FS.lookup (Rag.root_path self) (Py.fs w) = Some (FS.Dir entries) ->
        (forall es, Dict.get "API_DOCUMENTATION.md" entries <> Some (FS.Dir es)) ->
        Py.denied E (Rag.api_file_path self) = false ->
        (forall log prompt, Py.generate E log prompt = inr docs) ->
        Py.written w = [] ->
        (In (Rag.api_file_path self)
            (Py.written (snd (Rag.generate_api_documentation E self results w)))
         <-> existsb Spec.mentions_api_keyword results = true)).
Proof.
  intros H.
  destruct (H Spec.stub_env Spec.app_self Spec.endpoint_results
              (Spec.world_of Spec.app_disk)
              [("a.py", FS.File "def f(): pass"); ("b.py", FS.File "x = 1")]
              "A summary.") as [_ Hwritten];
    try reflexivity.
  - intros es. discriminate.
  - specialize (Hwritten eq_refl). vm_compute in Hwritten. exact Hwritten.
Qed.


(* ================================================================== *)
(** * Further properties *)

(** ** The scanner finds every eligible file *)

Module ScanComplete.
Import FS Spec.

(** A file reached from [top] along kept directories is listed by the walk,
    in the triple of its directory. *)
Lemma os_walk_lists keep top mid :
  kept_chain keep top mid ->
  forall n f content,
    lookup (mid ++ [f]) n = Some (File content) ->
    exists t,
      In t (os_walk keep top n)
      /\ fst (fst t) = top ++ mid /\ In f (snd t).
Proof.
  induction 1 as [top | top d mid Hk Hchain IH]; intros n f content Hlook.
  - cbn in Hlook. destruct n as [c | entries]; [discriminate |].
    destruct (Dict.get f entries) as [[c | es] |] eqn:Hget; try discriminate.
    eexists. split; [left; reflexivity |]. cbn [fst snd].
    split; [rewrite app_nil_r; reflexivity |].
    apply in_map_iff. exists (f, File c). split; [reflexivity |].
    apply filter_In. split; [exact (DictFacts.get_In _ _ _ Hget) | reflexivity].
  - cbn [app lookup] in Hlook. destruct n as [c | entries]; [discriminate |].
    destruct (Dict.get d entries) as [child |] eqn:Hget; [| discriminate].
    destruct (IH child f content Hlook) as [t [Hin [Htop Hf]]].
    exists t. split; [| split; [| exact Hf]].
    + cbn [os_walk]. right. apply in_flat_map.
      exists (d, child). split; [exact (DictFacts.get_In _ _ _ Hget) |].
      cbn [fst snd]. rewrite Hk.
      destruct child as [c | es]; [destruct Hin |]. exact Hin.
    + rewrite Htop. unfold PyPath.child. rewrite <- app_assoc. reflexivity.
Qed.

(** Directories that are not ignored are kept by the scanner. *)
Lemma not_ignored_kept mid :
  forall root,
    (forall pre post, mid = pre ++ post -> pre <> [] ->
                      Filter.should_ignore (root ++ pre) = false) ->
    kept_chain Scanner.keep_dir root mid.
Proof.
  induction mid as [| d mid IH]; intros root Hmid; constructor.
  - unfold Scanner.keep_dir, PyPath.child. apply negb_true_iff.
    apply (Hmid [d] mid eq_refl). discriminate.
  - apply IH. intros pre post Heq Hne. unfold PyPath.child.
    rewrite <- app_assoc. apply (Hmid (d :: pre) post).
    + cbn. rewrite Heq. reflexivity.
    + discriminate.
Qed.

End ScanComplete.

(** X1.  The scanner misses nothing: a regular file below the root that is
    not ignored, carries an allowed extension and lies beneath no ignored
    directory strictly below the root is yielded. *)
Theorem scan_codebase_yields_every_eligible_file :
  forall (fs : FS.node) (root rel : path) (content : string),
    rel <> [] ->
    FS.lookup (root ++ rel) fs = Some (FS.File content) ->
    Filter.should_ignore (root ++ rel) = false ->
    Filter.has_code_extension (root ++ rel) = true ->
    (forall d, Spec.below_root root d -> Spec.beneath d (root ++ rel) ->
               Filter.should_ignore d = false) ->
    In (root ++ rel) (Scanner.scan_codebase fs root).
Proof.
  intros fs root rel content Hne Hlook Hign Hext Hdirs.
  destruct (exists_last Hne) as [mid [f ->]].
  rewrite FSFacts.lookup_app in Hlook.
  unfold Scanner.scan_codebase.
  destruct (FS.lookup root fs) as [n |]; [| discriminate].
  assert (Hchain : Spec.kept_chain Scanner.keep_dir root mid).
  { apply ScanComplete.not_ignored_kept. intros pre post Heq Hpre.
    apply Hdirs.
    - exists pre. split; [exact Hpre | reflexivity].
    - exists (post ++ [f]). split; [destruct post; discriminate |].
      rewrite Heq, <- !app_assoc. reflexivity. }
  destruct (ScanComplete.os_walk_lists _ _ _ Hchain n f content Hlook)
    as [t [Hin [Htop Hf]]].
  apply in_flat_map. exists t. split; [exact Hin |].
  unfold Scanner.scan_dir. apply filter_In. split.
  - rewrite Htop. apply in_map_iff. exists f. split; [| exact Hf].
    unfold PyPath.child. rewrite app_assoc. reflexivity.
  - rewrite Hign, Hext. reflexivity.
Qed.

(** X1 at the project [/srv/app]: [ignore/b.py] is eligible. *)
Lemma scan_codebase_yields_every_eligible_file_witness :
  In ["srv"; "app"; "ignore"; "b.py"]
     (Scanner.scan_codebase Spec.scenario_disk ["srv"; "app"]).
Proof.
  apply (scan_codebase_yields_every_eligible_file Spec.scenario_disk
           ["srv"; "app"] ["ignore"; "b.py"] "x = 1").
  - discriminate.
  - reflexivity.
  - reflexivity.
  - reflexivity.
  - intros d [mid [Hmid ->]] [rest [Hrest Heq]].
    rewrite <- app_assoc in Heq. apply app_inv_head in Heq.
    destruct mid as [| a [| b mid]]; [congruence | |].
    + injection Heq as <- _. reflexivity.
    + destruct rest; [congruence |].
      injection Heq as _ Heq. destruct mid; discriminate.
Defined.


(* ================================================================== *)
(** ** The file system under a write *)

Module PutFacts.
Import FS.

Lemma put_cons x y q new entries :
  put (x :: y :: q) new (Dir entries)
  = match Dict.get x entries with
    | Some c =>
        match put (y :: q) new c with
        | Some c' => Some (Dir (Dict.set x c' entries))
        | None => None
        end
    | None => None
    end.
Proof. reflexivity. Qed.

(** What was put is found where it was put. *)
Lemma lookup_put_same p new :
  forall n n', put p new n = Some n' -> lookup p n' = Some new.
Proof.
  induction p as [| x p IH]; intros n n' Hput.
  - cbn in Hput. injection Hput as <-. reflexivity.
  - destruct n as [c | entries]; [discriminate |].
    destruct p as [| y q].
    + cbn in Hput. injection Hput as <-. cbn.
      rewrite DictFacts.get_set_same. reflexivity.
    + rewrite put_cons in Hput.
      destruct (Dict.get x entries) as [c |]; [| discriminate].
      destruct (put (y :: q) new c) as [c' |] eqn:Hc; [| discriminate].
      injection Hput as <-. cbn [lookup].
      rewrite DictFacts.get_set_same. exact (IH _ _ Hc).
Qed.

(** A path that leaves the path of the write at some directory leads where
    it led before. *)
Lemma lookup_put_diverge pre x y q1 q2 new :
  x <> y ->
  forall n n',
    put (pre ++ y :: q2) new n = Some n' ->
    lookup (pre ++ x :: q1) n' = lookup (pre ++ x :: q1) n.
Proof.
  intros Hne. induction pre as [| r pre IH]; intros n n' Hput.
  - cbn [app] in *. destruct n as [c | entries]; [discriminate |].
    assert (Hn' : exists v, n' = Dir (Dict.set y v entries)).
    { destruct q2 as [| z q2].
      - cbn in Hput. injection Hput as <-. eexists; reflexivity.
      - rewrite put_cons in Hput.
        destruct (Dict.get y entries) as [c |]; [| discriminate].
        destruct (put (z :: q2) new c) as [c' |]; [| discriminate].
        injection Hput as <-. eexists; reflexivity. }
    destruct Hn' as [v ->]. cbn [lookup].
    rewrite DictFacts.get_set_other by exact Hne. reflexivity.
  - cbn [app] in *. destruct n as [c | entries]; [discriminate |].
    destruct (pre ++ y :: q2) as [| z rest] eqn:Hrest;
      [destruct pre; discriminate |].
    rewrite put_cons in Hput.
    destruct (Dict.get r entries) as [c |] eqn:Hr; [| discriminate].
    destruct (put (z :: rest) new c) as [c' |] eqn:Hc; [| discriminate].
    injection Hput as <-. cbn [lookup].
    rewrite DictFacts.get_set_same, Hr. exact (IH _ _ Hc).
Qed.

(** Below a directory on the path of the write, the write is a write. *)
Lemma lookup_put_prefix p q new :
  q <> [] ->
  forall n n',
    put (p ++ q) new n = Some n' ->
    exists m m',
      lookup p n = Some m /\ put q new m = Some m' /\ lookup p n' = Some m'.
Proof.
  intros Hq. induction p as [| r p IH]; intros n n' Hput.
  - exists n, n'. repeat split. exact Hput.
  - cbn [app] in Hput. destruct n as [c | entries]; [discriminate |].
    destruct (p ++ q) as [| z rest] eqn:Hrest;
      [apply app_eq_nil in Hrest; destruct Hrest; contradiction |].
    rewrite put_cons in Hput.
    destruct (Dict.get r entries) as [c |] eqn:Hr; [| discriminate].
    destruct (put (z :: rest) new c) as [c' |] eqn:Hc; [| discriminate].
    injection Hput as <-.
    destruct (IH _ _ Hc) as [m [m' [Hm [Hput' Hm']]]].
    exists m, m'. cbn [lookup]. rewrite Hr, DictFacts.get_set_same.
    repeat split; assumption.
Qed.

(** A path that is neither the path of the write nor a directory above it
    leads where it led before, when a file is put where no directory was. *)
Lemma lookup_put_off_path q content :
  forall p n n',
    (forall rest, q <> p ++ rest) ->
    (forall es, lookup q n <> Some (Dir es)) ->
    put q (File content) n = Some n' ->
    lookup p n' = lookup p n.
Proof.
  induction q as [| y q IH]; intros p n n' Hoff Hfile Hput.
  - destruct p as [| x p]; [exfalso; exact (Hoff [] eq_refl) |].
    cbn in Hput. injection Hput as <-. cbn [lookup].
    destruct n as [c | es]; [reflexivity |].
    exfalso. exact (Hfile es eq_refl).
  - destruct n as [c | entries]; [discriminate |].
    destruct p as [| x p]; [exfalso; exact (Hoff (y :: q) eq_refl) |].
    destruct (String.eqb_spec x y) as [-> | Hne].
    + assert (Hoff' : forall rest, q <> p ++ rest).
      { intros rest Heq. apply (Hoff rest). cbn. rewrite Heq. reflexivity. }
      destruct q as [| z q].
      * cbn in Hput. injection Hput as <-. cbn [lookup].
        rewrite DictFacts.get_set_same.
        destruct p as [| x p]; [exfalso; exact (Hoff' [] eq_refl) |].
        cbn [lookup] in Hfile |- *.
        destruct (Dict.get y entries) as [[c | es] |]; try reflexivity.
        exfalso. exact (Hfile es eq_refl).
      * rewrite put_cons in Hput. cbn [lookup] in Hfile |- *.
        destruct (Dict.get y entries) as [c |] eqn:Hy; [| discriminate].
        destruct (put (z :: q) (File content) c) as [c' |] eqn:Hc;
          [| discriminate].
        injection Hput as <-. cbn [lookup].
        rewrite DictFacts.get_set_same.
        exact (IH p c c' Hoff' Hfile Hc).
    + assert (Hn' : exists v, n' = Dir (Dict.set y v entries)).
      { destruct q as [| z q].
        - cbn in Hput. injection Hput as <-. eexists; reflexivity.
        - rewrite put_cons in Hput.
          destruct (Dict.get y entries) as [c |]; [| discriminate].
          destruct (put (z :: q) (File content) c) as [c' |]; [| discriminate].
          injection Hput as <-. eexists; reflexivity. }
      destruct Hn' as [v ->]. cbn [lookup].
      rewrite DictFacts.get_set_other by exact Hne. reflexivity.
Qed.

(** Nothing is put into what is not a directory. *)
Lemma put_needs_dir (dir : path) (x : string) (new : node) :
  forall n n',
    put (PyPath.child dir x) new n = Some n' ->
    exists entries, lookup dir n = Some (Dir entries).
Proof.
  unfold PyPath.child.
  induction dir as [| r dir IH]; intros n n' Hput.
  - destruct n as [c | entries]; [discriminate |]. exists entries. reflexivity.
  - cbn [app] in Hput. destruct n as [c | entries]; [discriminate |].
    destruct (dir ++ [x]) as [| z rest] eqn:Hrest;
      [destruct dir; discriminate |].
    rewrite put_cons in Hput. cbn [lookup].
    destruct (Dict.get r entries) as [c |]; [| discriminate].
    destruct (put (z :: rest) new c) as [c' |] eqn:Hc; [| discriminate].
    exact (IH c c' Hc).
Qed.

End PutFacts.

(* ================================================================== *)
(** ** The cache file: saving *)

Module SaveFacts.

(** [save_cache] never raises and sends no prompt; it writes the cache file
    or nothing. *)
Lemma save_cache_effect :
  forall (E : Py.Env) (self : Rag.CodebaseRAG) (data : Json.json)
         (w : Py.World),
    exists w',
      Rag.save_cache E self data w = (inr tt, w')
      /\ Py.llm_log w' = Py.llm_log w
      /\ (w' = w
          \/ (FS.lookup (Rag.cache_file self) (Py.fs w')
              = Some (FS.File (Json.dumps data))
              /\ Py.written w' = Py.written w ++ [Rag.cache_file self])).
Proof.
  intros E self data w.
  unfold Rag.save_cache, Py.try_except, Py.write_text, Py.ret.
  destruct (Py.denied E (Rag.cache_file self));
    [exists w; repeat split; left; reflexivity |].
  destruct (FS.lookup (Rag.cache_file self) (Py.fs w)) as [[c | es] |];
    try (exists w; repeat split; left; reflexivity);
    (destruct (FS.put (Rag.cache_file self) (FS.File (Json.dumps data))
                      (Py.fs w)) as [fs' |] eqn:Hput;
     [| exists w; repeat split; left; reflexivity]);
    (eexists; split; [reflexivity |]; split; [reflexivity |];
     right; split; [exact (PutFacts.lookup_put_same _ _ _ _ Hput)
                   | reflexivity]).
Qed.

End SaveFacts.

(** X3.  Whatever becomes of the write, [save_cache] sends no prompt and
    touches nothing but the cache file: the list of written files grows by
    the cache file at most, and every path that is neither the cache file
    nor a directory above it leads where it led before.  When the cache
    file cannot be opened for writing (the operating system refuses it, a
    directory bears its name, or the cache directory is not there), the
    world is left as it is. *)
Theorem save_cache_touches_only_the_cache_file :
  forall (E : Py.Env) (self : Rag.CodebaseRAG) (data : Json.json)
         (w : Py.World),
    Py.llm_log (snd (Rag.save_cache E self data w)) = Py.llm_log w
    /\ (Py.written (snd (Rag.save_cache E self data w)) = Py.written w
        \/ Py.written (snd (Rag.save_cache E self data w))
           = Py.written w ++ [Rag.cache_file self])
    /\ (forall p,
           (forall rest, Rag.cache_file self <> p ++ rest) ->
           FS.lookup p (Py.fs (snd (Rag.save_cache E self data w)))
           = FS.lookup p (Py.fs w))
    /\ (Py.denied E (Rag.cache_file self) = true
        \/ (exists es, FS.lookup (Rag.cache_file self) (Py.fs w)
                       = Some (FS.Dir es))
        \/ (forall entries, FS.lookup (Rag.cache_dir self) (Py.fs w)
                            <> Some (FS.Dir entries)) ->
        snd (Rag.save_cache E self data w) = w).
Proof.
  intros E self data w.
  assert (Hsame : forall run : (Json.exn + unit) * Py.World,
             snd run = w ->
             Py.llm_log (snd run) = Py.llm_log w
             /\ (Py.written (snd run) = Py.written w
                 \/ Py.written (snd run) = Py.written w ++ [Rag.cache_file self])
             /\ (forall p,
                    (forall rest, Rag.cache_file self <> p ++ rest) ->
                    FS.lookup p (Py.fs (snd run)) = FS.lookup p (Py.fs w))
             /\ (Py.denied E (Rag.cache_file self) = true
                 \/ (exists es, FS.lookup (Rag.cache_file self) (Py.fs w)
                                = Some (FS.Dir es))
                 \/ (forall entries, FS.lookup (Rag.cache_dir self) (Py.fs w)
                                     <> Some (FS.Dir entries)) ->
                 snd run = w)).
  { intros run ->. split; [reflexivity |]. split; [left; reflexivity |].
    split; [intros; reflexivity | intros _; reflexivity]. }
  assert (Hwritten : forall disk',
             FS.put (Rag.cache_file self) (FS.File (Json.dumps data)) (Py.fs w)
             = Some disk' ->
             Py.denied E (Rag.cache_file self) = false ->
             (forall es, FS.lookup (Rag.cache_file self) (Py.fs w)
                         <> Some (FS.Dir es)) ->
             forall run : (Json.exn + unit) * Py.World,
               snd run = {| Py.fs := disk'; Py.llm_log := Py.llm_log w;
                            Py.written := Py.written w ++ [Rag.cache_file self] |} ->
               Py.llm_log (snd run) = Py.llm_log w
               /\ (Py.written (snd run) = Py.written w
                   \/ Py.written (snd run)
                      = Py.written w ++ [Rag.cache_file self])
               /\ (forall p,
                      (forall rest, Rag.cache_file self <> p ++ rest) ->
                      FS.lookup p (Py.fs (snd run)) = FS.lookup p (Py.fs w))
               /\ (Py.denied E (Rag.cache_file self) = true
                   \/ (exists es, FS.lookup (Rag.cache_file self) (Py.fs w)
                                  = Some (FS.Dir es))
                   \/ (forall entries, FS.lookup (Rag.cache_dir self) (Py.fs w)
                                       <> Some (FS.Dir entries)) ->
                   snd run = w)).
  { intros disk' Hput Hperm Hfile run ->. cbn [Py.llm_log Py.written Py.fs].
    split; [reflexivity |]. split; [right; reflexivity |]. split.
    - intros p Hoff.
      eapply PutFacts.lookup_put_off_path; [exact Hoff | exact Hfile | exact Hput].
    - intros [Hd | [[es Hes] | Hdir]].
      + rewrite Hd in Hperm. discriminate.
      + exfalso. exact (Hfile es Hes).
      + exfalso. unfold Rag.cache_file in Hput.
        destruct (PutFacts.put_needs_dir _ _ _ _ _ Hput) as [entries Hentries].
        exact (Hdir entries Hentries). }
  unfold Rag.save_cache, Py.try_except, Py.write_text, Py.ret.
  destruct (Py.denied E (Rag.cache_file self)) eqn:Hperm;
    [apply Hsame; reflexivity |].
  destruct (FS.lookup (Rag.cache_file self) (Py.fs w)) as [[c | es] |] eqn:Hlook.
  - destruct (FS.put (Rag.cache_file self) (FS.File (Json.dumps data))
                     (Py.fs w)) as [disk' |] eqn:Hput;
      [| apply Hsame; reflexivity].
    apply (Hwritten disk' eq_refl eq_refl); [| reflexivity].
    intros es Hes. discriminate.
  - apply Hsame. reflexivity.
  - destruct (FS.put (Rag.cache_file self) (FS.File (Json.dumps data))
                     (Py.fs w)) as [disk' |] eqn:Hput;
      [| apply Hsame; reflexivity].
    apply (Hwritten disk' eq_refl eq_refl); [| reflexivity].
    intros es Hes. discriminate.
Qed.

(** X3 on the project [/srv/app], where the cache file cannot be opened:
    the sources are where they were and nothing is written. *)
Lemma save_cache_touches_only_the_cache_file_witness :
  snd (Rag.save_cache Notions.locked_env Spec.app_self
         (Json.JObj Spec.api_results) (Spec.world_of Spec.ready_disk))
  = Spec.world_of Spec.ready_disk.
Proof.
  apply (save_cache_touches_only_the_cache_file Notions.locked_env
           Spec.app_self (Json.JObj Spec.api_results)
           (Spec.world_of Spec.ready_disk)).
  left. reflexivity.
Defined.

(* ================================================================== *)
(** ** The analysis of one file and of all files *)

Module RunFacts.
Import Json Py Rag Spec Notions.

Section WithEnv.

Variable E : Env.
Variable self : CodebaseRAG.

(** The one prompt an analysis may send is built from the text of the
    file. *)
Lemma analyze_file_prompts g cache w :
  llm_log (snd (analyze_file E self g cache w)) = llm_log w
  \/ exists prompt,
       llm_log (snd (analyze_file E self g cache w)) = llm_log w ++ [prompt]
       /\ reads self (fs w) [g] prompt.
Proof.
  rewrite AnalyzerFacts.analyze_file_unfold.
  destruct (PyPath.relative_to (root_path self) g) as [rel |] eqn:Hrel;
    [| left; reflexivity].
  cbv zeta. destruct (cache_hit cache _ _) as [e | [|]];
    try (left; reflexivity).
  unfold read_bytes. destruct (denied E g); [left; reflexivity |].
  destruct (FS.lookup g (fs w)) as [[bytes | es] |] eqn:Hlook;
    try (left; reflexivity).
  right. eexists. split; [reflexivity |].
  exists g, rel, bytes. repeat split; [left; reflexivity | assumption ..].
Qed.

Lemma reads_more disk files files' prompt :
  incl files files' -> reads self disk files prompt ->
  reads self disk files' prompt.
Proof.
  intros Hincl [g [rel [bytes [Hin H]]]].
  exists g, rel, bytes. split; [apply Hincl; exact Hin | exact H].
Qed.

(** The loop sends at most one prompt for each completed task. *)
Lemma collect_results_prompts cache completed :
  forall results w,
    exists extra,
      llm_log (snd (collect_results E self cache completed results w))
      = llm_log w ++ extra
      /\ List.length extra <= List.length completed
      /\ Forall (reads self (fs w) completed) extra.
Proof.
  induction completed as [| g rest IH]; intros results w.
  - exists []. cbn. rewrite app_nil_r. repeat split; [lia | constructor].
  - rewrite DispatcherFacts.collect_results_step.
    destruct (IH (store self results g (fst (analyze_file E self g cache w)))
                 (snd (analyze_file E self g cache w)))
      as [extra [Hlog [Hlen Hall]]].
    destruct (AnalyzerFacts.analyze_file_frame E self g cache w) as [Hfs _].
    rewrite Hfs in Hall.
    assert (Hrest : Forall (reads self (fs w) (g :: rest)) extra).
    { eapply Forall_impl; [| exact Hall]. intros prompt.
      apply reads_more. intros x Hx. right. exact Hx. }
    destruct (analyze_file_prompts g cache w) as [Hsame | [prompt [Hone Hreads]]].
    + exists extra. rewrite Hlog, Hsame. repeat split; [cbn; lia | exact Hrest].
    + exists (prompt :: extra). rewrite Hlog, Hone, <- app_assoc.
      repeat split; [cbn; lia |].
      constructor; [| exact Hrest].
      eapply reads_more; [| exact Hreads].
      intros x [<- | []]. left. reflexivity.
Qed.

End WithEnv.

End RunFacts.

Module TotalFacts.

(** A run with at least one worker returns a map and writes at most the
    cache file. *)
Lemma analysis_run_total :
  forall (E : Py.Env) (self : Rag.CodebaseRAG) (max_workers : Z)
         (schedule : list path -> list path) (w : Py.World),
    (0 < max_workers)%Z ->
    exists results w',
      Rag.analyze_codebase_parallel E self max_workers schedule w
      = (inr results, w')
      /\ (Py.written w' = Py.written w
          \/ Py.written w' = Py.written w ++ [Rag.cache_file self]).
Proof.
  intros E self max_workers schedule w Hpos.
  rewrite (DispatcherFacts.analyze_codebase_parallel_unfold E self
             max_workers schedule w Hpos).
  destruct (DispatcherFacts.collect_results_total E self
              (Spec.loaded_cache E self w) (schedule (Spec.scanned self w))
              [] w) as [results [w1 [Hrun [_ Hwr]]]].
  rewrite Hrun. exists results. eexists. split; [reflexivity |].
  destruct (SaveFacts.save_cache_effect E self
              (Json.JObj results) w1) as [w2 [Hsave [_ Hw]]].
  rewrite Hsave. cbn [snd]. destruct Hw as [-> | [_ Hw]].
  - left. exact Hwr.
  - right. rewrite Hw, Hwr. reflexivity.
Qed.

End TotalFacts.

(** X5.  Without a worker the thread pool cannot be made:
    [analyze_codebase_parallel] raises [ValueError] after the scan and the
    load of the cache, before any file is analysed, and leaves the world as
    it is: no prompt is sent and the cache is not saved. *)
Theorem analysis_run_without_worker_raises :
  forall (E : Py.Env) (self : Rag.CodebaseRAG) (max_workers : Z)
         (schedule : list path -> list path) (w : Py.World),
    (max_workers <= 0)%Z ->
    Rag.analyze_codebase_parallel E self max_workers schedule w
    = (inl Json.ValueError, w).
Proof.
  intros E self max_workers schedule w Hle.
  unfold Rag.analyze_codebase_parallel, Rag.scan_codebase.
  unfold Py.bind at 1. unfold Py.bind at 1.
  rewrite DispatcherFacts.load_cache_run.
  unfold Py.bind at 1. destruct (Z.leb_spec max_workers 0) as [_ | Hlt]; [| lia].
  reflexivity.
Qed.

Lemma analysis_run_without_worker_raises_witness :
  Rag.analyze_codebase_parallel Spec.stub_env Spec.app_self 0 (fun l => l)
    (Spec.world_of Spec.ready_disk)
  = (inl Json.ValueError, Spec.world_of Spec.ready_disk).
Proof.
  apply (analysis_run_without_worker_raises Spec.stub_env Spec.app_self 0
           (fun l => l) (Spec.world_of Spec.ready_disk)).
  lia.
Defined.

(** X6.  A run of [analyze_codebase_parallel] sends at most one prompt for
    each scheduled file, and every prompt it sends is the analysis prompt of
    a scheduled file, built from the text the file holds on the disk. *)
Theorem analysis_run_prompts_once_per_file :
  forall (E : Py.Env) (self : Rag.CodebaseRAG) (max_workers : Z)
         (schedule : list path -> list path) (w : Py.World),
    (0 < max_workers)%Z ->
    exists extra,
      Py.llm_log
        (snd (Rag.analyze_codebase_parallel E self max_workers schedule w))
      = Py.llm_log w ++ extra
      /\ List.length extra <= List.length (schedule (Spec.scanned self w))
      /\ Forall (Notions.reads self (Py.fs w) (schedule (Spec.scanned self w)))
                extra.
Proof.
  intros E self max_workers schedule w Hpos.
  rewrite (DispatcherFacts.analyze_codebase_parallel_unfold E self
             max_workers schedule w Hpos).
  destruct (RunFacts.collect_results_prompts E self
              (Spec.loaded_cache E self w) (schedule (Spec.scanned self w))
              [] w) as [extra [Hlog H]].
  exists extra. split; [| exact H].
  destruct (Rag.collect_results E self (Spec.loaded_cache E self w)
              (schedule (Spec.scanned self w)) [] w) as [[e | results] w1];
    cbn [snd] in *; [exact Hlog |].
  destruct (SaveFacts.save_cache_effect E self (Json.JObj results) w1)
    as [w2 [Hsave [Hlog2 _]]].
  rewrite Hsave. cbn [snd]. rewrite Hlog2. exact Hlog.
Qed.

Lemma analysis_run_prompts_once_per_file_witness :
  exists extra,
    Py.llm_log
      (snd (Rag.analyze_codebase_parallel Spec.stub_env Spec.app_self 4
              (fun l => l) (Spec.world_of Spec.ready_disk)))
    = extra
    /\ List.length extra <= 2.
Proof.
  destruct (analysis_run_prompts_once_per_file Spec.stub_env Spec.app_self 4
              (fun l => l) (Spec.world_of Spec.ready_disk))
    as [extra [Hlog [Hlen _]]]; [lia |].
  exists extra. split; [exact Hlog | exact Hlen].
Defined.

(** X7.  A file whose cached record carries another fingerprint than the
    file has now is analysed again: a readable file gets one prompt, built
    from its present text, and a fresh record with its present
    fingerprint. *)
Theorem changed_file_is_analysed_again :
  forall (E : Py.Env) (self : Rag.CodebaseRAG) (file_path rel : path)
         (members fields : Dict.dict Json.json) (old bytes answer : string)
         (w : Py.World),
    PyPath.relative_to (Rag.root_path self) file_path = Some rel ->
    Dict.get (PyPath.rel_str rel) members = Some (Json.JObj fields) ->
    Dict.get "hash" fields = Some (Json.JStr old) ->
    old <> Spec.fingerprint E w file_path ->
    fst (Py.read_bytes E file_path w) = inr bytes ->
    Py.generate E (Py.llm_log w)
      (Rag.analysis_prompt (PyPath.rel_str rel) (Py.universal_newlines bytes))
    = inr answer ->
    Rag.analyze_file E self file_path (Json.JObj members) w
    = (inr (Rag.analysis_record (Spec.fingerprint E w file_path)
              (PyPath.rel_str rel) (Py.universal_newlines bytes) answer),
       Spec.prompted w
         (Rag.analysis_prompt (PyPath.rel_str rel)
            (Py.universal_newlines bytes))).
Proof.
  intros E self file_path rel members fields old bytes answer w
         Hrel Hentry Hhash Hold Hread Hanswer.
  rewrite AnalyzerFacts.analyze_file_unfold, Hrel. cbv zeta.
  unfold Rag.cache_hit. cbn [Json.py_in Json.py_getitem].
  unfold Dict.mem. rewrite Hentry. cbn [Json.py_get]. rewrite Hhash.
  cbn [Json.eq_str].
  destruct (String.eqb_spec old (Spec.fingerprint E w file_path));
    [contradiction |].
  rewrite Hread, Hanswer. reflexivity.
Qed.

(** X7 on [b.py], edited since the run that filled the cache. *)
Lemma changed_file_is_analysed_again_witness :
  fst (Rag.analyze_file Spec.stub_env Spec.app_self ["srv"; "app"; "b.py"]
         (Json.JObj [("b.py", Json.JObj [("hash", Json.JStr "md5:x = 0")])])
         (Spec.world_of Spec.ready_disk))
  = inr (Rag.analysis_record "md5:x = 1" "b.py" "x = 1" "A summary.").
Proof.
  rewrite (changed_file_is_analysed_again Spec.stub_env Spec.app_self
             ["srv"; "app"; "b.py"] ["b.py"]
             [("b.py", Json.JObj [("hash", Json.JStr "md5:x = 0")])]
             [("hash", Json.JStr "md5:x = 0")] "md5:x = 0" "x = 1" "A summary."
             (Spec.world_of Spec.ready_disk)).
  - reflexivity.
  - reflexivity.
  - reflexivity.
  - reflexivity.
  - vm_compute. discriminate.
  - reflexivity.
  - reflexivity.
Defined.


(* ================================================================== *)
(** ** The whole pipeline: what it writes, what it sends *)

Module ArtifactFacts.
Import Json Py Rag Spec Notions WritesFacts.

Section WithEnv.

Variable E : Env.
Variable self : CodebaseRAG.

Lemma artifact_analyze max_workers schedule :
  appends (artifact self) (analyze_codebase_parallel E self max_workers schedule).
Proof.
  unfold analyze_codebase_parallel.
  apply appends_bind; [apply appends_unchanged; reflexivity |]. intros files.
  apply appends_bind.
  { apply appends_unchanged. intros w.
    rewrite DispatcherFacts.load_cache_run. reflexivity. }
  intros cache. apply appends_bind.
  { destruct (max_workers <=? 0)%Z; [apply appends_raise |].
    apply appends_unchanged. intros w.
    destruct (DispatcherFacts.collect_results_total E self cache
                (schedule files) [] w) as [res [w' [Hrun [_ Hwr]]]].
    rewrite Hrun. exact Hwr. }
  intros results. apply appends_bind; [| intros _; apply appends_ret].
  unfold save_cache. apply appends_try_except; [| intros _; apply appends_ret].
  apply appends_write_text. left. reflexivity.
Qed.

Lemma artifact_readme results :
  appends (artifact self) (generate_readme E self results).
Proof.
  unfold generate_readme, generate_project_overview.
  repeat (first [apply appends_bind; [| intros ?]
                | apply appends_lift | apply appends_ask_llm
                | apply appends_ret]).
Qed.

Lemma artifact_component_docs results :
  appends (artifact self) (generate_component_docs E self results).
Proof.
  unfold generate_component_docs.
  apply appends_bind; [apply appends_mkdir | intros _].
  apply appends_for_each. intros [key record]. unfold component_doc.
  apply appends_bind; [apply appends_lift | intros documented].
  destruct documented; [| apply appends_ret].
  apply appends_bind; [apply appends_lift | intros text].
  apply appends_bind; [apply appends_lift | intros preview].
  apply appends_bind; [apply appends_ask_llm | intros doc_content].
  apply appends_try_except; [| intros _; apply appends_ret].
  apply appends_write_text. right. right. right. exists key. reflexivity.
Qed.

Lemma artifact_api results :
  appends (artifact self) (generate_api_documentation E self results).
Proof.
  unfold generate_api_documentation.
  apply appends_bind; [apply appends_lift | intros files].
  destruct files as [| f files]; [apply appends_ret |].
  apply appends_bind; [apply appends_lift | intros lines].
  apply appends_bind; [apply appends_ask_llm | intros api_docs].
  apply appends_try_except; [| intros _; apply appends_ret].
  apply appends_write_text. right. right. left. reflexivity.
Qed.

Lemma artifact_all schedule :
  appends (artifact self) (generate_all_documentation E self schedule).
Proof.
  unfold generate_all_documentation.
  apply appends_bind; [apply artifact_analyze | intros results].
  apply appends_bind; [apply artifact_readme | intros readme_content].
  apply appends_bind.
  { apply appends_try_except; [| intros _; apply appends_ret].
    apply appends_write_text. right. left. reflexivity. }
  intros _.
  apply appends_bind; [apply artifact_component_docs | intros _].
  apply artifact_api.
Qed.

End WithEnv.

(** The name of a child is its last segment. *)
Lemma name_child p s : PyPath.name (PyPath.child p s) = s.
Proof.
  unfold PyPath.name, PyPath.child. apply last_last.
Qed.

Lemma suffix_child p s : PyPath.suffix (PyPath.child p s) = PyPath.suffix [s].
Proof. unfold PyPath.suffix. rewrite name_child. reflexivity. Qed.

Lemma from_last_dot_md t : PyPath.from_last_dot (t ++ ".md") = Some ".md".
Proof.
  induction t as [| c t IH]; [reflexivity |].
  cbn [String.append PyPath.from_last_dot]. rewrite IH. reflexivity.
Qed.

(** A name that ends in [.md] carries the suffix [.md], or none when it is
    [.md] itself. *)
Lemma suffix_md s :
  PyPath.suffix [(s ++ ".md")%string] = ".md"
  \/ PyPath.suffix [(s ++ ".md")%string] = EmptyString.
Proof.
  destruct s as [| c t]; [right; reflexivity |].
  left. unfold PyPath.suffix, PyPath.name. cbn [last String.append].
  rewrite from_last_dot_md. reflexivity.
Qed.

Lemma cache_dir_ignored root :
  Filter.should_ignore (PyPath.child root ".rag_cache") = true.
Proof.
  unfold Filter.should_ignore. apply existsb_exists.
  exists ".rag_cache". split; [vm_compute; tauto |].
  rewrite name_child. reflexivity.
Qed.

End ArtifactFacts.

(** X8.  Whatever the disk, the generation capability and the thread pool
    do, [generate_all_documentation] writes no file but the cache file,
    [README.md], [API_DOCUMENTATION.md] and, in [docs], files named after
    the stem of a path with the extension [.md]. *)
Theorem pipeline_writes_only_its_artifacts :
  forall (E : Py.Env) (self : Rag.CodebaseRAG)
         (schedule : list path -> list path) (w : Py.World),
    exists extra,
      Py.written (snd (Rag.generate_all_documentation E self schedule w))
      = Py.written w ++ extra
      /\ Forall (Notions.artifact self) extra.
Proof.
  intros E self schedule w.
  exact (ArtifactFacts.artifact_all E self schedule w).
Qed.

(** X9.  No scan ever yields a file the pipeline may write: the documents
    carry the extension [.md], which is not analysed, and the cache file
    lies in the ignored directory [.rag_cache].  So a run never overwrites
    a file it analyses, and a later run does not analyse what an earlier
    run generated. *)
Theorem artifacts_are_never_scanned :
  forall (self : Rag.CodebaseRAG) (fs : FS.node) (p : path),
    Rag.cache_dir self = PyPath.child (Rag.root_path self) ".rag_cache" ->
    Notions.artifact self p ->
    ~ In p (Scanner.scan_codebase fs (Rag.root_path self)).
Proof.
  intros self fs p Hcache Hart Hin.
  destruct (ScannerFacts.scanned_in_visited _ _ _ Hin)
    as [top [filename [Htop [Hp [Hign Hext]]]]].
  destruct Hart as [-> | [-> | [-> | [key ->]]]].
  - (* the cache file *)
    destruct (ScannerFacts.visited_kept _ _ _ Htop) as [mid [-> Hchain]].
    unfold Rag.cache_file in Hp. rewrite Hcache in Hp.
    unfold PyPath.child in Hp. apply app_inj_tail in Hp. destruct Hp as [Hp _].
    rewrite <- (app_nil_r (Rag.root_path self)) in Hp at 1.
    rewrite <- !app_assoc in Hp. apply app_inv_head in Hp. cbn in Hp.
    pose proof (ScannerFacts.kept_chain_not_ignored _ _ Hchain
                  [".rag_cache"] [] ltac:(rewrite <- Hp; reflexivity)
                  ltac:(discriminate)) as Hkept.
    fold (PyPath.child (Rag.root_path self) ".rag_cache") in Hkept.
    rewrite ArtifactFacts.cache_dir_ignored in Hkept. discriminate.
  - unfold Filter.has_code_extension, Notions.readme_path in Hext.
    rewrite ArtifactFacts.suffix_child in Hext. discriminate.
  - unfold Filter.has_code_extension, Rag.api_file_path in Hext.
    rewrite ArtifactFacts.suffix_child in Hext. discriminate.
  - unfold Filter.has_code_extension, Notions.docs_path in Hext.
    rewrite ArtifactFacts.suffix_child in Hext.
    destruct (ArtifactFacts.suffix_md (PyPath.stem (PyPath.of_str key)))
      as [Hs | Hs]; rewrite Hs in Hext; discriminate.
Qed.

Lemma artifacts_are_never_scanned_witness :
  ~ In ["srv"; "app"; ".rag_cache"; "analysis_cache.json"]
       (Scanner.scan_codebase Spec.scenario_disk ["srv"; "app"]).
Proof.
  apply (artifacts_are_never_scanned Spec.app_self Spec.scenario_disk).
  - reflexivity.
  - left. reflexivity.
Defined.


(* ================================================================== *)
(** ** The prompts of the pipeline *)

Module BoundFacts.
Import Json Py Rag Spec Notions.

Section Sends.

Variable E : Env.

Lemma sends_unchanged {A : Type} (c : M A) :
  (forall w, llm_log (snd (c w)) = llm_log w) -> sends_at_most 0 c.
Proof.
  intros H w. exists []. rewrite app_nil_r. split; [apply H | cbn; lia].
Qed.

Lemma sends_weaken {A : Type} (k k' : nat) (c : M A) :
  k <= k' -> sends_at_most k c -> sends_at_most k' c.
Proof.
  intros Hle Hc w. destruct (Hc w) as [extra [Hlog Hlen]].
  exists extra. split; [exact Hlog | lia].
Qed.

Lemma sends_ret {A : Type} (a : A) : sends_at_most 0 (ret a).
Proof. apply sends_unchanged. reflexivity. Qed.

Lemma sends_raise {A : Type} (e : exn) : sends_at_most 0 (@raise A e).
Proof. apply sends_unchanged. reflexivity. Qed.

Lemma sends_lift {A : Type} (r : exn + A) : sends_at_most 0 (lift r).
Proof. destruct r; [apply sends_raise | apply sends_ret]. Qed.

Lemma sends_bind {A B : Type} (k1 k2 : nat) (c : M A) (k : A -> M B) :
  sends_at_most k1 c -> (forall a, sends_at_most k2 (k a)) ->
  sends_at_most (k1 + k2) (bind c k).
Proof.
  intros Hc Hk w. unfold bind.
  destruct (Hc w) as [extra1 [Hw1 Hlen1]].
  destruct (c w) as [[e | a] w1]; cbn [snd] in *.
  - exists extra1. split; [assumption | lia].
  - destruct (Hk a w1) as [extra2 [Hw2 Hlen2]].
    exists (extra1 ++ extra2). split.
    + rewrite Hw2, Hw1, app_assoc. reflexivity.
    + rewrite length_app. lia.
Qed.

Lemma sends_try_except {A : Type} (k1 k2 : nat) (body : M A)
  (handler : exn -> M A) :
  sends_at_most k1 body -> (forall e, sends_at_most k2 (handler e)) ->
  sends_at_most (k1 + k2) (try_except body handler).
Proof.
  intros Hb Hh w. unfold try_except.
  destruct (Hb w) as [extra1 [Hw1 Hlen1]].
  destruct (body w) as [[e | a] w1]; cbn [snd] in *.
  - destruct (Hh e w1) as [extra2 [Hw2 Hlen2]].
    exists (extra1 ++ extra2). split.
    + rewrite Hw2, Hw1, app_assoc. reflexivity.
    + rewrite length_app. lia.
  - exists extra1. split; [assumption | lia].
Qed.

Lemma sends_ask_llm prompt : sends_at_most 1 (ask_llm E prompt).
Proof. intros w. exists [prompt]. split; [reflexivity | cbn; lia]. Qed.

Lemma sends_mkdir p : sends_at_most 0 (mkdir_exist_ok E p).
Proof.
  apply sends_unchanged. intros w. unfold mkdir_exist_ok.
  destruct (FS.lookup p (fs w)) as [[c | es] |]; try reflexivity.
  destruct (denied E p); [reflexivity |].
  destruct (FS.put p (FS.Dir []) (fs w)); reflexivity.
Qed.

Lemma sends_write_text p content : sends_at_most 0 (write_text E p content).
Proof.
  apply sends_unchanged. intros w. unfold write_text.
  destruct (denied E p); [reflexivity |].
  destruct (FS.lookup p (fs w)) as [[c | es] |]; try reflexivity;
    destruct (FS.put p (FS.File content) (fs w)); reflexivity.
Qed.

(** A write whose failure is swallowed. *)
Lemma sends_guarded_write p content :
  sends_at_most 0 (try_except (write_text E p content) (fun _ => ret tt)).
Proof.
  apply (sends_try_except 0 0); [apply sends_write_text |].
  intros _. apply sends_ret.
Qed.

Lemma sends_for_each {A : Type} (k : nat) (l : list A) (body : A -> M unit) :
  (forall x, sends_at_most k (body x)) ->
  sends_at_most (List.length l * k) (for_each l body).
Proof.
  intros Hbody. induction l as [| x l IH]; cbn [for_each List.length].
  - apply sends_ret.
  - apply (sends_bind k (List.length l * k)); [apply Hbody | intros _; exact IH].
Qed.

Variable self : CodebaseRAG.

Lemma sends_readme results : sends_at_most 3 (generate_readme E self results).
Proof.
  unfold generate_readme, generate_project_overview.
  apply (sends_bind 1 2).
  { apply (sends_bind 0 1); [apply sends_lift | intros ?; apply sends_ask_llm]. }
  intros overview. apply (sends_bind 1 1); [apply sends_ask_llm |].
  intros structure. apply (sends_bind 1 0); [apply sends_ask_llm |].
  intros installation. apply sends_ret.
Qed.

Lemma sends_component_doc docs_dir key record :
  sends_at_most 1 (component_doc E docs_dir key record).
Proof.
  unfold component_doc.
  apply (sends_bind 0 1); [apply sends_lift | intros documented].
  destruct documented; [| apply (sends_weaken 0); [lia | apply sends_ret]].
  apply (sends_bind 0 1); [apply sends_lift | intros text].
  apply (sends_bind 0 1); [apply sends_lift | intros preview].
  apply (sends_bind 1 0); [apply sends_ask_llm | intros doc_content].
  apply sends_guarded_write.
Qed.

Lemma sends_component_docs results :
  sends_at_most (List.length results)
                (generate_component_docs E self results).
Proof.
  unfold generate_component_docs.
  apply (sends_bind 0 (List.length results)); [apply sends_mkdir | intros _].
  rewrite <- (Nat.mul_1_r (List.length results)).
  apply sends_for_each. intros [key record]. apply sends_component_doc.
Qed.

Lemma sends_api results :
  sends_at_most 1 (generate_api_documentation E self results).
Proof.
  unfold generate_api_documentation.
  apply (sends_bind 0 1); [apply sends_lift | intros files].
  destruct files as [| f files];
    [apply (sends_weaken 0); [lia | apply sends_ret] |].
  apply (sends_bind 0 1); [apply sends_lift | intros lines].
  apply (sends_bind 1 0); [apply sends_ask_llm | intros api_docs].
  apply sends_guarded_write.
Qed.

(** The steps of the pipeline after the analysis. *)
Lemma sends_assembly results (k : Dict.dict json -> M unit) :
  k = (fun analysis_results =>
         bind (generate_readme E self analysis_results)
           (fun readme_content =>
              bind (try_except
                      (write_text E (PyPath.child (root_path self) "README.md")
                                  readme_content)
                      (fun _ => ret tt))
                (fun _ =>
                   bind (generate_component_docs E self analysis_results)
                     (fun _ => generate_api_documentation E self
                                 analysis_results)))) ->
  sends_at_most (List.length results + 4) (k results).
Proof.
  intros ->. apply (sends_weaken (3 + (0 + (List.length results + 1)))); [lia |].
  apply sends_bind; [apply sends_readme | intros readme_content].
  apply sends_bind; [apply sends_guarded_write | intros _].
  apply sends_bind; [apply sends_component_docs | intros _].
  apply sends_api.
Qed.

Lemma set_length {A : Type} (k : string) (v : A) (d : Dict.dict A) :
  List.length (Dict.set k v d) <= S (List.length d).
Proof.
  induction d as [| [k' v'] d IH]; cbn; [lia |].
  destruct (String.eqb k k'); cbn; lia.
Qed.

(** Every completed task adds at most one entry. *)
Lemma collect_results_length cache completed :
  forall results w,
    List.length (match fst (collect_results E self cache completed results w)
                 with inr res => res | inl _ => [] end)
    <= List.length results + List.length completed.
Proof.
  induction completed as [| g rest IH]; intros results w.
  - cbn. lia.
  - rewrite DispatcherFacts.collect_results_step.
    eapply Nat.le_trans; [apply IH |]. cbn [List.length].
    unfold store. destruct (fst (analyze_file E self g cache w)); [lia |].
    destruct (rel_key self g); [| lia].
    pose proof (set_length s j results). lia.
Qed.

(** When the generation capability is out of order, the README cannot be
    made. *)
Lemma readme_outage e results w :
  outage E e ->
  exists e' w',
    generate_readme E self results w = (inl e', w')
    /\ written w' = written w /\ fs w' = fs w.
Proof.
  intros Hout. unfold generate_readme, generate_project_overview.
  unfold bind at 1. unfold bind at 1.
  destruct (file_summaries E results) as [e1 | summaries]; cbn [lift raise ret].
  - exists e1, w. repeat split.
  - unfold ask_llm. rewrite Hout. eexists. eexists.
    split; [reflexivity |]. split; reflexivity.
Qed.

End Sends.

End BoundFacts.

(** X10.  A whole run of [generate_all_documentation] over [n] scheduled
    files sends at most [2 n + 4] prompts: one for each file in the
    analysis, three for the README, one for each record in the component
    documents and one for the API documentation. *)
Theorem pipeline_prompts_are_bounded :
  forall (E : Py.Env) (self : Rag.CodebaseRAG)
         (schedule : list path -> list path) (w : Py.World),
    exists extra,
      Py.llm_log (snd (Rag.generate_all_documentation E self schedule w))
      = Py.llm_log w ++ extra
      /\ List.length extra
         <= 2 * List.length (schedule (Spec.scanned self w)) + 4.
Proof.
  intros E self schedule w.
  unfold Rag.generate_all_documentation. unfold Py.bind at 1.
  pose proof (RunFacts.collect_results_prompts E self
                (Spec.loaded_cache E self w)
                (schedule (Spec.scanned self w)) [] w)
    as [extra1 [Hlog1 [Hlen1 _]]].
  pose proof (BoundFacts.collect_results_length E self
                (Spec.loaded_cache E self w)
                (schedule (Spec.scanned self w)) [] w) as Hsize.
  rewrite (DispatcherFacts.analyze_codebase_parallel_unfold E self 4
             schedule w) by lia.
  destruct (Rag.collect_results E self (Spec.loaded_cache E self w)
              (schedule (Spec.scanned self w)) [] w) as [[e | results] w1];
    cbn [fst snd] in *.
  - exists extra1. split; [exact Hlog1 | lia].
  - destruct (SaveFacts.save_cache_effect E self (Json.JObj results) w1)
      as [w2 [Hsave [Hlog2 _]]].
    rewrite Hsave. cbn [snd].
    destruct (BoundFacts.sends_assembly E self results _ eq_refl w2)
      as [extra2 [Hlog3 Hlen3]].
    exists (extra1 ++ extra2). split.
    + rewrite Hlog3, Hlog2, Hlog1, app_assoc. reflexivity.
    + rewrite length_app. cbn [List.length] in Hsize. lia.
Qed.

(** X11.  When the generation capability is out of order,
    [generate_all_documentation] raises: the analysis tolerates the failure
    file by file, the README step does not.  By then no document is
    written: at most the cache file is. *)
Theorem outage_aborts_before_any_document :
  forall (E : Py.Env) (self : Rag.CodebaseRAG)
         (schedule : list path -> list path) (w : Py.World) (e : Json.exn),
    Notions.outage E e ->
    exists e' w',
      Rag.generate_all_documentation E self schedule w = (inl e', w')
      /\ (Py.written w' = Py.written w
          \/ Py.written w' = Py.written w ++ [Rag.cache_file self]).
Proof.
  intros E self schedule w e Hout.
  unfold Rag.generate_all_documentation. unfold Py.bind at 1.
  destruct (TotalFacts.analysis_run_total E self 4 schedule w ltac:(lia))
    as [results [w1 [Hrun Hwr]]].
  rewrite Hrun. unfold Py.bind at 1.
  destruct (BoundFacts.readme_outage E self e results w1 Hout)
    as [e' [w2 [Hreadme [Hwr2 _]]]].
  rewrite Hreadme. exists e', w2. split; [reflexivity |].
  rewrite Hwr2. exact Hwr.
Qed.

Lemma outage_aborts_before_any_document_witness :
  exists e' w',
    Rag.generate_all_documentation Notions.down_env Spec.app_self (fun l => l)
      (Spec.world_of Spec.ready_disk) = (inl e', w').
Proof.
  destruct (outage_aborts_before_any_document Notions.down_env Spec.app_self
              (fun l => l) (Spec.world_of Spec.ready_disk) Json.GenerationError)
    as [e' [w' [Hrun _]]].
  - intros log prompt. reflexivity.
  - exists e', w'. exact Hrun.
Defined.


(* ================================================================== *)
(** ** The keys of the result map *)

Module KeyFacts.
Import FS Spec Notions.

Lemma slash_free_app_slash x rest :
  slash_free (x ++ String "/" rest) = false.
Proof.
  induction x as [| c x IH]; [reflexivity |].
  cbn [String.append slash_free]. rewrite IH. apply andb_false_r.
Qed.

Lemma app_slash_inj x : forall y a b,
  slash_free x = true -> slash_free y = true ->
  (x ++ String "/" a)%string = (y ++ String "/" b)%string ->
  x = y /\ a = b.
Proof.
  induction x as [| c x IH]; intros y a b Hx Hy Heq.
  - destruct y as [| d y]; cbn in Heq.
    + injection Heq as ->. split; reflexivity.
    + injection Heq as <- _. cbn in Hy. discriminate.
  - destruct y as [| d y]; cbn in Heq.
    + injection Heq as -> _. cbn in Hx. discriminate.
    + injection Heq as -> Heq. cbn in Hx, Hy.
      apply andb_prop in Hx. apply andb_prop in Hy.
      destruct (IH y a b (proj2 Hx) (proj2 Hy) Heq) as [-> ->].
      split; reflexivity.
Qed.

(** Joining names without a slash loses nothing. *)
Lemma join_inj l1 : forall l2,
  l1 <> [] -> l2 <> [] ->
  Forall (fun s => slash_free s = true) l1 ->
  Forall (fun s => slash_free s = true) l2 ->
  PyStr.join "/" l1 = PyStr.join "/" l2 -> l1 = l2.
Proof.
  unfold PyStr.join.
  induction l1 as [| x l1 IH]; intros l2 Hne1 Hne2 H1 H2 Heq; [congruence |].
  destruct l2 as [| y l2]; [congruence |].
  inversion H1 as [| ? ? Hx H1']; subst. inversion H2 as [| ? ? Hy H2']; subst.
  destruct l1 as [| x2 l1], l2 as [| y2 l2]; cbn [String.concat] in Heq.
  - rewrite Heq. reflexivity.
  - exfalso. rewrite Heq in Hx. cbn [String.append] in Hx.
    rewrite slash_free_app_slash in Hx. discriminate.
  - exfalso. rewrite <- Heq in Hy. cbn [String.append] in Hy.
    rewrite slash_free_app_slash in Hy. discriminate.
  - cbn [String.append] in Heq.
    destruct (app_slash_inj _ _ _ _ Hx Hy Heq) as [-> Hrest].
    f_equal. apply IH; try assumption; discriminate.
Qed.

Lemma relative_to_app root rel : PyPath.relative_to root (root ++ rel) = Some rel.
Proof.
  induction root as [| r root IH]; [reflexivity |].
  cbn. rewrite String.eqb_refl. exact IH.
Qed.

Lemma flat_map_flat_map {A B C : Type} (f : B -> list C) (g : A -> list B) l :
  flat_map f (flat_map g l) = flat_map (fun x => flat_map f (g x)) l.
Proof.
  induction l as [| x l IH]; [reflexivity |].
  cbn. rewrite flat_map_app, IH. reflexivity.
Qed.

Lemma flat_map_ext_in {A B : Type} (f g : A -> list B) l :
  (forall x, In x l -> f x = g x) -> flat_map f l = flat_map g l.
Proof.
  induction l as [| x l IH]; intros H; [reflexivity |].
  cbn. rewrite (H x (or_introl eq_refl)), IH; [reflexivity |].
  intros y Hy. apply H. right. exact Hy.
Qed.

(** The scan of a directory: its own files, then the scans of the
    sub-directories that are kept. *)
Lemma scan_from_dir top entries :
  scan_from top (Dir entries)
  = Scanner.scan_dir top
      (map fst (filter (fun e => negb (is_dir (snd e))) entries))
    ++ flat_map
         (fun e =>
            if is_dir (snd e) && Scanner.keep_dir top (fst e)
            then scan_from (PyPath.child top (fst e)) (snd e)
            else [])
         entries.
Proof.
  unfold scan_from. cbn [os_walk flat_map fst snd]. f_equal.
  rewrite flat_map_flat_map. apply flat_map_ext_in. intros e _.
  destruct (is_dir (snd e) && Scanner.keep_dir top (fst e)); reflexivity.
Qed.

(** Every file of a scan lies below the top, along names without a slash. *)
Lemma scan_from_shape n :
  proper n = true ->
  forall top p,
    In p (scan_from top n) ->
    exists rel, p = top ++ rel /\ rel <> []
                /\ Forall (fun s => slash_free s = true) rel.
Proof.
  induction n as [content | entries IH] using node_rect'; intros Hn top p Hin.
  - destruct Hin.
  - rewrite scan_from_dir in Hin. cbn [proper] in Hn.
    apply andb_prop in Hn. destruct Hn as [Hn Hsub].
    apply andb_prop in Hn. destruct Hn as [_ Hnames].
    rewrite forallb_forall in Hnames, Hsub. rewrite Forall_forall in IH.
    apply in_app_or in Hin. destruct Hin as [Hin | Hin].
    + unfold Scanner.scan_dir in Hin. apply filter_In in Hin.
      destruct Hin as [Hin _]. apply in_map_iff in Hin.
      destruct Hin as [f [<- Hf]]. apply in_map_iff in Hf.
      destruct Hf as [e [<- He]]. apply filter_In in He.
      exists [fst e]. split; [reflexivity |]. split; [discriminate |].
      constructor; [apply Hnames; exact (proj1 He) | constructor].
    + apply in_flat_map in Hin. destruct Hin as [e [He Hin]].
      destruct (is_dir (snd e) && Scanner.keep_dir top (fst e)); [| destruct Hin].
      destruct (IH e He (Hsub e He) _ _ Hin) as [rel [-> [Hne Hall]]].
      exists (fst e :: rel). split.
      * unfold PyPath.child. rewrite <- app_assoc. reflexivity.
      * split; [discriminate |]. constructor; [apply Hnames; exact He | exact Hall].
Qed.

Lemma NoDup_map_filter {A B : Type} (f : A -> B) (g : A -> bool) l :
  NoDup (map f l) -> NoDup (map f (filter g l)).
Proof.
  induction l as [| x l IH]; intros Hnd; [constructor |].
  cbn in Hnd. inversion Hnd as [| ? ? Hnotin Hnd']; subst. cbn.
  destruct (g x); [| exact (IH Hnd')].
  cbn. constructor; [| exact (IH Hnd')].
  intros Hin. apply Hnotin. apply in_map_iff in Hin.
  destruct Hin as [y [Hy Hin]]. apply filter_In in Hin.
  rewrite <- Hy. apply in_map. exact (proj1 Hin).
Qed.

Lemma NoDup_map_inj_on {A B : Type} (f : A -> B) l :
  NoDup l ->
  (forall x y, In x l -> In y l -> f x = f y -> x = y) ->
  NoDup (map f l).
Proof.
  induction l as [| x l IH]; intros Hnd Hinj; [constructor |].
  inversion Hnd as [| ? ? Hnotin Hnd']; subst. cbn. constructor.
  - intros Hin. apply in_map_iff in Hin. destruct Hin as [y [Hy Hin]].
    apply Hnotin.
    rewrite (Hinj x y (or_introl eq_refl) (or_intror Hin) (eq_sym Hy)).
    exact Hin.
  - apply IH; [exact Hnd' |]. intros a b Ha Hb.
    apply Hinj; right; assumption.
Qed.

(** The scans of sub-directories with distinct names do not meet. *)
Lemma NoDup_subscans top (F : string * node -> list path) entries :
  NoDup (map fst entries) ->
  (forall e, In e entries -> NoDup (F e)) ->
  (forall e p, In e entries -> In p (F e) ->
               exists rel, p = top ++ fst e :: rel) ->
  NoDup (flat_map F entries).
Proof.
  induction entries as [| e entries IH]; intros Hnd Hsub Hshape; [constructor |].
  cbn in Hnd. inversion Hnd as [| ? ? Hnotin Hnd']; subst. cbn [flat_map].
  apply NoDup_app.
  - apply Hsub. left. reflexivity.
  - apply IH; [exact Hnd' | |].
    + intros e' He'. apply Hsub. right. exact He'.
    + intros e' p He'. apply Hshape. right. exact He'.
  - intros p Hp Hq. apply in_flat_map in Hq. destruct Hq as [e' [He' Hq]].
    destruct (Hshape e p (or_introl eq_refl) Hp) as [rel Heq].
    destruct (Hshape e' p (or_intror He') Hq) as [rel' Heq'].
    rewrite Heq in Heq'. apply app_inv_head in Heq'. injection Heq' as Hname _.
    apply Hnotin. rewrite Hname. apply in_map. exact He'.
Qed.

(** On a proper tree a scan yields no file twice. *)
Lemma scan_from_NoDup n :
  proper n = true -> forall top, NoDup (scan_from top n).
Proof.
  induction n as [content | entries IH] using node_rect'; intros Hn top.
  - constructor.
  - rewrite scan_from_dir. pose proof Hn as Hproper. cbn [proper] in Hn.
    apply andb_prop in Hn. destruct Hn as [Hn Hsub].
    apply andb_prop in Hn. destruct Hn as [Hdistinct _].
    apply JsonFacts.distinct_NoDup in Hdistinct.
    rewrite forallb_forall in Hsub. rewrite Forall_forall in IH.
    apply NoDup_app.
    + unfold Scanner.scan_dir. apply NoDup_filter.
      rewrite map_map. apply NoDup_map_inj_on.
      * apply (NoDup_map_inv fst). apply NoDup_map_filter. exact Hdistinct.
      * intros x y Hx Hy Heq. unfold PyPath.child in Heq.
        apply app_inv_head in Heq. injection Heq as Heq.
        apply filter_In in Hx, Hy.
        assert (Hfst : forall a b, In a entries -> In b entries ->
                                   fst a = fst b -> a = b).
        { clear - Hdistinct. induction entries as [| c entries IHe];
            intros a b Ha Hb Hab; [destruct Ha |].
          cbn in Hdistinct. inversion Hdistinct as [| ? ? Hnotin Hnd]; subst.
          destruct Ha as [<- | Ha], Hb as [<- | Hb].
          - reflexivity.
          - exfalso. apply Hnotin. rewrite Hab. apply in_map. exact Hb.
          - exfalso. apply Hnotin. rewrite <- Hab. apply in_map. exact Ha.
          - exact (IHe Hnd a b Ha Hb Hab). }
        exact (Hfst x y (proj1 Hx) (proj1 Hy) Heq).
    + apply (NoDup_subscans top); [exact Hdistinct | |].
      * intros e He.
        destruct (is_dir (snd e) && Scanner.keep_dir top (fst e));
          [| constructor].
        apply (IH e He (Hsub e He)).
      * intros e p He Hp.
        destruct (is_dir (snd e) && Scanner.keep_dir top (fst e));
          [| destruct Hp].
        destruct (scan_from_shape (snd e) (Hsub e He) _ _ Hp)
          as [rel [-> _]].
        exists rel. unfold PyPath.child. rewrite <- app_assoc. reflexivity.
    + intros p Hp Hq.
      unfold Scanner.scan_dir in Hp. apply filter_In in Hp.
      destruct Hp as [Hp _]. apply in_map_iff in Hp. destruct Hp as [f [<- _]].
      apply in_flat_map in Hq. destruct Hq as [e [He Hq]].
      destruct (is_dir (snd e) && Scanner.keep_dir top (fst e));
        [| destruct Hq].
      destruct (scan_from_shape (snd e) (Hsub e He) _ _ Hq)
        as [rel [Heq [Hne _]]].
      unfold PyPath.child in Heq. rewrite <- app_assoc in Heq.
      apply app_inv_head in Heq. cbn in Heq. injection Heq as _ Heq.
      apply Hne. symmetry. exact Heq.
Qed.

Lemma proper_lookup p : forall n m,
  proper n = true -> lookup p n = Some m -> proper m = true.
Proof.
  induction p as [| x p IH]; intros n m Hn Hlook.
  - cbn in Hlook. injection Hlook as <-. exact Hn.
  - destruct n as [c | entries]; [discriminate |]. cbn [lookup] in Hlook.
    destruct (Dict.get x entries) as [c |] eqn:Hget; [| discriminate].
    cbn [proper] in Hn. apply andb_prop in Hn. destruct Hn as [_ Hsub].
    rewrite forallb_forall in Hsub.
    exact (IH c m (Hsub (x, c) (DictFacts.get_In _ _ _ Hget)) Hlook).
Qed.

End KeyFacts.

(** X12.  On a disk where the names within a directory are distinct and
    no name contains a slash, the files [scan_codebase] yields have
    pairwise distinct relative paths: no two tasks of a run store their
    record under the same key. *)
Theorem scanned_files_have_distinct_keys :
  forall (self : Rag.CodebaseRAG) (fs : FS.node),
    Notions.proper fs = true ->
    NoDup (map (Spec.rel_key self)
               (Scanner.scan_codebase fs (Rag.root_path self))).
Proof.
  intros self fs Hfs. unfold Scanner.scan_codebase.
  destruct (FS.lookup (Rag.root_path self) fs) as [n |] eqn:Hlook;
    [| constructor].
  fold (Notions.scan_from (Rag.root_path self) n).
  pose proof (KeyFacts.proper_lookup _ _ _ Hfs Hlook) as Hn.
  apply KeyFacts.NoDup_map_inj_on; [apply KeyFacts.scan_from_NoDup; exact Hn |].
  intros x y Hx Hy Heq.
  destruct (KeyFacts.scan_from_shape n Hn _ _ Hx) as [rx [-> [Hnx Hax]]].
  destruct (KeyFacts.scan_from_shape n Hn _ _ Hy) as [ry [-> [Hny Hay]]].
  unfold Spec.rel_key in Heq. rewrite !KeyFacts.relative_to_app in Heq.
  cbn in Heq. injection Heq as Heq. f_equal.
  unfold PyPath.rel_str in Heq.
  destruct rx as [| a rx]; [congruence |].
  destruct ry as [| b ry]; [congruence |].
  apply KeyFacts.join_inj; assumption.
Qed.

Lemma scanned_files_have_distinct_keys_witness :
  NoDup (map (Spec.rel_key Spec.app_self)
             (Scanner.scan_codebase Spec.scenario_disk ["srv"; "app"])).
Proof.
  apply (scanned_files_have_distinct_keys Spec.app_self Spec.scenario_disk).
  reflexivity.
Defined.


(* ================================================================== *)
(** ** A second run over an unchanged project *)

Module RerunFacts.
Import Json Py Rag Spec Notions.

Lemma set_existing {A : Type} (k : string) (v v' : A) (d : Dict.dict A) :
  Dict.get k d = Some v ->
  exists l1 l2, d = l1 ++ (k, v) :: l2 /\ Dict.set k v' d = l1 ++ (k, v') :: l2.
Proof.
  induction d as [| [k0 v0] d IH]; intros Hget; [discriminate |].
  cbn in Hget |- *. destruct (String.eqb_spec k k0) as [-> | Hne].
  - injection Hget as ->. exists [], d. split; reflexivity.
  - destruct (IH Hget) as [l1 [l2 [-> ->]]].
    exists ((k0, v0) :: l1), l2. split; reflexivity.
Qed.

(** Replacing a directory the walk does not enter changes nothing of the
    walk. *)
Lemma os_walk_pruned keep top d c c' entries :
  keep top d = false ->
  Dict.get d entries = Some c ->
  FS.is_dir c' = FS.is_dir c ->
  FS.os_walk keep top (FS.Dir (Dict.set d c' entries))
  = FS.os_walk keep top (FS.Dir entries).
Proof.
  intros Hkeep Hget Hdir.
  destruct (set_existing d c c' entries Hget) as [l1 [l2 [-> ->]]].
  cbn [FS.os_walk]. rewrite !filter_app, !flat_map_app. cbn [filter flat_map fst snd].
  rewrite Hdir, Hkeep, !andb_false_r.
  destruct (FS.is_dir c); cbn [negb]; rewrite !map_app; reflexivity.
Qed.

Section WithEnv.

Variable E : Env.
Variable self : CodebaseRAG.

Hypothesis constructed : cache_dir self = PyPath.child (root_path self) ".rag_cache".

Lemma cache_file_path :
  cache_file self = root_path self ++ [".rag_cache"; "analysis_cache.json"].
Proof.
  unfold cache_file. rewrite constructed. unfold PyPath.child.
  rewrite <- app_assoc. reflexivity.
Qed.

(** A write of the cache file changes nothing of the scan. *)
Lemma scan_after_cache_write new disk disk' :
  FS.put (cache_file self) new disk = Some disk' ->
  Scanner.scan_codebase disk' (root_path self)
  = Scanner.scan_codebase disk (root_path self).
Proof.
  intros Hput. rewrite cache_file_path in Hput.
  destruct (PutFacts.lookup_put_prefix (root_path self)
              [".rag_cache"; "analysis_cache.json"] new ltac:(discriminate)
              _ _ Hput) as [m [m' [Hm [Hput' Hm']]]].
  unfold Scanner.scan_codebase. rewrite Hm, Hm'.
  destruct m as [content | entries]; [discriminate |].
  rewrite PutFacts.put_cons in Hput'.
  destruct (Dict.get ".rag_cache" entries) as [c |] eqn:Hget; [| discriminate].
  destruct c as [content | es]; [discriminate |].
  cbn in Hput'. injection Hput' as <-.
  rewrite (os_walk_pruned Scanner.keep_dir (root_path self) ".rag_cache"
             (FS.Dir es) _ entries); try reflexivity; [| exact Hget].
  unfold Scanner.keep_dir. rewrite ArtifactFacts.cache_dir_ignored. reflexivity.
Qed.

(** A scanned file lies below the root, outside the cache directory. *)
Lemma scanned_shape disk g :
  In g (Scanner.scan_codebase disk (root_path self)) ->
  exists x rest, g = root_path self ++ x :: rest /\ x <> ".rag_cache".
Proof.
  intros Hin.
  destruct (ScannerFacts.scanned_in_visited _ _ _ Hin)
    as [top [filename [Htop [-> [Hign _]]]]].
  destruct (ScannerFacts.visited_kept _ _ _ Htop) as [mid [-> Hchain]].
  destruct mid as [| x mid].
  - rewrite app_nil_r in *. exists filename, []. split; [reflexivity |].
    intros ->. rewrite ArtifactFacts.cache_dir_ignored in Hign. discriminate.
  - exists x, (mid ++ [filename]). split.
    + unfold PyPath.child. rewrite <- app_assoc. reflexivity.
    + intros ->.
      pose proof (ScannerFacts.kept_chain_not_ignored _ _ Hchain
                    [".rag_cache"] mid eq_refl ltac:(discriminate)) as Hkept.
      change (root_path self ++ [".rag_cache"])
        with (PyPath.child (root_path self) ".rag_cache") in Hkept.
      rewrite ArtifactFacts.cache_dir_ignored in Hkept. discriminate.
Qed.

Lemma scanned_key disk g :
  In g (Scanner.scan_codebase disk (root_path self)) ->
  exists rel, PyPath.relative_to (root_path self) g = Some rel.
Proof.
  intros Hin. destruct (scanned_shape disk g Hin) as [x [rest [-> _]]].
  eexists. apply KeyFacts.relative_to_app.
Qed.

(** A write of the cache file changes no scanned file. *)
Lemma scanned_lookup_frame new disk disk' g :
  FS.put (cache_file self) new disk = Some disk' ->
  In g (Scanner.scan_codebase disk (root_path self)) ->
  FS.lookup g disk' = FS.lookup g disk.
Proof.
  intros Hput Hin. rewrite cache_file_path in Hput.
  destruct (scanned_shape disk g Hin) as [x [rest [-> Hne]]].
  exact (PutFacts.lookup_put_diverge _ _ _ _ _ _ Hne _ _ Hput).
Qed.

Lemma read_bytes_lookup w1 w2 p :
  FS.lookup p (fs w1) = FS.lookup p (fs w2) ->
  fst (read_bytes E p w1) = fst (read_bytes E p w2).
Proof.
  intros Hlook. unfold read_bytes. rewrite Hlook.
  destruct (denied E p); [reflexivity |].
  destruct (FS.lookup p (fs w2)) as [[c | es] |]; reflexivity.
Qed.

Lemma fingerprint_lookup w1 w2 p :
  FS.lookup p (fs w1) = FS.lookup p (fs w2) ->
  fingerprint E w1 p = fingerprint E w2 p.
Proof.
  intros Hlook. unfold fingerprint.
  rewrite (read_bytes_lookup w1 w2 p Hlook). reflexivity.
Qed.

(** Every record [analyze_file] returns carries the fingerprint the file
    has at that time. *)
Lemma analyze_file_has_hash g cache w record :
  fst (analyze_file E self g cache w) = inr record ->
  has_hash record (fingerprint E w g).
Proof.
  rewrite AnalyzerFacts.analyze_file_unfold.
  destruct (PyPath.relative_to (root_path self) g) as [rel |]; [| discriminate].
  cbv zeta. unfold cache_hit.
  destruct (py_in (PyPath.rel_str rel) cache) as [e | [|]]; [discriminate | |].
  - destruct (py_getitem cache (PyPath.rel_str rel)) as [e | item];
      [discriminate |].
    destruct item as [| b | n | s | items | fields]; try discriminate.
    cbn [py_get]. destruct (Dict.get "hash" fields) as [h |] eqn:Hh.
    + destruct h as [| b | n | s | items | d]; cbn [eq_str]; try discriminate.
      * destruct (fst (read_bytes E g w)); cbn [fst];
          [intros [= <-] | destruct (generate E _ _); [discriminate | intros [= <-]]];
          eexists; split; reflexivity.
      * destruct (fst (read_bytes E g w)); cbn [fst];
          [intros [= <-] | destruct (generate E _ _); [discriminate | intros [= <-]]];
          eexists; split; reflexivity.
      * destruct (fst (read_bytes E g w)); cbn [fst];
          [intros [= <-] | destruct (generate E _ _); [discriminate | intros [= <-]]];
          eexists; split; reflexivity.
      * destruct (String.eqb_spec s (fingerprint E w g)) as [-> | Hne].
        -- cbn [fst]. intros [= <-]. exists fields. split; [reflexivity | exact Hh].
        -- destruct (fst (read_bytes E g w)); cbn [fst];
             [intros [= <-] | destruct (generate E _ _); [discriminate | intros [= <-]]];
             eexists; split; reflexivity.
      * destruct (fst (read_bytes E g w)); cbn [fst];
          [intros [= <-] | destruct (generate E _ _); [discriminate | intros [= <-]]];
          eexists; split; reflexivity.
      * destruct (fst (read_bytes E g w)); cbn [fst];
          [intros [= <-] | destruct (generate E _ _); [discriminate | intros [= <-]]];
          eexists; split; reflexivity.
    + cbn [eq_str].
      destruct (fst (read_bytes E g w)); cbn [fst];
        [intros [= <-] | destruct (generate E _ _); [discriminate | intros [= <-]]];
        eexists; split; reflexivity.
  - destruct (fst (read_bytes E g w)); cbn [fst];
      [intros [= <-] | destruct (generate E _ _); [discriminate | intros [= <-]]];
      eexists; split; reflexivity.
Qed.

(** The records of a run carry the fingerprints of their files. *)
Lemma collect_results_hashes (files : list path) cache completed :
  NoDup (map (rel_key self) files) ->
  incl completed files ->
  forall results w res w',
    (forall g key record,
        In g files -> rel_key self g = Some key ->
        Dict.get key results = Some record ->
        has_hash record (fingerprint E w g)) ->
    collect_results E self cache completed results w = (inr res, w') ->
    forall g key record,
      In g files -> rel_key self g = Some key ->
      Dict.get key res = Some record ->
      has_hash record (fingerprint E w g).
Proof.
  intros Hnd. induction completed as [| g0 rest IH];
    intros Hincl results w res w' Hgood Hrun g key record Hg Hkey Hget.
  - cbn in Hrun. injection Hrun as <- _. exact (Hgood g key record Hg Hkey Hget).
  - rewrite DispatcherFacts.collect_results_step in Hrun.
    destruct (AnalyzerFacts.analyze_file_frame E self g0 cache w) as [Hfs _].
    rewrite <- (AnalyzerFacts.fingerprint_fs E _ _ g Hfs).
    assert (Hgood' : forall h k r,
               In h files -> rel_key self h = Some k ->
               Dict.get k (store self results g0
                             (fst (analyze_file E self g0 cache w))) = Some r ->
               has_hash r (fingerprint E
                             (snd (analyze_file E self g0 cache w)) h)).
    { intros h k r Hh Hk Hr.
      rewrite (AnalyzerFacts.fingerprint_fs E _ _ h Hfs).
      unfold store in Hr.
      destruct (fst (analyze_file E self g0 cache w)) as [e | rec0] eqn:Hout;
        [exact (Hgood h k r Hh Hk Hr) |].
      destruct (rel_key self g0) as [k0 |] eqn:Hk0;
        [| exact (Hgood h k r Hh Hk Hr)].
      destruct (String.eqb_spec k k0) as [-> | Hne].
      - rewrite DictFacts.get_set_same in Hr. injection Hr as <-.
        assert (h = g0) as ->.
        { apply (DispatcherFacts.NoDup_map_injective _ _ Hnd);
            [exact Hh | apply Hincl; left; reflexivity | congruence]. }
        exact (analyze_file_has_hash g0 cache w rec0 Hout).
      - rewrite DictFacts.get_set_other in Hr by exact Hne.
        exact (Hgood h k r Hh Hk Hr). }
    exact (IH (fun x Hx => Hincl x (or_intror Hx)) _ _ _ _ Hgood' Hrun
              g key record Hg Hkey Hget).
Qed.

(** On a disk where the cache file can be written, [save_cache] puts the
    encoding of the data there. *)
Lemma save_cache_put data w :
  writable E self w ->
  exists disk',
    FS.put (cache_file self) (FS.File (dumps data)) (fs w) = Some disk'
    /\ save_cache E self data w
       = (inr tt, {| fs := disk'; llm_log := llm_log w;
                     written := written w ++ [cache_file self] |}).
Proof.
  intros [[entries [Hdir Hfile]] Hperm].
  unfold save_cache, try_except, write_text. rewrite Hperm.
  assert (Hlook : FS.lookup (cache_file self) (fs w)
                  = Dict.get "analysis_cache.json" entries).
  { unfold cache_file, PyPath.child. rewrite FSFacts.lookup_app, Hdir. cbn.
    destruct (Dict.get "analysis_cache.json" entries); reflexivity. }
  destruct (FSFacts.put_child (cache_dir self) "analysis_cache.json"
              (FS.File (dumps data)) _ _ Hdir) as [n' [Hput _]].
  fold (cache_file self) in Hput.
  rewrite Hlook. exists n'. split; [exact Hput |].
  destruct (Dict.get "analysis_cache.json" entries) as [[c | es] |] eqn:Hget;
    [| exfalso; exact (Hfile es eq_refl) |]; rewrite Hput; reflexivity.
Qed.

(** The second run: a file whose record the cache holds with the
    fingerprint the file has is answered from the cache, without a
    prompt. *)
Lemma collect_results_rerun (files : list path) members disk completed :
  incl completed files ->
  (forall g key record,
      In g files -> rel_key self g = Some key ->
      Dict.get key members = Some record ->
      exists w0, fs w0 = disk /\ has_hash record (fingerprint E w0 g)) ->
  (forall g, In g files -> exists rel,
        PyPath.relative_to (root_path self) g = Some rel) ->
  forall results w,
    fs w = disk ->
    exists extra,
      llm_log (snd (collect_results E self (JObj members) completed results w))
      = llm_log w ++ extra
      /\ Forall (fun prompt =>
                   exists g key,
                     In g files /\ rel_key self g = Some key
                     /\ Dict.get key members = None
                     /\ reads self disk [g] prompt) extra.
Proof.
  intros Hincl Hgood Hrel. revert Hincl.
  induction completed as [| g rest IH]; intros Hincl results w Hdisk.
  - exists []. cbn. rewrite app_nil_r. split; [reflexivity | constructor].
  - rewrite DispatcherFacts.collect_results_step.
    destruct (AnalyzerFacts.analyze_file_frame E self g (JObj members) w)
      as [Hfs _].
    destruct (IH (fun x Hx => Hincl x (or_intror Hx))
                 (store self results g
                    (fst (analyze_file E self g (JObj members) w)))
                 (snd (analyze_file E self g (JObj members) w))
                 ltac:(congruence))
      as [extra [Hlog Hall]].
    assert (Hg : In g files) by (apply Hincl; left; reflexivity).
    destruct (Hrel g Hg) as [rel Hr].
    destruct (Dict.get (PyPath.rel_str rel) members) as [record |] eqn:Hget.
    + destruct (Hgood g (PyPath.rel_str rel) record Hg
                  ltac:(unfold rel_key; rewrite Hr; reflexivity) Hget)
        as [w0 [Hw0 [fields [-> Hhash]]]].
      rewrite (AnalyzerFacts.fingerprint_fs E w0 w g ltac:(congruence)) in Hhash.
      rewrite (AnalyzerFacts.stored_fingerprint_hits E self g rel w members
                 fields Hr Hget Hhash) in Hlog |- *.
      exists extra. split; [exact Hlog | exact Hall].
    + destruct (RunFacts.analyze_file_prompts E self g (JObj members) w)
        as [Hsame | [prompt [Hone Hreads]]].
      * exists extra. rewrite Hlog, Hsame. split; [reflexivity | exact Hall].
      * exists (prompt :: extra). rewrite Hlog, Hone, <- app_assoc.
        split; [reflexivity |]. constructor; [| exact Hall].
        exists g, (PyPath.rel_str rel). rewrite <- Hdisk.
        repeat split; try assumption.
        unfold rel_key. rewrite Hr. reflexivity.
Qed.

End WithEnv.

End RerunFacts.

(** X13.  A second run over an unchanged project reuses the first: on a
    disk where the cache file can be written and the scanned files have
    distinct relative paths, every record the first run returned is
    returned by the second run as it is, whatever the orders in which the
    thread pools complete, and every prompt the second run sends is the
    analysis prompt of a file for which the first run returned no record. *)
Theorem second_run_reuses_the_records :
  forall (E : Py.Env) (self : Rag.CodebaseRAG) (workers1 workers2 : Z)
         (schedule1 schedule2 : list path -> list path)
         (w w1 : Py.World) (results : Dict.dict Json.json),
    Rag.cache_dir self = PyPath.child (Rag.root_path self) ".rag_cache" ->
    (0 < workers1)%Z -> (0 < workers2)%Z ->
    Spec.writable E self w ->
    NoDup (map (Spec.rel_key self) (Spec.scanned self w)) ->
    Permutation (schedule1 (Spec.scanned self w)) (Spec.scanned self w) ->
    Permutation (schedule2 (Spec.scanned self w)) (Spec.scanned self w) ->
    Rag.analyze_codebase_parallel E self workers1 schedule1 w
    = (inr results, w1) ->
    exists results' w2 extra,
      Rag.analyze_codebase_parallel E self workers2 schedule2 w1
      = (inr results', w2)
      /\ (forall key record,
             Dict.get key results = Some record ->
             Dict.get key results' = Some record)
      /\ Py.llm_log w2 = Py.llm_log w1 ++ extra
      /\ Forall (fun prompt =>
                   exists g key,
                     In g (Spec.scanned self w)
                     /\ Spec.rel_key self g = Some key
                     /\ Dict.get key results = None
                     /\ Notions.reads self (Py.fs w) [g] prompt) extra.
Proof.
  intros E self workers1 workers2 schedule1 schedule2 w w1 results
         Hcache Hpos1 Hpos2 Hwritable Hnd Hperm1 Hperm2 Hrun1.
  (* the first run *)
  rewrite (DispatcherFacts.analyze_codebase_parallel_unfold E self workers1
             schedule1 w Hpos1) in Hrun1.
  destruct (DispatcherFacts.collect_results_total E self
              (Spec.loaded_cache E self w) (schedule1 (Spec.scanned self w))
              [] w) as [res [wc [Hcollect1 [Hfs1 _]]]].
  rewrite Hcollect1 in Hrun1. injection Hrun1 as -> Hw1.
  assert (Hwritable' : Spec.writable E self wc).
  { unfold Spec.writable in *. rewrite Hfs1. exact Hwritable. }
  destruct (RerunFacts.save_cache_put E self (Json.JObj results) wc Hwritable')
    as [disk' [Hput Hsave]].
  rewrite Hsave in Hw1. cbn [snd] in Hw1.
  rewrite Hfs1 in Hput.
  assert (Hdisk1 : Py.fs w1 = disk') by (rewrite <- Hw1; reflexivity).
  assert (Hlog1 : Py.llm_log w1 = Py.llm_log wc) by (rewrite <- Hw1; reflexivity).
  assert (Hwf : Spec.well_formed (Json.JObj results) = true).
  { exact (CacheFacts.collect_results_well_formed E self _ _
             (CacheFacts.loaded_cache_well_formed E self w) [] _ _ _
             eq_refl Hcollect1). }
  assert (Hscan : Spec.scanned self w1 = Spec.scanned self w).
  { unfold Spec.scanned. rewrite Hdisk1.
    exact (RerunFacts.scan_after_cache_write self Hcache _ _ _ Hput). }
  assert (Hloaded : Spec.loaded_cache E self w1 = Json.JObj results).
  { apply CacheFacts.loaded_cache_of_dump.
    - rewrite Hdisk1. exact (PutFacts.lookup_put_same _ _ _ _ Hput).
    - exact (proj2 Hwritable).
    - exact Hwf. }
  assert (Hframe : forall g, In g (Spec.scanned self w) ->
                             FS.lookup g (Py.fs w1) = FS.lookup g (Py.fs w)).
  { intros g Hg. rewrite Hdisk1.
    exact (RerunFacts.scanned_lookup_frame self Hcache _ _ _ g Hput Hg). }
  assert (Hhash : forall g key record,
             In g (Spec.scanned self w) -> Spec.rel_key self g = Some key ->
             Dict.get key results = Some record ->
             Notions.has_hash record (Spec.fingerprint E w1 g)).
  { intros g key record Hg Hkey Hget.
    rewrite (RerunFacts.fingerprint_lookup E w1 w g (Hframe g Hg)).
    apply (RerunFacts.collect_results_hashes E self (Spec.scanned self w)
             (Spec.loaded_cache E self w) (schedule1 (Spec.scanned self w))
             Hnd) with (results := []) (w' := wc) (res := results) (key := key);
      try assumption.
    - intros x Hx. exact (Permutation_in _ Hperm1 Hx).
    - intros ? ? ? _ _ Hnone. discriminate. }
  (* the second run *)
  rewrite (DispatcherFacts.analyze_codebase_parallel_unfold E self workers2
             schedule2 w1 Hpos2).
  rewrite Hloaded, Hscan.
  destruct (DispatcherFacts.collect_results_total E self (Json.JObj results)
              (schedule2 (Spec.scanned self w)) [] w1)
    as [results' [w2c [Hcollect2 _]]].
  destruct (RerunFacts.collect_results_rerun E self (Spec.scanned self w)
              results (Py.fs w1) (schedule2 (Spec.scanned self w))
              (fun x Hx => Permutation_in _ Hperm2 Hx)
              (fun g key record Hg Hkey Hget =>
                 ex_intro _ w1 (conj eq_refl (Hhash g key record Hg Hkey Hget)))
              (fun g Hg => RerunFacts.scanned_key self _ g Hg)
              [] w1 eq_refl) as [extra [Hlog2 Hall]].
  rewrite Hcollect2 in Hlog2 |- *. cbn [snd] in Hlog2.
  destruct (SaveFacts.save_cache_effect E self (Json.JObj results') w2c)
    as [w2 [Hsave2 [Hlog3 _]]].
  rewrite Hsave2. cbn [snd].
  exists results', w2, extra. split; [reflexivity |]. split; [| split].
  - intros key record Hget.
    assert (Hin : In key (Dict.keys results)).
    { unfold Dict.keys. apply in_map_iff. exists (key, record).
      split; [reflexivity | exact (DictFacts.get_In _ _ _ Hget)]. }
    destruct (DispatcherFacts.collect_results_keys E self _ _ _ _ _ _ key
                Hcollect1 Hin) as [[] | [g [Hg Hkey]]].
    pose proof (Permutation_in _ Hperm1 Hg) as Hscanned.
    apply (DispatcherFacts.collect_results_stored E self (Json.JObj results)
             key record (schedule2 (Spec.scanned self w)) [] w1 results' w2c
             Hcollect2).
    + intros g' Hg' Hkey' w' Hw'.
      pose proof (Permutation_in _ Hperm2 Hg') as Hscanned'.
      destruct (Hhash g' key record Hscanned' Hkey' Hget)
        as [fields [-> Hfield]].
      unfold Spec.rel_key in Hkey'.
      destruct (PyPath.relative_to (Rag.root_path self) g') as [rel |] eqn:Hrel;
        [| discriminate].
      cbn in Hkey'. injection Hkey' as <-.
      rewrite (AnalyzerFacts.fingerprint_fs E w1 w' g' (eq_sym Hw')) in Hfield.
      rewrite (AnalyzerFacts.stored_fingerprint_hits E self g' rel w' results
                 fields Hrel Hget Hfield).
      reflexivity.
    + right. exists g. split; [| exact Hkey].
      exact (Permutation_in _ (Permutation_sym Hperm2) Hscanned).
  - rewrite Hlog3. exact Hlog2.
  - eapply Forall_impl; [| exact Hall].
    intros prompt [g [key [Hg [Hkey [Hnone Hreads]]]]].
    exists g, key. repeat split; try assumption.
    destruct Hreads as [g0 [rel [bytes [Hin [Hrel [Hlook ->]]]]]].
    exists g0, rel, bytes. repeat split; try assumption.
    destruct Hin as [<- | []]. rewrite <- (Hframe g Hg). exact Hlook.
Qed.

(** X13 on the project [/srv/app]: the second run returns both records and
    sends no prompt. *)
Lemma second_run_reuses_the_records_witness :
  exists results' w2 extra,
    Rag.analyze_codebase_parallel Spec.stub_env Spec.app_self 4 (@rev path)
      (snd (Rag.analyze_codebase_parallel Spec.stub_env Spec.app_self 4
              (fun l => l) (Spec.world_of Spec.ready_disk)))
    = (inr results', w2)
    /\ Dict.get "a.py" results'
       = Some (Rag.analysis_record "md5:def f(): pass" "a.py" "def f(): pass"
                 "A summary.")
    /\ Py.llm_log w2
       = Py.llm_log
           (snd (Rag.analyze_codebase_parallel Spec.stub_env Spec.app_self 4
                   (fun l => l) (Spec.world_of Spec.ready_disk))) ++ extra
    /\ extra = [].
Proof.
  destruct (second_run_reuses_the_records Spec.stub_env Spec.app_self 4 4
              (fun l => l) (@rev path) (Spec.world_of Spec.ready_disk)
              (snd (Rag.analyze_codebase_parallel Spec.stub_env Spec.app_self 4
                      (fun l => l) (Spec.world_of Spec.ready_disk)))
              [("a.py", Rag.analysis_record "md5:def f(): pass" "a.py"
                          "def f(): pass" "A summary.");
               ("b.py", Rag.analysis_record "md5:x = 1" "b.py" "x = 1"
                          "A summary.")])
    as [results' [w2 [extra [Hrun [Hsame [Hlog Hall]]]]]].
  - reflexivity.
  - lia.
  - lia.
  - split; [| reflexivity]. exists []. split; [reflexivity |]. intros es H.
    discriminate.
  - vm_compute. repeat constructor; intros H; cbn in H; intuition discriminate.
  - apply Permutation_refl.
  - apply Permutation_sym, Permutation_rev.
  - vm_compute. reflexivity.
  - exists results', w2, extra. split; [exact Hrun |].
    split; [apply Hsame; reflexivity |]. split; [exact Hlog |].
    destruct extra as [| prompt extra]; [reflexivity |].
    inversion Hall as [| ? ? [g [key [Hg [Hkey [Hnone _]]]]] _]; subst.
    vm_compute in Hg. destruct Hg as [<- | [<- | []]];
      vm_compute in Hkey; injection Hkey as <-; discriminate.
Defined.


(* ================================================================== *)
(** ** The worker of the window *)

Module GuiFacts.
Import Json Py Rag Spec Notions.

Section WithEnv.

Variable E : Env.
Variable self : CodebaseRAG.
Variable cache : json.
Variable is_running : nat -> bool.

(** One turn of the loop of the worker while the flag is set. *)
Lemma analysis_loop_step g rest checks results w :
  is_running checks = true ->
  Gui.analysis_loop E self (root_path self) cache is_running (g :: rest)
    checks results w
  = match analyze_file E self g cache w with
    | (inr record, w1) =>
        match rel_key self g with
        | Some key =>
            Gui.analysis_loop E self (root_path self) cache is_running rest
              (S checks) (Dict.set key record results) w1
        | None => (inl ValueError, w1)
        end
    | (inl e, w1) => (inl e, w1)
    end.
Proof.
  intros Hrun. cbn [Gui.analysis_loop]. rewrite Hrun.
  unfold bind at 1.
  destruct (analyze_file E self g cache w) as [[e | record] w1]; [reflexivity |].
  unfold rel_key, bind.
  destruct (PyPath.relative_to (root_path self) g); reflexivity.
Qed.

(** The loop touches neither the disk nor the list of written files. *)
Lemma analysis_loop_frame files :
  forall checks results w,
    fs (snd (Gui.analysis_loop E self (root_path self) cache is_running files
               checks results w)) = fs w
    /\ written (snd (Gui.analysis_loop E self (root_path self) cache
                       is_running files checks results w)) = written w.
Proof.
  induction files as [| g rest IH]; intros checks results w.
  - split; reflexivity.
  - destruct (is_running checks) eqn:Hrun.
    + rewrite (analysis_loop_step g rest checks results w Hrun).
      destruct (AnalyzerFacts.analyze_file_frame E self g cache w)
        as [Hfs Hwr].
      destruct (analyze_file E self g cache w) as [[e | record] w1];
        cbn [snd] in *; [split; assumption |].
      destruct (rel_key self g) as [key |]; [| split; assumption].
      destruct (IH (S checks) (Dict.set key record results) w1) as [Hfs' Hwr'].
      split; congruence.
    + cbn [Gui.analysis_loop]. rewrite Hrun. split; reflexivity.
Qed.

(** When the loop of the worker runs to its end, it has computed what the
    loop of the dispatcher computes for the tasks completed in the order of
    the scan. *)
Lemma analysis_loop_collect files :
  never_stopped is_running ->
  forall checks results w looked res w',
    Gui.analysis_loop E self (root_path self) cache is_running files checks
      results w = (inr (looked, res), w') ->
    collect_results E self cache files results w = (inr res, w').
Proof.
  intros Hnever. induction files as [| g rest IH];
    intros checks results w looked res w' Hloop.
  - cbn in Hloop |- *. injection Hloop as _ <- <-. reflexivity.
  - rewrite (analysis_loop_step g rest checks results w (Hnever checks)) in Hloop.
    rewrite DispatcherFacts.collect_results_step. unfold store.
    destruct (analyze_file E self g cache w) as [[e | record] w1];
      [discriminate |].
    cbn [fst snd]. destruct (rel_key self g) as [key |]; [| discriminate].
    exact (IH _ _ _ _ _ _ Hloop).
Qed.

(** A task that raises makes the loop of the worker raise. *)
Lemma analysis_loop_raises files g e :
  never_stopped is_running ->
  In g files ->
  forall checks results w,
    always E self cache (fs w) g (inl e) ->
    exists e' w',
      Gui.analysis_loop E self (root_path self) cache is_running files checks
        results w = (inl e', w').
Proof.
  intros Hnever. induction files as [| f rest IH];
    intros Hin checks results w Halways; [destruct Hin |].
  rewrite (analysis_loop_step f rest checks results w (Hnever checks)).
  destruct (AnalyzerFacts.analyze_file_frame E self f cache w) as [Hfs _].
  pose proof (Halways w eq_refl) as Hg.
  destruct (analyze_file E self f cache w) as [[e1 | record] w1] eqn:Hrun;
    [eexists; eexists; reflexivity |].
  destruct (rel_key self f) as [key |]; [| eexists; eexists; reflexivity].
  destruct Hin as [-> | Hin].
  - rewrite Hrun in Hg. discriminate.
  - apply (IH Hin). cbn [snd] in Hfs. rewrite Hfs. exact Halways.
Qed.

(** Once the flag is cleared at or before the end of the loop, the loop
    raises or returns with the flag cleared; either way it has sent at most
    one prompt for each file it got to. *)
Lemma analysis_loop_stopped files k :
  stays_stopped is_running ->
  is_running k = false ->
  forall checks results w,
    checks <= k <= checks + List.length files ->
    (exists e w',
        Gui.analysis_loop E self (root_path self) cache is_running files
          checks results w = (inl e, w')
        /\ exists extra, llm_log w' = llm_log w ++ extra
                         /\ List.length extra <= k - checks)
    \/ (exists looked res w',
           Gui.analysis_loop E self (root_path self) cache is_running files
             checks results w = (inr (looked, res), w')
           /\ is_running looked = false
           /\ exists extra, llm_log w' = llm_log w ++ extra
                            /\ List.length extra <= k - checks).
Proof.
  intros Hstays Hk. induction files as [| g rest IH];
    intros checks results w Hrange.
  - cbn [List.length] in Hrange. assert (k = checks) as -> by lia.
    right. exists checks, results, w. split; [reflexivity |].
    split; [exact Hk |]. exists []. rewrite app_nil_r. split; [reflexivity | cbn; lia].
  - destruct (is_running checks) eqn:Hrun.
    + assert (Hne : k <> checks) by (intros ->; congruence).
      cbn [List.length] in Hrange.
      rewrite (analysis_loop_step g rest checks results w Hrun).
      destruct (RunFacts.analyze_file_prompts E self g cache w)
        as [Hsame | [prompt [Hone _]]].
      * destruct (analyze_file E self g cache w) as [[e | record] w1];
          cbn [snd] in *.
        -- left. exists e, w1. split; [reflexivity |].
           exists []. rewrite app_nil_r. split; [exact Hsame | cbn; lia].
        -- destruct (rel_key self g) as [key |].
           ++ destruct (IH (S checks) (Dict.set key record results) w1
                          ltac:(lia))
                as [[e [w' [Hloop [extra [Hlog Hlen]]]]]
                   | [looked [res [w' [Hloop [Hoff [extra [Hlog Hlen]]]]]]]].
              ** left. exists e, w'. split; [exact Hloop |].
                 exists extra. rewrite Hlog, Hsame. split; [reflexivity | lia].
              ** right. exists looked, res, w'. split; [exact Hloop |].
                 split; [exact Hoff |].
                 exists extra. rewrite Hlog, Hsame. split; [reflexivity | lia].
           ++ left. exists ValueError, w1. split; [reflexivity |].
              exists []. rewrite app_nil_r. split; [exact Hsame | cbn; lia].
      * destruct (analyze_file E self g cache w) as [[e | record] w1];
          cbn [snd] in *.
        -- left. exists e, w1. split; [reflexivity |].
           exists [prompt]. split; [exact Hone | cbn; lia].
        -- destruct (rel_key self g) as [key |].
           ++ destruct (IH (S checks) (Dict.set key record results) w1
                          ltac:(lia))
                as [[e [w' [Hloop [extra [Hlog Hlen]]]]]
                   | [looked [res [w' [Hloop [Hoff [extra [Hlog Hlen]]]]]]]].
              ** left. exists e, w'. split; [exact Hloop |].
                 exists (prompt :: extra). rewrite Hlog, Hone, <- app_assoc.
                 split; [reflexivity | cbn; lia].
              ** right. exists looked, res, w'. split; [exact Hloop |].
                 split; [exact Hoff |].
                 exists (prompt :: extra). rewrite Hlog, Hone, <- app_assoc.
                 split; [reflexivity | cbn; lia].
           ++ left. exists ValueError, w1. split; [reflexivity |].
              exists [prompt]. split; [exact Hone | cbn; lia].
    + right. cbn [Gui.analysis_loop]. rewrite Hrun.
      exists (S checks), results, w. split; [reflexivity |].
      split; [exact (Hstays checks (S checks) ltac:(lia) Hrun) |].
      exists []. rewrite app_nil_r. split; [reflexivity | cbn; lia].
Qed.

End WithEnv.

(** What the constructor returns and leaves. *)
Lemma init_run E project w self w0 :
  __init__ E project w = (inr self, w0) ->
  self = {| root_path := project;
            cache_dir := PyPath.child project ".rag_cache" |}
  /\ llm_log w0 = llm_log w /\ written w0 = written w.
Proof.
  unfold __init__, bind, mkdir_exist_ok, ret. cbn [cache_dir].
  destruct (FS.lookup (PyPath.child project ".rag_cache") (fs w))
    as [[c | es] |].
  - discriminate.
  - intros [= <- <-]. repeat split.
  - destruct (denied E (PyPath.child project ".rag_cache")); [discriminate |].
    destruct (FS.put (PyPath.child project ".rag_cache") (FS.Dir []) (fs w));
      [| discriminate].
    intros [= <- <-]. repeat split.
Qed.

(** The worker, once the constructor has returned. *)
Lemma worker_after_init E project options is_running w self w0 :
  __init__ E project w = (inr self, w0) ->
  Gui.generation_worker E project options is_running w
  = match Gui.analysis_loop E self (root_path self)
            (gui_cache E self options w0) is_running (scanned self w0) 0 [] w0
    with
    | (inl e, w1) => (inr Gui.Error, w1)
    | (inr looked, w1) =>
        if is_running (fst looked) then
          try_except
            (bind (save_cache E self (JObj (snd looked)))
               (fun _ =>
                  bind (if Gui.generate_readme options
                        then Gui.readme_step E self project (snd looked)
                        else ret tt)
                    (fun _ =>
                       bind (if Gui.generate_components options
                             then generate_component_docs E self (snd looked)
                             else ret tt)
                         (fun _ =>
                            bind (if Gui.generate_api options
                                  then Gui.api_step E project (snd looked)
                                  else ret tt)
                              (fun _ => ret Gui.Completed)))))
            (fun _ => ret Gui.Error) w1
        else (inr Gui.Stopped, w1)
    end.
Proof.
  intros Hinit. destruct (init_run E project w self w0 Hinit) as [Hself _].
  unfold Gui.generation_worker. unfold try_except at 1. unfold bind at 1.
  rewrite Hinit. unfold bind at 1. unfold scan_codebase at 1.
  unfold bind at 1.
  assert (Hcache : (if Gui.use_cache options then load_cache E self
                    else ret (JObj [])) w0
                   = (inr (gui_cache E self options w0), w0)).
  { unfold gui_cache. destruct (Gui.use_cache options);
      [apply DispatcherFacts.load_cache_run | reflexivity]. }
  rewrite Hcache. unfold bind at 1. fold (scanned self w0).
  assert (Hroot : project = root_path self) by (rewrite Hself; reflexivity).
  rewrite Hroot at 1.
  destruct (Gui.analysis_loop E self (root_path self)
              (gui_cache E self options w0) is_running (scanned self w0) 0 []
              w0) as [[e | looked] w1]; [reflexivity |].
  destruct (is_running (fst looked)); [| reflexivity].
  unfold try_except. reflexivity.
Qed.

End GuiFacts.

(** X14.  When the stop button is never pressed and a run of the worker
    that only analyses (cache on, no document ticked) ends with the status
    [Completed], it has left the world [analyze_codebase_parallel] leaves
    when its tasks complete in the order of the scan: the same prompts, the
    same cache file. *)
Theorem window_analysis_agrees_with_dispatcher :
  forall (E : Py.Env) (project : path) (is_running : nat -> bool)
         (w w0 w' : Py.World) (self : Rag.CodebaseRAG),
    Notions.never_stopped is_running ->
    Rag.__init__ E project w = (inr self, w0) ->
    Gui.generation_worker E project Notions.analysis_only is_running w
    = (inr Gui.Completed, w') ->
    exists results,
      Rag.analyze_codebase_parallel E self 4 (fun files => files) w0
      = (inr results, w').
Proof.
  intros E project is_running w w0 w' self Hnever Hinit Hrun.
  rewrite (GuiFacts.worker_after_init E project _ is_running w self w0 Hinit)
    in Hrun.
  rewrite (DispatcherFacts.analyze_codebase_parallel_unfold E self 4
             (fun files => files) w0) by lia.
  change (Notions.gui_cache E self Notions.analysis_only w0)
    with (Spec.loaded_cache E self w0) in Hrun.
  destruct (Gui.analysis_loop E self (Rag.root_path self)
              (Spec.loaded_cache E self w0) is_running
              (Spec.scanned self w0) 0 [] w0)
    as [[e | [looked res]] w1] eqn:Hloop; [discriminate |].
  rewrite (GuiFacts.analysis_loop_collect E self _ is_running _ Hnever
             _ _ _ _ _ _ Hloop).
  cbn [fst snd] in Hrun. rewrite (Hnever looked) in Hrun.
  unfold Py.try_except, Py.bind in Hrun. cbn [Notions.analysis_only
    Gui.generate_readme Gui.generate_components Gui.generate_api] in Hrun.
  destruct (SaveFacts.save_cache_effect E self (Json.JObj res) w1)
    as [w2 [Hsave _]].
  rewrite Hsave in Hrun |- *. cbn in Hrun. injection Hrun as <-.
  exists res. reflexivity.
Qed.

Lemma window_analysis_agrees_with_dispatcher_witness :
  exists results,
    Rag.analyze_codebase_parallel Spec.stub_env Spec.app_self 4
      (fun files => files) (Spec.world_of Spec.ready_disk)
    = (inr results,
       snd (Gui.generation_worker Spec.stub_env Spec.app_root
              Notions.analysis_only (fun _ => true)
              (Spec.world_of Spec.app_disk))).
Proof.
  apply (window_analysis_agrees_with_dispatcher Spec.stub_env Spec.app_root
           (fun _ => true) (Spec.world_of Spec.app_disk)).
  - intros i. reflexivity.
  - reflexivity.
  - vm_compute. reflexivity.
Defined.

(** X15.  The worker does not tolerate a failed analysis as the dispatcher
    does: when the stop button is never pressed and the analysis of some
    scanned file raises, the run ends with the status [Error], the cache is
    not saved and no document is written, whatever the other files
    yielded. *)
Theorem window_failure_saves_nothing :
  forall (E : Py.Env) (project : path) (options : Gui.Options)
         (is_running : nat -> bool) (w w0 : Py.World)
         (self : Rag.CodebaseRAG) (g : path) (e : Json.exn),
    Notions.never_stopped is_running ->
    Rag.__init__ E project w = (inr self, w0) ->
    In g (Spec.scanned self w0) ->
    Spec.always E self (Notions.gui_cache E self options w0) (Py.fs w0) g
                (inl e) ->
    exists w',
      Gui.generation_worker E project options is_running w
      = (inr Gui.Error, w')
      /\ Py.fs w' = Py.fs w0
      /\ Py.written w' = Py.written w.
Proof.
  intros E project options is_running w w0 self g e Hnever Hinit Hg Halways.
  rewrite (GuiFacts.worker_after_init E project _ is_running w self w0 Hinit).
  destruct (GuiFacts.analysis_loop_raises E self
              (Notions.gui_cache E self options w0) is_running
              (Spec.scanned self w0) g e Hnever Hg 0 [] w0 Halways)
    as [e' [w1 Hloop]].
  destruct (GuiFacts.analysis_loop_frame E self
              (Notions.gui_cache E self options w0) is_running
              (Spec.scanned self w0) 0 [] w0) as [Hfs Hwr].
  rewrite Hloop in Hfs, Hwr |- *. cbn [snd] in Hfs, Hwr.
  exists w1. split; [reflexivity |]. split; [exact Hfs |].
  destruct (GuiFacts.init_run E project w self w0 Hinit) as [_ [_ Hw0]].
  congruence.
Qed.

(** X15 on the project [/srv/app], where the generation capability fails
    on [b.py]: the analysis of [a.py] is lost with it. *)
Lemma window_failure_saves_nothing_witness :
  exists w',
    Gui.generation_worker Spec.flaky_env Spec.app_root Notions.all_options
      (fun _ => true) (Spec.world_of Spec.app_disk)
    = (inr Gui.Error, w')
    /\ Py.fs w' = Spec.ready_disk
    /\ Py.written w' = [].
Proof.
  apply (window_failure_saves_nothing Spec.flaky_env Spec.app_root
           Notions.all_options (fun _ => true) (Spec.world_of Spec.app_disk)
           (Spec.world_of Spec.ready_disk) Spec.app_self
           ["srv"; "app"; "b.py"] Json.GenerationError).
  - intros i. reflexivity.
  - reflexivity.
  - vm_compute. right. left. reflexivity.
  - intros [disk log out] Hdisk. cbn in Hdisk. subst disk. reflexivity.
Defined.

(** X16.  Once the stop button is seen, nothing is kept: when the flag,
    which stays cleared once cleared, is cleared at the [k]-th look of the
    worker or before, with [k] at most the number of scanned files, the run
    does not end with the status [Completed], it has sent at most [k]
    prompts, and neither the cache nor any document is written. *)
Theorem window_stop_saves_nothing :
  forall (E : Py.Env) (project : path) (options : Gui.Options)
         (is_running : nat -> bool) (w w0 : Py.World)
         (self : Rag.CodebaseRAG) (k : nat),
    Notions.stays_stopped is_running ->
    is_running k = false ->
    k <= List.length (Spec.scanned self w0) ->
    Rag.__init__ E project w = (inr self, w0) ->
    exists ending w' extra,
      Gui.generation_worker E project options is_running w = (inr ending, w')
      /\ ending <> Gui.Completed
      /\ Py.fs w' = Py.fs w0
      /\ Py.written w' = Py.written w
      /\ Py.llm_log w' = Py.llm_log w ++ extra
      /\ List.length extra <= k.
Proof.
  intros E project options is_running w w0 self k Hstays Hk Hle Hinit.
  rewrite (GuiFacts.worker_after_init E project _ is_running w self w0 Hinit).
  destruct (GuiFacts.init_run E project w self w0 Hinit) as [_ [Hlog0 Hwr0]].
  destruct (GuiFacts.analysis_loop_frame E self
              (Notions.gui_cache E self options w0) is_running
              (Spec.scanned self w0) 0 [] w0) as [Hfs Hwr].
  destruct (GuiFacts.analysis_loop_stopped E self
              (Notions.gui_cache E self options w0) is_running
              (Spec.scanned self w0) k Hstays Hk 0 [] w0 ltac:(lia))
    as [[e [w1 [Hloop [extra [Hlog Hlen]]]]]
       | [looked [res [w1 [Hloop [Hoff [extra [Hlog Hlen]]]]]]]];
    rewrite Hloop in Hfs, Hwr |- *; cbn [fst snd] in *.
  - exists Gui.Error, w1, extra. split; [reflexivity |].
    split; [discriminate |]. repeat split; [congruence .. | lia].
  - rewrite Hoff. exists Gui.Stopped, w1, extra. split; [reflexivity |].
    split; [discriminate |]. repeat split; [congruence .. | lia].
Qed.

(** X16 on the project [/srv/app], stopped during the first file. *)
Lemma window_stop_saves_nothing_witness :
  exists ending w' extra,
    Gui.generation_worker Spec.stub_env Spec.app_root Notions.all_options
      (fun i => Nat.ltb i 1) (Spec.world_of Spec.app_disk) = (inr ending, w')
    /\ ending <> Gui.Completed
    /\ Py.fs w' = Spec.ready_disk
    /\ Py.written w' = []
    /\ Py.llm_log w' = [] ++ extra
    /\ List.length extra <= 1.
Proof.
  apply (window_stop_saves_nothing Spec.stub_env Spec.app_root
           Notions.all_options (fun i => Nat.ltb i 1) (Spec.world_of Spec.app_disk)
           (Spec.world_of Spec.ready_disk) Spec.app_self 1).
  - intros i j Hij Hi. apply Nat.ltb_ge in Hi. apply Nat.ltb_ge. lia.
  - reflexivity.
  - vm_compute. lia.
  - reflexivity.
Defined.

(** X17.  The API step of the worker never consults the generation
    capability: it sends no prompt, and it either leaves the world as it
    is or leaves [API_DOCUMENTATION.md] holding the fixed text.  On typed
    records it leaves the world as it is when no record has [api] in its
    path or [endpoint] in its analysis, and it writes the fixed text when
    one has and the file can be written. *)
Theorem window_api_step_writes_fixed_text :
  forall (E : Py.Env) (project : path) (results : Dict.dict Json.json)
         (w : Py.World),
    (Py.llm_log (snd (Gui.api_step E project results w)) = Py.llm_log w
     /\ (snd (Gui.api_step E project results w) = w
         \/ FS.lookup (PyPath.child project "API_DOCUMENTATION.md")
                      (Py.fs (snd (Gui.api_step E project results w)))
            = Some (FS.File Gui.api_docs)))
    /\ (Spec.typed results = true ->
        existsb Spec.qualifies results = false ->
        Gui.api_step E project results w = (inr tt, w))
    /\ (Spec.typed results = true ->
        existsb Spec.qualifies results = true ->
        forall entries,
          FS.lookup project (Py.fs w) = Some (FS.Dir entries) ->
          (forall es, Dict.get "API_DOCUMENTATION.md" entries
                      <> Some (FS.Dir es)) ->
          Py.denied E (PyPath.child project "API_DOCUMENTATION.md") = false ->
          exists w',
            Gui.api_step E project results w = (inr tt, w')
            /\ FS.lookup (PyPath.child project "API_DOCUMENTATION.md")
                         (Py.fs w') = Some (FS.File Gui.api_docs)
            /\ Py.written w'
               = Py.written w ++ [PyPath.child project "API_DOCUMENTATION.md"]).
Proof.
  intros E project results w. split; [| split].
  - unfold Gui.api_step, Py.bind.
    destruct (Rag.api_files results) as [e | [| f files]]; cbn [Py.lift Py.raise Py.ret snd];
      try (split; [reflexivity | left; reflexivity]).
    unfold Py.write_text.
    destruct (Py.denied E _); [split; [reflexivity | left; reflexivity] |].
    destruct (FS.lookup _ (Py.fs w)) as [[c | es] |];
      try (split; [reflexivity | left; reflexivity]);
      (destruct (FS.put _ _ (Py.fs w)) as [disk' |] eqn:Hput;
       [| split; [reflexivity | left; reflexivity]]);
      (split; [reflexivity |]; right; cbn [snd Py.fs];
       exact (PutFacts.lookup_put_same _ _ _ _ Hput)).
  - intros Htyped Hno. unfold Gui.api_step, Py.bind.
    rewrite (ApiFacts.api_files_typed results Htyped).
    rewrite (ApiFacts.filter_nil_existsb _ _ Hno). reflexivity.
  - intros Htyped Hsome entries Hroot Hfile Hperm.
    unfold Gui.api_step, Py.bind.
    rewrite (ApiFacts.api_files_typed results Htyped).
    destruct (ApiFacts.filter_cons_existsb _ _ Hsome) as [x [rest Hfilter]].
    rewrite Hfilter. cbn [map Py.lift Py.ret].
    unfold Py.write_text. rewrite Hperm.
    assert (Hlook : FS.lookup (PyPath.child project "API_DOCUMENTATION.md")
                              (Py.fs w)
                    = Dict.get "API_DOCUMENTATION.md" entries).
    { unfold PyPath.child. rewrite FSFacts.lookup_app, Hroot. cbn.
      destruct (Dict.get "API_DOCUMENTATION.md" entries); reflexivity. }
    destruct (FSFacts.put_child project "API_DOCUMENTATION.md"
                (FS.File Gui.api_docs) _ _ Hroot) as [n' [Hput Hfound]].
    rewrite Hlook.
    destruct (Dict.get "API_DOCUMENTATION.md" entries) as [[c | es] |] eqn:Hget;
      [| exfalso; exact (Hfile es eq_refl) |];
      rewrite Hput; eexists; (split; [reflexivity |]); split;
        solve [exact Hfound | reflexivity].
Qed.


(* ================================================================== *)
(** ** The ignore test looks at the name only *)

Module IgnoreFacts.
Import Notions.

Lemma star_unfold pat s :
  Fnmatch.fnmatchcase_pat (String "*" pat) s
  = Fnmatch.fnmatchcase_pat pat s
    || match s with
       | EmptyString => false
       | String _ s' => Fnmatch.fnmatchcase_pat (String "*" pat) s'
       end.
Proof. destruct s; reflexivity. Qed.

(** A plain pattern matches itself only. *)
Lemma plain_match pat :
  plain pat = true ->
  forall s, Fnmatch.fnmatchcase_pat pat s = true -> s = pat.
Proof.
  induction pat as [| c pat IH]; intros Hplain s Hs.
  - destruct s; [reflexivity | discriminate].
  - cbn [plain] in Hplain. apply andb_prop in Hplain.
    destruct Hplain as [Hc Hplain]. apply andb_prop in Hc.
    destruct Hc as [Hstar Hquery].
    apply negb_true_iff in Hstar, Hquery.
    cbn [Fnmatch.fnmatchcase_pat] in Hs. rewrite Hstar, Hquery in Hs.
    destruct s as [| d s]; [discriminate |].
    apply andb_prop in Hs. destruct Hs as [Hd Hs].
    apply Ascii.eqb_eq in Hd. subst d. f_equal. exact (IH Hplain s Hs).
Qed.

(** A star before a plain text without a slash matches within the text
    after the last slash. *)
Lemma star_after_slash lit nm :
  plain lit = true -> slash_free lit = true ->
  forall before,
    Fnmatch.fnmatchcase_pat (String "*" lit) (before ++ String "/" nm) = true ->
    Fnmatch.fnmatchcase_pat (String "*" lit) nm = true.
Proof.
  intros Hplain Hfree. induction before as [| c before IH]; intros Hm.
  - cbn [String.append] in Hm. rewrite star_unfold in Hm.
    apply orb_prop in Hm. destruct Hm as [Hm | Hm]; [| exact Hm].
    apply (plain_match lit Hplain) in Hm. rewrite <- Hm in Hfree.
    cbn in Hfree. discriminate.
  - cbn [String.append] in Hm. rewrite star_unfold in Hm.
    apply orb_prop in Hm. destruct Hm as [Hm | Hm]; [| exact (IH Hm)].
    apply (plain_match lit Hplain) in Hm. rewrite <- Hm in Hfree.
    change (String c (before ++ String "/" nm))
      with ((String c before) ++ String "/" nm)%string in Hfree.
    rewrite KeyFacts.slash_free_app_slash in Hfree. discriminate.
Qed.

Lemma append_assoc (a b c : string) :
  ((a ++ b) ++ c)%string = (a ++ (b ++ c))%string.
Proof.
  induction a as [| x a IH]; [reflexivity |].
  cbn [String.append]. rewrite IH. reflexivity.
Qed.

Lemma joined_name p : forall x,
  exists before,
    String "/" (String.concat "/" (x :: p))
    = (before ++ String "/" (last (x :: p) EmptyString))%string.
Proof.
  induction p as [| y p IH]; intros x.
  - exists EmptyString. reflexivity.
  - destruct (IH y) as [before Heq].
    exists (String "/" x ++ before)%string.
    change (last (x :: y :: p) EmptyString) with (last (y :: p) EmptyString).
    change (String.concat "/" (x :: y :: p))
      with (x ++ String "/" (String.concat "/" (y :: p)))%string.
    rewrite Heq. cbn [String.append]. rewrite append_assoc. reflexivity.
Qed.

(** The text of a path is a text that ends in a slash, then the name. *)
Lemma to_str_name p :
  exists before,
    PyPath.to_str p = (before ++ String "/" (PyPath.name p))%string.
Proof.
  destruct p as [| x p].
  - exists EmptyString. reflexivity.
  - exact (joined_name p x).
Qed.

(** The full path matches no pattern that the name does not match. *)
Lemma path_match_is_name_match pat p :
  name_pattern pat = true ->
  Fnmatch.fnmatch (PyPath.to_str p) pat = true ->
  Fnmatch.fnmatch (PyPath.name p) pat = true.
Proof.
  unfold Fnmatch.fnmatch. intros Hpat Hm.
  destruct pat as [| c rest]; [discriminate |]. cbn [name_pattern] in Hpat.
  destruct (Ascii.eqb_spec c "*") as [-> | Hstar].
  - apply andb_prop in Hpat. destruct Hpat as [Hplain Hfree].
    destruct (to_str_name p) as [before Heq]. rewrite Heq in Hm.
    exact (star_after_slash rest _ Hplain Hfree before Hm).
  - exfalso. apply andb_prop in Hpat. destruct Hpat as [Hquery Hslash].
    apply negb_true_iff in Hquery, Hslash.
    apply Ascii.eqb_neq in Hstar.
    unfold PyPath.to_str in Hm. cbn [String.append Fnmatch.fnmatchcase_pat] in Hm.
    rewrite Hstar, Hquery in Hm.
    rewrite Ascii.eqb_sym, Hslash in Hm. discriminate.
Qed.

Lemma ignore_patterns_by_name :
  forallb name_pattern Filter.ignore_patterns = true.
Proof. vm_compute. reflexivity. Qed.

Lemma existsb_orb_absorb {A : Type} (f g : A -> bool) l :
  (forall x, In x l -> g x = true -> f x = true) ->
  existsb (fun x => f x || g x) l = existsb f l.
Proof.
  induction l as [| x l IH]; intros H; [reflexivity |].
  cbn. rewrite IH by (intros y Hy; apply H; right; exact Hy).
  destruct (f x) eqn:Hf; [reflexivity |].
  destruct (g x) eqn:Hg; [| reflexivity].
  rewrite (H x (or_introl eq_refl) Hg) in Hf. discriminate.
Qed.

End IgnoreFacts.

(** X18.  [should_ignore] decides by the name alone: its second test, of
    the pattern against the full path, never finds what the first, against
    the last segment, does not.  So a path is ignored exactly when its last
    segment matches one of the patterns, wherever it lies. *)
Theorem should_ignore_looks_at_the_name_only :
  forall p : path, Filter.should_ignore p = Notions.name_ignored p.
Proof.
  intros p. unfold Filter.should_ignore, Notions.name_ignored.
  apply IgnoreFacts.existsb_orb_absorb. intros pat Hin Hm.
  apply IgnoreFacts.path_match_is_name_match; [| exact Hm].
  pose proof IgnoreFacts.ignore_patterns_by_name as Hall.
  rewrite forallb_forall in Hall. exact (Hall pat Hin).
Qed.


(* ================================================================== *)
(** ** A fresh instance *)

Module FreshFacts.
Import Json Py Rag Spec Notions.

(** After the constructor the cache file can be written, unless the
    operating system refuses it or a directory bears its name. *)
Lemma init_writable E root w self w0 :
  __init__ E root w = (inr self, w0) ->
  denied E (cache_file self) = false ->
  (forall es, FS.lookup (cache_file self) (fs w) <> Some (FS.Dir es)) ->
  writable E self w0.
Proof.
  intros Hinit Hperm Hfile.
  destruct (GuiFacts.init_run E root w self w0 Hinit) as [Hself _].
  split; [| exact Hperm].
  assert (Hcache : cache_dir self = PyPath.child root ".rag_cache")
    by (rewrite Hself; reflexivity).
  unfold cache_file in Hfile. rewrite Hcache in Hfile |- *.
  unfold __init__, bind, mkdir_exist_ok, ret in Hinit. cbn [cache_dir] in Hinit.
  destruct (FS.lookup (PyPath.child root ".rag_cache") (fs w))
    as [[c | es] |] eqn:Hlook.
  - discriminate.
  - injection Hinit as _ <-. exists es. split; [exact Hlook |].
    intros sub Hsub. apply (Hfile sub).
    unfold PyPath.child at 1. rewrite FSFacts.lookup_app, Hlook. cbn.
    rewrite Hsub. reflexivity.
  - destruct (denied E (PyPath.child root ".rag_cache")); [discriminate |].
    destruct (FS.put (PyPath.child root ".rag_cache") (FS.Dir []) (fs w))
      as [disk' |] eqn:Hput; [| discriminate].
    injection Hinit as _ <-. exists []. cbn [fs].
    split; [exact (PutFacts.lookup_put_same _ _ _ _ Hput) |].
    intros sub Hsub. discriminate.
Qed.

End FreshFacts.

(** X19.  Right after the constructor has returned, a result map that is
    saved is loaded back as it is, unless the operating system refuses the
    cache file or a directory bears its name: the constructor leaves the
    cache directory in place for [save_cache]. *)
Theorem fresh_instance_saves_and_loads :
  forall (E : Py.Env) (root : path) (w w0 : Py.World)
         (self : Rag.CodebaseRAG) (data : Dict.dict Json.json),
    Rag.__init__ E root w = (inr self, w0) ->
    Py.denied E (Rag.cache_file self) = false ->
    (forall es, FS.lookup (Rag.cache_file self) (Py.fs w)
                <> Some (FS.Dir es)) ->
    Spec.well_formed (Json.JObj data) = true ->
    exists w1,
      Rag.save_cache E self (Json.JObj data) w0 = (inr tt, w1)
      /\ Rag.load_cache E self w1 = (inr (Json.JObj data), w1).
Proof.
  intros E root w w0 self data Hinit Hperm Hfile Hwf.
  pose proof (FreshFacts.init_writable E root w self w0 Hinit Hperm Hfile)
    as Hwritable.
  destruct (CacheFacts.save_cache_writes E self (Json.JObj data) w0 Hwritable)
    as [w1 [Hsave [Hfound _]]].
  exists w1. split; [exact Hsave |].
  rewrite DispatcherFacts.load_cache_run.
  rewrite (CacheFacts.loaded_cache_of_dump E self _ w1 Hfound Hperm Hwf).
  reflexivity.
Qed.

Lemma fresh_instance_saves_and_loads_witness :
  exists w1,
    Rag.save_cache Spec.stub_env Spec.app_self (Json.JObj Spec.api_results)
      (Spec.world_of Spec.ready_disk) = (inr tt, w1)
    /\ Rag.load_cache Spec.stub_env Spec.app_self w1
       = (inr (Json.JObj Spec.api_results), w1).
Proof.
  apply (fresh_instance_saves_and_loads Spec.stub_env Spec.app_root
           (Spec.world_of Spec.app_disk) (Spec.world_of Spec.ready_disk)
           Spec.app_self Spec.api_results).
  - reflexivity.
  - reflexivity.
  - intros es H. discriminate.
  - reflexivity.
Defined.


(* ================================================================== *)
(** ** Clearing the cache *)

Module ClearFacts.
Import Json Py Rag Spec Notions.

Lemma get_filter_out {A : Type} (x : string) (entries : Dict.dict A) :
  Dict.get x (filter (fun e => negb (String.eqb (fst e) x)) entries) = None.
Proof.
  induction entries as [| [k v] entries IH]; [reflexivity |].
  cbn [filter fst]. destruct (String.eqb_spec k x) as [-> | Hne]; cbn [negb].
  - exact IH.
  - cbn [Dict.get]. destruct (String.eqb_spec x k) as [-> | _];
      [contradiction | exact IH].
Qed.

(** What is there can be removed, and is then gone. *)
Lemma remove_found p :
  p <> [] ->
  forall n m,
    FS.lookup p n = Some m ->
    exists n', Gui.remove p n = Some n' /\ FS.lookup p n' = None.
Proof.
  induction p as [| x p IH]; intros Hne n m Hlook; [congruence |].
  destruct n as [content | entries]; [discriminate |].
  cbn [FS.lookup] in Hlook. cbn [Gui.remove].
  destruct (Dict.get x entries) as [c |] eqn:Hget; [| discriminate].
  destruct p as [| y p].
  - eexists. split; [reflexivity |]. cbn [FS.lookup].
    rewrite get_filter_out. reflexivity.
  - destruct (IH ltac:(discriminate) c m Hlook) as [c' [Hrem Hgone]].
    rewrite Hrem. eexists. split; [reflexivity |].
    cbn [FS.lookup]. rewrite DictFacts.get_set_same. exact Hgone.
Qed.

Section WithEnv.

Variable E : Env.

(** The cache a fresh instance loads when the project had no cache
    directory. *)
Lemma init_without_cache project w self w0 :
  FS.lookup (PyPath.child project ".rag_cache") (fs w) = None ->
  __init__ E project w = (inr self, w0) ->
  loaded_cache E self w0 = JObj [].
Proof.
  intros Hnone Hinit.
  destruct (GuiFacts.init_run E project w self w0 Hinit) as [Hself _].
  unfold __init__, bind, mkdir_exist_ok, ret in Hinit. cbn [cache_dir] in Hinit.
  rewrite Hnone in Hinit.
  destruct (denied E (PyPath.child project ".rag_cache")); [discriminate |].
  destruct (FS.put (PyPath.child project ".rag_cache") (FS.Dir []) (fs w))
    as [disk' |] eqn:Hput; [| discriminate].
  injection Hinit as _ <-.
  unfold loaded_cache, load_cache, bind, path_exists. cbn [fs].
  unfold cache_file. rewrite Hself. cbn [cache_dir].
  unfold PyPath.child at 1. rewrite FSFacts.lookup_app.
  rewrite (PutFacts.lookup_put_same _ _ _ _ Hput). reflexivity.
Qed.

(** Without a cache directory the check box of the cache has no effect. *)
Lemma worker_without_cache project options is_running w :
  FS.lookup (PyPath.child project ".rag_cache") (fs w) = None ->
  Gui.generation_worker E project options is_running w
  = Gui.generation_worker E project (without_cache options) is_running w.
Proof.
  intros Hnone.
  destruct (__init__ E project w) as [[e | self] w0] eqn:Hinit.
  - unfold Gui.generation_worker, try_except, bind. rewrite Hinit. reflexivity.
  - rewrite !(GuiFacts.worker_after_init E project _ is_running w self w0 Hinit).
    unfold gui_cache. cbn [without_cache Gui.use_cache Gui.generate_readme
                             Gui.generate_components Gui.generate_api].
    rewrite (init_without_cache project w self w0 Hnone Hinit).
    destruct (Gui.use_cache options); reflexivity.
Qed.

End WithEnv.

End ClearFacts.

(** X20.  [clear_cache] removes a cache directory the operating system
    lets go, and the next run of the worker is then a cold run: with the
    cache ticked or not, it does the same. *)
Theorem clear_cache_makes_the_next_run_cold :
  forall (E : Py.Env) (project : path) (w : Py.World)
         (entries : list (string * FS.node)),
    FS.lookup (PyPath.child project ".rag_cache") (Py.fs w)
    = Some (FS.Dir entries) ->
    Py.denied E (PyPath.child project ".rag_cache") = false ->
    exists w1,
      Gui.clear_cache E project w = (inr tt, w1)
      /\ FS.lookup (PyPath.child project ".rag_cache") (Py.fs w1) = None
      /\ forall options is_running,
           Gui.generation_worker E project options is_running w1
           = Gui.generation_worker E project (Notions.without_cache options)
               is_running w1.
Proof.
  intros E project w entries Hdir Hperm.
  destruct (ClearFacts.remove_found (PyPath.child project ".rag_cache")
              ltac:(unfold PyPath.child; destruct project; discriminate)
              (Py.fs w) _ Hdir) as [disk' [Hrem Hgone]].
  exists {| Py.fs := disk'; Py.llm_log := Py.llm_log w;
            Py.written := Py.written w |}.
  split; [| split].
  - unfold Gui.clear_cache, Py.try_except, Py.bind, Py.path_exists.
    rewrite Hdir. unfold Gui.rmtree. rewrite Hdir, Hperm, Hrem. reflexivity.
  - exact Hgone.
  - intros options is_running.
    apply ClearFacts.worker_without_cache. exact Hgone.
Qed.

(** X20 on the project [/srv/app] with an empty cache directory. *)
Lemma clear_cache_makes_the_next_run_cold_witness :
  exists w1,
    Gui.clear_cache Spec.stub_env Spec.app_root (Spec.world_of Spec.ready_disk)
    = (inr tt, w1)
    /\ FS.lookup (PyPath.child Spec.app_root ".rag_cache") (Py.fs w1) = None
    /\ forall options is_running,
         Gui.generation_worker Spec.stub_env Spec.app_root options is_running w1
         = Gui.generation_worker Spec.stub_env Spec.app_root
             (Notions.without_cache options) is_running w1.
Proof.
  apply (clear_cache_makes_the_next_run_cold Spec.stub_env Spec.app_root
           (Spec.world_of Spec.ready_disk) []).
  - reflexivity.
  - reflexivity.
Defined.


(* ================================================================== *)
(** ** The count of the window and the scan *)

Module CountFacts.
Import FS Spec Notions.

(** Every file of a scan is among the files below the directory. *)
Lemma scan_in_rglob n :
  forall top p, In p (scan_from top n) -> In p (Gui.rglob_files top n).
Proof.
  induction n as [content | entries IH] using node_rect'; intros top p Hin.
  - destruct Hin.
  - rewrite KeyFacts.scan_from_dir in Hin. rewrite Forall_forall in IH.
    cbn [Gui.rglob_files]. apply in_flat_map.
    apply in_app_or in Hin. destruct Hin as [Hin | Hin].
    + unfold Scanner.scan_dir in Hin. apply filter_In in Hin.
      destruct Hin as [Hin _]. apply in_map_iff in Hin.
      destruct Hin as [f [<- Hf]]. apply in_map_iff in Hf.
      destruct Hf as [e [<- He]]. apply filter_In in He.
      destruct He as [He Hfile]. exists e. split; [exact He |].
      destruct (snd e); [left; reflexivity | discriminate].
    + apply in_flat_map in Hin. destruct Hin as [e [He Hin]].
      exists e. split; [exact He |].
      destruct (is_dir (snd e) && Scanner.keep_dir top (fst e)) eqn:Hk;
        [| destruct Hin].
      apply andb_prop in Hk. destruct Hk as [Hdir _].
      pose proof (IH e He _ _ Hin) as Hsub.
      destruct (snd e); [discriminate | exact Hsub].
Qed.

End CountFacts.

(** X21.  On a disk where the names within a directory are distinct and
    contain no slash, the number [scan_project_files] shows is at least the
    number of the scanned files that carry one of its nine extensions: the
    count leaves out the files of the other extensions that are analysed
    too, and it includes files in ignored directories, which are not. *)
Theorem window_count_covers_the_scan :
  forall (fs : FS.node) (project : path) (count : nat),
    Notions.proper fs = true ->
    Gui.scan_project_files fs project = Some count ->
    List.length (filter Notions.counted (Scanner.scan_codebase fs project))
    <= count.
Proof.
  intros fs project count Hproper Hcount.
  unfold Gui.scan_project_files in Hcount. unfold Scanner.scan_codebase.
  destruct (FS.lookup project fs) as [n |] eqn:Hlook; [| discriminate].
  injection Hcount as <-. fold (Notions.scan_from project n).
  apply NoDup_incl_length.
  - apply NoDup_filter. apply KeyFacts.scan_from_NoDup.
    exact (KeyFacts.proper_lookup _ _ _ Hproper Hlook).
  - intros p Hp. apply filter_In in Hp. destruct Hp as [Hp Hext].
    apply filter_In. split; [| exact Hext].
    exact (CountFacts.scan_in_rglob n _ _ Hp).
Qed.

(** X21 at the project [/srv/app]. *)
Lemma window_count_covers_the_scan_witness :
  List.length (filter Notions.counted
                 (Scanner.scan_codebase Spec.scenario_disk ["srv"; "app"]))
  <= match Gui.scan_project_files Spec.scenario_disk ["srv"; "app"] with
     | Some count => count
     | None => 0
     end.
Proof.
  apply (window_count_covers_the_scan Spec.scenario_disk ["srv"; "app"]).
  - reflexivity.
  - reflexivity.
Defined.

(* ================================================================== *)
(** ** The overview reads the first twenty summaries *)

Module OverviewFacts.
Import Json Py Rag Spec Notions.

Lemma collect_app {A B : Type} (f : A -> exn + option B) l1 l2 r1 r2 :
  collect f l1 = inr r1 -> collect f l2 = inr r2 ->
  collect f (l1 ++ l2) = inr (r1 ++ r2).
Proof.
  revert r1. induction l1 as [| x l1 IH]; intros r1 H1 H2.
  - cbn in H1. injection H1 as <-. exact H2.
  - cbn in H1 |- *. destruct (f x) as [e | o]; [discriminate |].
    destruct (collect f l1) as [e | r] eqn:Hc; [discriminate |].
    injection H1 as <-. rewrite (IH r eq_refl H2).
    destruct o; reflexivity.
Qed.

(** The summaries of typed records can be made. *)
Lemma file_summaries_typed E results :
  typed results = true -> exists summaries, file_summaries E results = inr summaries.
Proof.
  unfold file_summaries, typed.
  induction results as [| [key record] results IH]; intros Htyped.
  - exists []. reflexivity.
  - cbn [forallb snd] in Htyped. apply andb_prop in Htyped.
    destruct Htyped as [Hrecord Hrest].
    destruct (IH Hrest) as [summaries Hs].
    cbn [collect fst snd]. rewrite Hs.
    destruct record as [| b | n | s | items | fields]; try discriminate.
    cbn [typed_record] in Hrecord.
    unfold file_summary. cbn [py_in py_getitem]. unfold Dict.mem.
    destruct (Dict.get "analysis" fields) as [a |]; [| eexists; reflexivity].
    destruct a as [| b | n | s | items | d]; try discriminate.
    cbn [py_slice]. eexists. reflexivity.
Qed.

End OverviewFacts.

(** X22.  The overview is made from the first twenty summaries: records
    that come after the twentieth record with an analysis do not change
    the prompt [generate_project_overview] sends, as long as their
    summaries can be made. *)
Theorem overview_reads_first_twenty_summaries :
  forall (E : Py.Env) (self : Rag.CodebaseRAG)
         (results more : Dict.dict Json.json) (summaries : list string)
         (w : Py.World),
    Rag.file_summaries E results = inr summaries ->
    20 <= List.length summaries ->
    Spec.typed more = true ->
    Rag.generate_project_overview E self (results ++ more) w
    = Rag.generate_project_overview E self results w.
Proof.
  intros E self results more summaries w Hs Hlen Htyped.
  destruct (OverviewFacts.file_summaries_typed E more Htyped) as [later Hlater].
  unfold Rag.generate_project_overview, Rag.file_summaries in *.
  rewrite (OverviewFacts.collect_app _ _ _ _ _ Hs Hlater), Hs.
  unfold Py.bind. cbn [Py.lift Py.ret].
  rewrite firstn_app.
  replace (20 - List.length summaries) with 0 by lia.
  cbn [firstn]. rewrite app_nil_r. reflexivity.
Qed.


(* ================================================================== *)
(** ** The component documents *)

Module DocsFacts.
Import Json Py Rag Spec Notions.

(** A file put into a directory: the directory then lists it. *)
Lemma put_child_dir (dir : path) (x : string) (new : FS.node) :
  forall n entries,
    FS.lookup dir n = Some (FS.Dir entries) ->
    exists n',
      FS.put (PyPath.child dir x) new n = Some n'
      /\ FS.lookup dir n' = Some (FS.Dir (Dict.set x new entries)).
Proof.
  unfold PyPath.child.
  induction dir as [| r dir IH]; intros n entries Hdir; cbn in Hdir.
  - injection Hdir as ->. cbn. eexists. split; reflexivity.
  - destruct n as [content | es]; [discriminate |].
    destruct (Dict.get r es) as [c |] eqn:Hr; [| discriminate].
    destruct (IH c entries Hdir) as [c' [Hput Hlook]].
    cbn [app FS.put]. destruct (dir ++ [x]) as [| y rest] eqn:Hrest.
    + destruct dir; discriminate.
    + rewrite Hr, Hput. eexists. split; [reflexivity |].
      cbn [FS.lookup]. rewrite DictFacts.get_set_same. exact Hlook.
Qed.

Lemma lookup_child dir name n entries :
  FS.lookup dir n = Some (FS.Dir entries) ->
  FS.lookup (PyPath.child dir name) n = Dict.get name entries.
Proof.
  intros Hdir. unfold PyPath.child. rewrite FSFacts.lookup_app, Hdir. cbn.
  destruct (Dict.get name entries); reflexivity.
Qed.

Section WithEnv.

Variable E : Env.

Hypothesis Hdet : deterministic E.
Hypothesis Hanswers : answers E.
Hypothesis Hperm : forall p, denied E p = false.

Lemma ask_llm_reply prompt w :
  ask_llm E prompt w = (inr (reply E prompt), prompted w prompt).
Proof.
  unfold ask_llm, reply, prompted. rewrite (Hdet (llm_log w) [] prompt).
  destruct (Hanswers [] prompt) as [text ->]. reflexivity.
Qed.

(** The body of the loop for a typed record. *)
Lemma component_doc_typed docs_dir key record w :
  typed_record record = true ->
  component_doc E docs_dir key record w
  = if documented record
    then try_except
           (write_text E (PyPath.child docs_dir (docs_name key))
                       (reply E (doc_prompt_of E key record)))
           (fun _ => ret tt)
           (prompted w (doc_prompt_of E key record))
    else (inr tt, w).
Proof.
  intros Htyped. destruct record as [| b | n | s | items | fields];
    try discriminate.
  cbn [typed_record] in Htyped.
  unfold component_doc, has_analysis, documented, doc_prompt_of.
  cbn [py_in py_getitem py_get analysis_text]. unfold Dict.mem.
  destruct (Dict.get "analysis" fields) as [a |]; [| reflexivity].
  destruct a as [| b | n | s | items | d]; try discriminate.
  cbn [truthy]. unfold bind at 1. cbn [lift ret].
  destruct (String.eqb s EmptyString); cbn [negb]; [reflexivity |].
  unfold bind at 1. cbn [lift ret]. unfold bind at 1.
  destruct (Dict.get "content_preview" fields) as [preview |];
    cbn [lift ret]; unfold bind; rewrite ask_llm_reply; reflexivity.
Qed.

(** The loop of [generate_component_docs] in a directory where every
    document can be written. *)
Lemma docs_loop docs_dir results :
  forall w entries,
    typed results = true ->
    FS.lookup docs_dir (fs w) = Some (FS.Dir entries) ->
    (forall kv es, In kv results ->
                   Dict.get (docs_name (fst kv)) entries <> Some (FS.Dir es)) ->
    exists w',
      for_each results (fun kv => component_doc E docs_dir (fst kv) (snd kv)) w
      = (inr tt, w')
      /\ forall name,
           FS.lookup (PyPath.child docs_dir name) (fs w')
           = match last_document E results name with
             | Some text => Some (FS.File text)
             | None => FS.lookup (PyPath.child docs_dir name) (fs w)
             end.
Proof.
  induction results as [| [key record] results IH];
    intros w entries Htyped Hdir Hfiles.
  - exists w. split; [reflexivity |]. intros name. reflexivity.
  - cbn [typed forallb snd] in Htyped. apply andb_prop in Htyped.
    destruct Htyped as [Hrecord Hrest].
    cbn [for_each fst snd]. unfold bind at 1.
    rewrite (component_doc_typed docs_dir key record w Hrecord).
    cbn [last_document fst snd].
    destruct (documented record) eqn:Hdoc; cbn [andb].
    + unfold try_except, write_text. rewrite Hperm. cbn [fs prompted].
      rewrite (lookup_child docs_dir (docs_name key) _ entries Hdir).
      destruct (put_child_dir docs_dir (docs_name key)
                  (FS.File (reply E (doc_prompt_of E key record)))
                  _ _ Hdir) as [disk' [Hput Hdir']].
      assert (Hrun : (match Dict.get (docs_name key) entries with
                      | Some (FS.Dir _) => (inl OSError, prompted w (doc_prompt_of E key record))
                      | _ =>
                          match FS.put (PyPath.child docs_dir (docs_name key))
                                  (FS.File (reply E (doc_prompt_of E key record)))
                                  (fs w) with
                          | Some fs' =>
                              (inr tt,
                               {| fs := fs';
                                  llm_log := llm_log (prompted w (doc_prompt_of E key record));
                                  written := written (prompted w (doc_prompt_of E key record))
                                             ++ [PyPath.child docs_dir (docs_name key)] |})
                          | None => (inl OSError, prompted w (doc_prompt_of E key record))
                          end
                      end)
                     = (@inr exn unit tt,
                        {| fs := disk';
                           llm_log := llm_log w ++ [doc_prompt_of E key record];
                           written := written w
                                      ++ [PyPath.child docs_dir (docs_name key)] |})).
      { rewrite Hput.
        destruct (Dict.get (docs_name key) entries) as [[c | es] |] eqn:Hget;
          try reflexivity.
        exfalso. exact (Hfiles (key, record) es (or_introl eq_refl) Hget). }
      cbn [prompted fs llm_log written] in Hrun |- *. rewrite Hrun.
      destruct (IH {| fs := disk';
                      llm_log := llm_log w ++ [doc_prompt_of E key record];
                      written := written w
                                 ++ [PyPath.child docs_dir (docs_name key)] |}
                   (Dict.set (docs_name key)
                      (FS.File (reply E (doc_prompt_of E key record))) entries)
                   Hrest Hdir') as [w' [Hloop Hfinal]].
      { intros kv es Hkv.
        destruct (String.eqb_spec (docs_name (fst kv)) (docs_name key))
          as [-> | Hne].
        - rewrite DictFacts.get_set_same. discriminate.
        - rewrite DictFacts.get_set_other by exact Hne.
          apply Hfiles. right. exact Hkv. }
      exists w'. split; [exact Hloop |]. intros name. rewrite (Hfinal name).
      destruct (last_document E results name); [reflexivity |].
      cbn [fs]. destruct (String.eqb_spec (docs_name key) name) as [<- | Hne].
      * exact (PutFacts.lookup_put_same _ _ _ _ Hput).
      * unfold PyPath.child in *.
        exact (PutFacts.lookup_put_diverge docs_dir name (docs_name key) [] []
                 _ (fun H => Hne (eq_sym H)) _ _ Hput).
    + destruct (IH w entries Hrest Hdir
                  (fun kv es Hkv => Hfiles kv es (or_intror Hkv)))
        as [w' [Hloop Hfinal]].
      exists w'. split; [exact Hloop |]. intros name. rewrite (Hfinal name).
      destruct (last_document E results name); reflexivity.
Qed.

End WithEnv.

End DocsFacts.

(** X23.  The component documents are keyed by the stem of the path alone.
    With typed records, a generation capability that answers and does not
    depend on earlier prompts, and a directory [docs] in which every
    document can be written, [generate_component_docs] leaves, under each
    name, the document of the last record that gets a document of that
    name: of two files with the same stem in different directories only the
    later keeps its document.  A name no record gets keeps what it held. *)
Theorem component_documents_are_keyed_by_stem :
  forall (E : Py.Env) (self : Rag.CodebaseRAG)
         (results : Dict.dict Json.json) (w : Py.World)
         (entries : list (string * FS.node)),
    Spec.deterministic E -> Notions.answers E ->
    (forall p, Py.denied E p = false) ->
    Spec.typed results = true ->
    FS.lookup (PyPath.child (Rag.root_path self) "docs") (Py.fs w)
    = Some (FS.Dir entries) ->
    (forall kv es, In kv results ->
                   Dict.get (Notions.docs_name (fst kv)) entries
                   <> Some (FS.Dir es)) ->
    exists w',
      Rag.generate_component_docs E self results w = (inr tt, w')
      /\ forall name,
           FS.lookup (PyPath.child (PyPath.child (Rag.root_path self) "docs")
                                   name) (Py.fs w')
           = match Notions.last_document E results name with
             | Some text => Some (FS.File text)
             | None =>
                 FS.lookup (PyPath.child
                              (PyPath.child (Rag.root_path self) "docs") name)
                           (Py.fs w)
             end.
Proof.
  intros E self results w entries Hdet Hanswers Hperm Htyped Hdir Hfiles.
  unfold Rag.generate_component_docs, Py.bind, Py.mkdir_exist_ok.
  rewrite Hdir.
  exact (DocsFacts.docs_loop E Hdet Hanswers Hperm _ results w entries
           Htyped Hdir Hfiles).
Qed.

(** X23 on [web/utils.py] and [db/utils.py]: [docs/utils.md] ends with
    the document of [db/utils.py]. *)
Lemma component_documents_are_keyed_by_stem_witness :
  exists w',
    Rag.generate_component_docs Notions.echo_env Spec.app_self
      Notions.twin_results (Spec.world_of Notions.docs_disk) = (inr tt, w')
    /\ FS.lookup ["srv"; "app"; "docs"; "utils.md"] (Py.fs w')
       = Some (FS.File (Rag.doc_prompt "db/utils.py" "Helpers of the store."
                          EmptyString)).
Proof.
  destruct (component_documents_are_keyed_by_stem Notions.echo_env
              Spec.app_self Notions.twin_results
              (Spec.world_of Notions.docs_disk) [])
    as [w' [Hrun Hfinal]].
  - intros log1 log2 prompt. reflexivity.
  - intros log prompt. eexists. reflexivity.
  - intros p. reflexivity.
  - reflexivity.
  - reflexivity.
  - intros kv es _ H. discriminate.
  - exists w'. split; [exact Hrun |]. exact (Hfinal "utils.md").
Defined.


(** X22 on twenty records followed by one more. *)
Lemma overview_reads_first_twenty_summaries_witness :
  Rag.generate_project_overview Spec.stub_env Spec.app_self
    (Notions.twenty_results ++ Spec.api_results) (Spec.world_of Spec.ready_disk)
  = Rag.generate_project_overview Spec.stub_env Spec.app_self
      Notions.twenty_results (Spec.world_of Spec.ready_disk).
Proof.
  apply (overview_reads_first_twenty_summaries Spec.stub_env Spec.app_self
           Notions.twenty_results Spec.api_results
           (match Rag.file_summaries Spec.stub_env Notions.twenty_results with
            | inr summaries => summaries
            | inl _ => []
            end)).
  - reflexivity.
  - vm_compute. lia.
  - reflexivity.
Defined.

(** X17 on the project [/srv/app] with a record for [web/api.py]. *)
Lemma window_api_step_writes_fixed_text_witness :
  exists w',
    Gui.api_step Spec.stub_env Spec.app_root Spec.api_results
      (Spec.world_of Spec.ready_disk) = (inr tt, w')
    /\ FS.lookup (PyPath.child Spec.app_root "API_DOCUMENTATION.md") (Py.fs w')
       = Some (FS.File Gui.api_docs).
Proof.
  destruct (window_api_step_writes_fixed_text Spec.stub_env Spec.app_root
              Spec.api_results (Spec.world_of Spec.ready_disk))
    as [_ [_ Hwrite]].
  destruct (Hwrite eq_refl eq_refl
              [("a.py", FS.File "def f(): pass"); ("b.py", FS.File "x = 1");
               (".rag_cache", FS.Dir [])] eq_refl
              ltac:(intros es H; discriminate) eq_refl)
    as [w' [Hrun [Hfound _]]].
  exists w'. split; [exact Hrun | exact Hfound].
Defined.

(* ================================================================== *)
(** ** A project without a file to analyse *)

(** X24.  A project in which the scan finds no file still costs three
    prompts: the analysis sends none, the README sends its three, about no
    file at all, and neither the component documents nor the API
    documentation send any. *)
Theorem empty_project_sends_three_prompts :
  forall (E : Py.Env) (self : Rag.CodebaseRAG)
         (schedule : list path -> list path) (w : Py.World),
    Spec.scanned self w = [] ->
    Permutation (schedule []) [] ->
    Notions.answers E ->
    Py.llm_log (snd (Rag.generate_all_documentation E self schedule w))
    = Py.llm_log w
      ++ [Rag.overview_prompt EmptyString; Rag.structure_prompt [];
          Rag.setup_prompt []].
Proof.
  intros E self schedule w Hscan Hperm Hanswers.
  unfold Rag.generate_all_documentation. unfold Py.bind at 1.
  rewrite (DispatcherFacts.analyze_codebase_parallel_unfold E self 4
             schedule w) by lia.
  rewrite Hscan.
  pose proof (Permutation_nil (Permutation_sym Hperm)) as Hnil.
  rewrite Hnil. cbn [Rag.collect_results Py.ret].
  destruct (SaveFacts.save_cache_effect E self (Json.JObj []) w)
    as [w1 [Hsave [Hlog1 _]]].
  rewrite Hsave. cbn [snd].
  unfold Rag.generate_readme, Rag.generate_project_overview.
  cbn [Rag.file_summaries Py.collect Py.lift Py.ret firstn Dict.keys map].
  unfold Py.bind at 1. unfold Py.bind at 1. unfold Py.bind at 1.
  cbn [Py.ret PyStr.join String.concat].
  unfold Py.ask_llm at 1.
  destruct (Hanswers (Py.llm_log w1) (Rag.overview_prompt EmptyString))
    as [overview ->].
  unfold Py.bind at 1. unfold Py.ask_llm at 1. cbn [Py.llm_log].
  destruct (Hanswers (Py.llm_log w1 ++ [Rag.overview_prompt EmptyString])
              (Rag.structure_prompt [])) as [structure ->].
  unfold Py.bind at 1. unfold Py.ask_llm at 1. cbn [Py.llm_log].
  destruct (Hanswers ((Py.llm_log w1 ++ [Rag.overview_prompt EmptyString])
                      ++ [Rag.structure_prompt []])
              (Rag.setup_prompt [])) as [installation ->].
  cbn [Py.ret]. unfold Py.bind at 1.
  match goal with
  | |- context [Py.try_except ?body ?handler ?world] =>
      destruct (BoundFacts.sends_guarded_write E
                  (PyPath.child (Rag.root_path self) "README.md")
                  (Rag.readme_template (Rag.project_name self) overview
                     structure "Generated from code analysis" installation
                     "See individual component documentation"
                     "See API documentation file"
                     "Extracted from project files"
                     "Contributions welcome! Please read the code structure first."
                     "Please specify license") world)
        as [extra [Hlog Hlen]]
  end.
  destruct extra as [| x extra]; [| cbn in Hlen; lia].
  rewrite app_nil_r in Hlog. cbn [Py.llm_log] in Hlog.
  match type of Hlog with
  | Py.llm_log (snd ?run) = _ => destruct run as [[e | []] w2]
  end; cbn [snd] in Hlog |- *.
  - rewrite Hlog, Hlog1, <- !app_assoc. reflexivity.
  - unfold Py.bind at 1.
    destruct (BoundFacts.sends_component_docs E self [] w2)
      as [extra [Hlog2 Hlen2]].
    destruct extra as [| x extra]; [| cbn in Hlen2; lia].
    rewrite app_nil_r in Hlog2.
    destruct (Rag.generate_component_docs E self [] w2) as [[e | []] w3];
      cbn [snd] in Hlog2 |- *.
    + rewrite Hlog2, Hlog, Hlog1, <- !app_assoc. reflexivity.
    + unfold Rag.generate_api_documentation, Py.bind. cbn.
      rewrite Hlog2, Hlog, Hlog1, <- !app_assoc. reflexivity.
Qed.

(** X24 on an empty project. *)
Lemma empty_project_sends_three_prompts_witness :
  Py.llm_log
    (snd (Rag.generate_all_documentation Spec.stub_env Spec.app_self
            (fun l => l) (Spec.world_of Notions.docs_disk)))
  = [] ++ [Rag.overview_prompt EmptyString; Rag.structure_prompt [];
           Rag.setup_prompt []].
Proof.
  apply (empty_project_sends_three_prompts Spec.stub_env Spec.app_self
           (fun l => l) (Spec.world_of Notions.docs_disk)).
  - reflexivity.
  - apply Permutation_refl.
  - intros log prompt. eexists. reflexivity.
Defined.
